(** * st-deep-hydro: models, file discovery and dataset processing

    A shallow embedding of the parts of [stdeephydro/models.py],
    [stdeephydro/ioutils.py] and [stdeephydro/processing.py] that carry the
    behaviour the specification describes, followed by the theorems that
    settle each specified property (C1 to C10) and by further properties of
    the code (X1 to X21): the architectures built, file discovery by
    product, filling and blanking values, the range of scaled values, how
    processing and merging fail, and the dates of predictions.

    Python exceptions are values of [exn]; a computation that may raise
    returns a [result].  Objects that the program mutates (the processor,
    [HydroDataset] instances and the labelled arrays they refer to) live in
    an explicit store, so that aliasing is visible. *)

From Stdlib Require Import ZArith QArith Qcanon Ascii String List Bool Lia.
From stdpp Require Import gmap strings list.

Local Open Scope string_scope.
Local Open Scope list_scope.
Local Open Scope Z_scope.

(** ** Python exceptions and results *)

Inductive exn :=
| ConfigError
| KeyError
| TypeError
| IndexError
| ValueError
| FileNotFoundError
| AttributeError
| NotImplementedError
| Dangling  (* no Python exception: a location that holds no object is read *).

Inductive result (A : Type) :=
| Ok (a : A)
| Raise (e : exn).

Arguments Ok {A} a.
Arguments Raise {A} e.

Definition bind {A B : Type} (m : result A) (k : A -> result B) : result B :=
  match m with
  | Ok a => k a
  | Raise e => Raise e
  end.

Declare Scope py_scope.
Delimit Scope py_scope with py.
Notation "x <- m ;; k" := (bind m (fun x => k))
  (at level 100, m at next level, right associativity) : py_scope.
Local Open Scope py_scope.

Fixpoint mapM {A B : Type} (f : A -> result B) (l : list A) : result (list B) :=
  match l with
  | [] => Ok []
  | a :: l' => b <- f a ;; bs <- mapM f l' ;; Ok (b :: bs)
  end.

(** [try: body except KeyError as ex: raise ConfigError(...) from ex] *)
Definition except_KeyError {A : Type} (body : result A) : result A :=
  match body with
  | Raise KeyError => Raise ConfigError
  | r => r
  end.

(** ** Python values held by a configuration

    [cfg.params] is a dict-like tree read from a configuration file: dicts
    with string keys, lists, integers, floats, booleans, strings and None.
    Floats of a configuration are finite, they are kept as rationals. *)

#[warnings="-register-all"]
Inductive pyval :=
| PNone
| PBool (b : bool)
| PInt (z : Z)
| PFloat (q : Q)
| PStr (s : string)
| PList (l : list pyval)
| PDict (d : gmap string pyval).

(** The integer an [int] or [bool] stands for ([bool] is a subclass of
    [int]). *)
Definition py_index (k : pyval) : option Z :=
  match k with
  | PInt z => Some z
  | PBool b => Some (Z.b2z b)
  | _ => None
  end.

(** [l[i]] on a sequence: negative indices count from the end. *)
Definition seq_getitem {A : Type} (l : list A) (i : Z) : result A :=
  let n := Z.of_nat (length l) in
  let j := if i <? 0 then i + n else i in
  if (j <? 0) || (n <=? j) then Raise IndexError
  else match l !! Z.to_nat j with
       | Some a => Ok a
       | None => Raise IndexError
       end.

Definition chars (s : string) : list pyval :=
  map (fun c => PStr (String c EmptyString)) (list_ascii_of_string s).

(** [v[k]] *)
Definition py_getitem (v k : pyval) : result pyval :=
  match v with
  | PDict d =>
      match k with
      | PStr s => match d !! s with Some x => Ok x | None => Raise KeyError end
      | PList _ | PDict _ => Raise TypeError
      | _ => Raise KeyError
      end
  | PList l =>
      match py_index k with
      | Some i => seq_getitem l i
      | None => Raise TypeError
      end
  | PStr s =>
      match py_index k with
      | Some i => seq_getitem (chars s) i
      | None => Raise TypeError
      end
  | _ => Raise TypeError
  end.

Notation "v .[ k ]" := (py_getitem v k) (at level 1, format "v .[ k ]") : py_scope.

(** [len(v)] *)
Definition py_len (v : pyval) : result Z :=
  match v with
  | PList l => Ok (Z.of_nat (length l))
  | PStr s => Ok (Z.of_nat (String.length s))
  | PDict d => Ok (Z.of_nat (size d))
  | _ => Raise TypeError
  end.

(** [n == v] for an integer [n]: Python compares numbers by value, and
    anything else is unequal to an integer. *)
Definition py_eq_int (n : Z) (v : pyval) : bool :=
  match v with
  | PInt z => n =? z
  | PBool b => n =? Z.b2z b
  | PFloat q => Qeq_bool (inject_Z n) q
  | _ => false
  end.

(** [n != v] *)
Definition py_ne_int (n : Z) (v : pyval) : bool := negb (py_eq_int n v).

(** [isinstance(v, int)] *)
Definition isinstance_int (v : pyval) : bool :=
  match v with
  | PInt _ | PBool _ => true
  | _ => false
  end.

(** [v < 0], used on values that passed [isinstance_int]. *)
Definition py_lt_zero (v : pyval) : result bool :=
  match v with
  | PInt z => Ok (z <? 0)
  | PBool b => Ok false
  | PFloat q => Ok (Qle_bool q 0 && negb (Qeq_bool q 0))
  | _ => Raise TypeError
  end.

(** [v - 1] *)
Definition py_pred (v : pyval) : result pyval :=
  match v with
  | PInt z => Ok (PInt (z - 1))
  | PBool b => Ok (PInt (Z.b2z b - 1))
  | PFloat q => Ok (PFloat (q - 1))
  | _ => Raise TypeError
  end.

(** [range(0, v)] as the list of its elements. *)
Definition py_range (v : pyval) : result (list Z) :=
  match py_index v with
  | Some n => Ok (map Z.of_nat (seq 0 (Z.to_nat n)))
  | None => Raise TypeError
  end.

(** ** Layers and models of the deep-learning framework

    The framework is used as a constructor of layers; a layer is kept as
    the description of its constructor call.  The checks of the framework
    itself, a layer refusing its arguments or the shape of its input, are
    not modelled: a [_build_model] that returns here tells which layers the
    code asks for and in which order, not that the framework accepts
    them. *)

Inductive layer :=
| InputLayer (input_shape : pyval)
| LSTM (units : pyval) (return_sequences : bool) (dropout : option pyval)
| Dense (units : pyval) (relu : bool)
| Conv2D (filters : pyval)
| MaxPooling2D
| GlobalMaxPooling2D
| TimeDistributed (l : layer)
| ConvLSTM2D (filters : pyval) (return_sequences : bool)
| MaxPooling3D
| Conv3D (filters : pyval)
| GlobalMaxPooling3D.

Inductive keras_model :=
| Sequential (layers : list layer)
| Functional (input_lstm : pyval) (x_lstm : list layer)
             (input_cnn : pyval) (cnn_lstm_x : list layer)
             (output : list layer).

(** [Dense(units=1)] unless an output size is given. *)
Definition output_layer (output_size : option pyval) : layer :=
  match output_size with
  | None => Dense (PInt 1) false
  | Some n => Dense n false
  end.

(** Modelled from the spec: [config.ModelConfig] is not among the sources.
    The spec describes it as a declarative configuration (architecture type,
    hyperparameters, loss/optimizer/metrics, batch size, window length,
    prediction offset); the models read [model_type] and [params] from it. *)
Record ModelConfig := {
  model_type : string;
  params : pyval;
  timesteps : pyval;
  offset : Z;
  batch_size : Z;
  loss : list string;
  optimizer : string;
  metrics : list string
}.

(** *** LstmModel *)
Module LstmModel.

Definition _build_model (input_shape : pyval) (params : pyval * pyval * pyval)
    (output_size : option pyval) : result keras_model :=
  let '(hidden_layers, units, dropout) := params in
  stop <- py_pred hidden_layers ;;
  r <- py_range stop ;;
  stacked <- mapM (fun i =>
               u <- units.[PInt i] ;;
               d <- dropout.[PInt i] ;;
               Ok (LSTM u true (Some d))) r ;;
  u <- units.[stop] ;;
  d <- dropout.[stop] ;;
  Ok (Sequential (InputLayer input_shape :: stacked
                    ++ [LSTM u false (Some d); output_layer output_size])).

Definition _get_and_validate_params (params : pyval)
    : result (pyval * pyval * pyval) :=
  except_KeyError (
    params <- params.[PStr "lstm"] ;;
    hidden_layers <- params.[PStr "hiddenLayers"] ;;
    units <- params.[PStr "units"] ;;
    n <- py_len units ;;
    if py_ne_int n hidden_layers then Raise ConfigError else
    dropout <- params.[PStr "dropout"] ;;
    n <- py_len dropout ;;
    if py_ne_int n hidden_layers then Raise ConfigError else
    Ok (hidden_layers, units, dropout)).

End LstmModel.

(** The four CNN based classes each carry their own private copy of the
    two section validators; the copies are textually identical, so they are
    embedded once and named by every class below. *)
Module CnnParams.

Definition __get_and_validate_lstm_params (params : pyval)
    : result (pyval * pyval * pyval) :=
  except_KeyError (
    hidden_layers <- params.[PStr "hiddenLayers"] ;;
    units <- params.[PStr "units"] ;;
    if negb (isinstance_int hidden_layers) then Raise ConfigError else
    neg <- py_lt_zero hidden_layers ;;
    if (neg : bool) then Raise ConfigError else
    n <- py_len units ;;
    if py_ne_int n hidden_layers then Raise ConfigError else
    dropout <- params.[PStr "dropout"] ;;
    n <- py_len dropout ;;
    if py_ne_int n hidden_layers then Raise ConfigError else
    Ok (hidden_layers, units, dropout)).

Definition __get_and_validate_cnn_params (params : pyval)
    : result (pyval * pyval) :=
  except_KeyError (
    hidden_layers <- params.[PStr "hiddenLayers"] ;;
    filters <- params.[PStr "filters"] ;;
    if negb (isinstance_int hidden_layers) then Raise ConfigError else
    neg <- py_lt_zero hidden_layers ;;
    if (neg : bool) then Raise ConfigError else
    n <- py_len filters ;;
    if py_ne_int n hidden_layers then Raise ConfigError else
    Ok (hidden_layers, filters)).

(** [_get_and_validate_params] of [CnnLstmModel] and
    [MultiInputCnnLstmModel] *)
Definition cnn_and_lstm (params : pyval)
    : result (pyval * pyval * pyval * pyval * pyval) :=
  except_KeyError (
    cnn_params <- params.[PStr "cnn"] ;;
    cnn <- __get_and_validate_cnn_params cnn_params ;;
    let '(hidden_cnn_layers, filters) := cnn in
    lstm_params <- params.[PStr "lstm"] ;;
    lstm <- __get_and_validate_lstm_params lstm_params ;;
    let '(hidden_lstm_layers, units, dropout) := lstm in
    Ok (hidden_cnn_layers, filters, hidden_lstm_layers, units, dropout)).

(** [_get_and_validate_params] of [ConvLstmModel] and [Conv3DModel] *)
Definition cnn_only (params : pyval) : result (pyval * pyval) :=
  except_KeyError (
    cnn_params <- params.[PStr "cnn"] ;;
    cnn <- __get_and_validate_cnn_params cnn_params ;;
    let '(hidden_cnn_layers, filters) := cnn in
    Ok (hidden_cnn_layers, filters)).

End CnnParams.

(** *** CnnLstmModel *)
Module CnnLstmModel.

Definition _build_model (input_shape : pyval)
    (params : pyval * pyval * pyval * pyval * pyval)
    (output_size : option pyval) : result keras_model :=
  let '(hidden_cnn_layers, filters, hidden_lstm_layers, units, dropout) := params in
  (* CNN layers *)
  cnn_stop <- py_pred hidden_cnn_layers ;;
  r <- py_range cnn_stop ;;
  cnn <- mapM (fun i =>
           f <- filters.[PInt i] ;;
           Ok [TimeDistributed (Conv2D f); TimeDistributed MaxPooling2D]) r ;;
  f <- filters.[cnn_stop] ;;
  (* LSTM layers *)
  lstm_stop <- py_pred hidden_lstm_layers ;;
  r <- py_range lstm_stop ;;
  lstm <- mapM (fun i =>
            u <- units.[PInt i] ;;
            d <- dropout.[PInt i] ;;
            Ok (LSTM u true (Some d))) r ;;
  u <- units.[lstm_stop] ;;
  Ok (Sequential (InputLayer input_shape :: concat cnn
                    ++ [TimeDistributed (Conv2D f); TimeDistributed GlobalMaxPooling2D]
                    ++ lstm
                    ++ [LSTM u false None; output_layer output_size])).

Definition _get_and_validate_params := CnnParams.cnn_and_lstm.

End CnnLstmModel.

(** *** MultiInputCnnLstmModel *)
Module MultiInputCnnLstmModel.

Definition _build_model (input_shape : pyval)
    (params : pyval * pyval * pyval * pyval * pyval)
    (output_size : option pyval) : result keras_model :=
  let '(hidden_cnn_layers, filters, hidden_lstm_layers, lstm_units, lstm_dropout) :=
    params in
  (* LSTM layers *)
  input_lstm <- input_shape.[PInt 0] ;;
  lstm_stop <- py_pred hidden_lstm_layers ;;
  r <- py_range lstm_stop ;;
  x_lstm <- mapM (fun i =>
              u <- lstm_units.[PInt i] ;;
              d <- lstm_dropout.[PInt i] ;;
              Ok (LSTM u true (Some d))) r ;;
  u <- lstm_units.[lstm_stop] ;;
  d <- lstm_dropout.[lstm_stop] ;;
  let x_lstm := x_lstm ++ [LSTM u false (Some d)] in
  (* CNN layers *)
  input_cnn <- input_shape.[PInt 1] ;;
  cnn_stop <- py_pred hidden_cnn_layers ;;
  r <- py_range cnn_stop ;;
  conv2d_x <- mapM (fun i =>
                f <- filters.[PInt i] ;;
                Ok [TimeDistributed (Conv2D f); TimeDistributed MaxPooling2D]) r ;;
  f <- filters.[cnn_stop] ;;
  let conv2d_x := concat conv2d_x
                    ++ [TimeDistributed (Conv2D f); TimeDistributed GlobalMaxPooling2D] in
  (* CNN-LSTM layers *)
  r <- py_range lstm_stop ;;
  cnn_lstm_x <- mapM (fun i =>
                  u <- lstm_units.[PInt i] ;;
                  d <- lstm_dropout.[PInt i] ;;
                  Ok (LSTM u true (Some d))) r ;;
  u <- lstm_units.[lstm_stop] ;;
  d <- lstm_dropout.[lstm_stop] ;;
  let cnn_lstm_x := conv2d_x ++ cnn_lstm_x ++ [LSTM u false (Some d)] in
  (* Concatenate, output, full model *)
  Ok (Functional input_lstm x_lstm input_cnn cnn_lstm_x
        [Dense (PInt 64) true; Dense (PInt 1) false]).

Definition _get_and_validate_params := CnnParams.cnn_and_lstm.

End MultiInputCnnLstmModel.

(** *** ConvLstmModel *)
Module ConvLstmModel.

Definition _build_model (input_shape : pyval) (params : pyval * pyval)
    (output_size : option pyval) : result keras_model :=
  let '(hidden_cnn_layers, filters) := params in
  stop <- py_pred hidden_cnn_layers ;;
  r <- py_range stop ;;
  stacked <- mapM (fun i =>
               f <- filters.[PInt i] ;;
               Ok [ConvLSTM2D f true; MaxPooling3D]) r ;;
  f <- filters.[stop] ;;
  Ok (Sequential (InputLayer input_shape :: concat stacked
                    ++ [ConvLSTM2D f false; GlobalMaxPooling2D;
                        output_layer output_size])).

Definition _get_and_validate_params := CnnParams.cnn_only.

End ConvLstmModel.

(** *** Conv3DModel *)
Module Conv3DModel.

Definition _build_model (input_shape : pyval) (params : pyval * pyval)
    (output_size : option pyval) : result keras_model :=
  let '(hidden_cnn_layers, filters) := params in
  stop <- py_pred hidden_cnn_layers ;;
  r <- py_range stop ;;
  stacked <- mapM (fun i =>
               f <- filters.[PInt i] ;;
               Ok [Conv3D f; MaxPooling3D]) r ;;
  f <- filters.[stop] ;;
  Ok (Sequential (InputLayer input_shape :: concat stacked
                    ++ [Conv3D f; GlobalMaxPooling3D; output_layer output_size])).

Definition _get_and_validate_params := CnnParams.cnn_only.

End Conv3DModel.

(** *** AbstractModel and its subclasses as objects *)

Inductive model_class :=
| AbstractModel
| LstmModel
| CnnLstmModel
| MultiInputCnnLstmModel
| ConvLstmModel
| Conv3DModel.

(** An instance: its class, the built framework model ([None] until [build]
    ran) and the configuration it was constructed from. *)
Record Model := {
  class_of : model_class;
  model : option keras_model;
  _config : ModelConfig
}.

(** [__init__]: stores the configuration, reads nothing from it. *)
Definition __init__ (c : model_class) (cfg : ModelConfig) : Model :=
  {| class_of := c; model := None; _config := cfg |}.

Definition set_model (self : Model) (m : keras_model) : Model :=
  {| class_of := class_of self; model := Some m; _config := _config self |}.

(** [AbstractModel.build], with the two overridden methods dispatched on
    the class of [self]. *)
Definition build (self : Model) (input_shape : pyval) (output_size : option pyval)
    : result Model :=
  match class_of self with
  | AbstractModel => Raise NotImplementedError
  | LstmModel =>
      param_tuple <- LstmModel._get_and_validate_params (params (_config self)) ;;
      m <- LstmModel._build_model input_shape param_tuple output_size ;;
      Ok (set_model self m)
  | CnnLstmModel =>
      param_tuple <- CnnLstmModel._get_and_validate_params (params (_config self)) ;;
      m <- CnnLstmModel._build_model input_shape param_tuple output_size ;;
      Ok (set_model self m)
  | MultiInputCnnLstmModel =>
      param_tuple <- MultiInputCnnLstmModel._get_and_validate_params
                       (params (_config self)) ;;
      m <- MultiInputCnnLstmModel._build_model input_shape param_tuple output_size ;;
      Ok (set_model self m)
  | ConvLstmModel =>
      param_tuple <- ConvLstmModel._get_and_validate_params (params (_config self)) ;;
      m <- ConvLstmModel._build_model input_shape param_tuple output_size ;;
      Ok (set_model self m)
  | Conv3DModel =>
      param_tuple <- Conv3DModel._get_and_validate_params (params (_config self)) ;;
      m <- Conv3DModel._build_model input_shape param_tuple output_size ;;
      Ok (set_model self m)
  end.

Definition factory (cfg : ModelConfig) : result Model :=
  if String.eqb (model_type cfg) "lstm" then Ok (__init__ LstmModel cfg)
  else if String.eqb (model_type cfg) "cnn-lstm" then Ok (__init__ CnnLstmModel cfg)
  else if String.eqb (model_type cfg) "multi-cnn-lstm"
       then Ok (__init__ MultiInputCnnLstmModel cfg)
  else if String.eqb (model_type cfg) "convlstm" then Ok (__init__ ConvLstmModel cfg)
  else if String.eqb (model_type cfg) "conv3d" then Ok (__init__ Conv3DModel cfg)
  else Raise ValueError.

(** The configured type string each class is created for. *)
Definition type_name (c : model_class) : option string :=
  match c with
  | AbstractModel => None
  | LstmModel => Some "lstm"
  | CnnLstmModel => Some "cnn-lstm"
  | MultiInputCnnLstmModel => Some "multi-cnn-lstm"
  | ConvLstmModel => Some "convlstm"
  | Conv3DModel => Some "conv3d"
  end.

(** ** File discovery ([ioutils])

    [glob.glob] reads the file system; it is a parameter here: the list of
    paths it answers for a pattern.  The logger is the list of warnings
    emitted. *)
Section Discovery.

Variable glob : string -> bool -> list string.

Definition discover_single_file_for_basin (data_dir basin : string)
    : result string * list string :=
  let files := glob (data_dir +:+ "/**/*" +:+ basin +:+ "*") true in
  match files with
  | [] => (Raise FileNotFoundError, [])
  | first :: rest =>
      (Ok first,
       if (1 <? Z.of_nat (length files))
       then ["Found multiple files for basin " +:+ basin +:+ " within directory "
               +:+ data_dir +:+ ". First one found will be returned."]
       else [])
  end.

Fixpoint discover_files_for_basins (data_dir : string) (basins : list string)
    : result (list string) * list string :=
  match basins with
  | [] => (Ok [], [])
  | b :: basins' =>
      match discover_single_file_for_basin data_dir b with
      | (Raise e, log) => (Raise e, log)
      | (Ok f, log) =>
          match discover_files_for_basins data_dir basins' with
          | (Raise e, log') => (Raise e, log ++ log')
          | (Ok fs, log') => (Ok (f :: fs), log ++ log')
          end
      end
  end.

End Discovery.

(** ** The labelled-array library, as far as the program uses it

    [processing.py] computes on [xarray.Dataset] objects.  A dataset is kept
    as its dimension coordinates (name and index labels) and its data
    variables; an array is kept as its cells, each cell carrying the labels
    of its position.  Numbers are exact rationals extended by the two
    infinities and NaN, the values a division can answer; signed zeros and
    rounding are outside the model. *)
Module Xr.

Inductive value :=
| Fin (q : Qc)
| PInf
| NInf
| NaN.

Definition sgn (q : Qc) : comparison := (q ?= 0)%Qc.

Definition neg (a : value) : value :=
  match a with
  | Fin q => Fin (- q)%Qc
  | PInf => NInf
  | NInf => PInf
  | NaN => NaN
  end.

Definition add (a b : value) : value :=
  match a, b with
  | NaN, _ | _, NaN => NaN
  | Fin x, Fin y => Fin (x + y)%Qc
  | PInf, NInf | NInf, PInf => NaN
  | PInf, _ | _, PInf => PInf
  | NInf, _ | _, NInf => NInf
  end.

Definition sub (a b : value) : value := add a (neg b).

(** An infinity of the sign of [c] times the sign of [a]. *)
Definition signed (c : comparison) (a : value) : value :=
  match c with
  | Eq => NaN
  | Gt => a
  | Lt => neg a
  end.

Definition mul (a b : value) : value :=
  match a, b with
  | NaN, _ | _, NaN => NaN
  | Fin x, Fin y => Fin (x * y)%Qc
  | Fin x, inf => signed (sgn x) inf
  | inf, Fin y => signed (sgn y) inf
  | PInf, PInf | NInf, NInf => PInf
  | PInf, NInf | NInf, PInf => NInf
  end.

Definition div (a b : value) : value :=
  match a, b with
  | NaN, _ | _, NaN => NaN
  | Fin x, Fin y =>
      match sgn y with
      | Eq => signed (sgn x) PInf
      | _ => Fin (x / y)%Qc
      end
  | Fin _, _ => Fin 0%Qc
  | inf, Fin y =>
      match sgn y with
      | Lt => neg inf
      | _ => inf
      end
  | _, _ => NaN
  end.

(** [a <= b] on values other than NaN. *)
Definition leb (a b : value) : bool :=
  match a, b with
  | NInf, _ | _, PInf => true
  | Fin x, Fin y => match (x ?= y)%Qc with Gt => false | _ => true end
  | _, _ => false
  end.

(** Minimum and maximum that skip NaN, as the library's reductions do. *)
Definition nanmin (a b : value) : value :=
  match a, b with
  | NaN, _ => b
  | _, NaN => a
  | _, _ => if leb a b then a else b
  end.

Definition nanmax (a b : value) : value :=
  match a, b with
  | NaN, _ => b
  | _, NaN => a
  | _, _ => if leb a b then b else a
  end.

(** Index labels: basin identifiers are strings; time stamps and grid
    positions are numbers. *)
Inductive label :=
| LStr (s : string)
| LInt (z : Z).

#[global] Instance label_eq_dec : EqDecision label.
Proof. solve_decision. Defined.

Definition label_leb (a b : label) : bool :=
  match a, b with
  | LInt x, LInt y => x <=? y
  | LStr x, LStr y => String.leb x y
  | _, _ => false
  end.

(** The position of a cell: a label for each dimension of its array. *)
Definition point := list (string * label).

Record DataArray := {
  dims : list string;
  cells : list (point * value)
}.

Record Dataset := {
  coords : list (string * list label);
  data_vars : list (string * DataArray)
}.

#[global] Instance value_eq_dec : EqDecision value.
Proof. solve_decision. Defined.

#[global] Instance DataArray_eq_dec : EqDecision DataArray.
Proof. solve_decision. Defined.

(** Lookup by name in a list of named things, first entry first. *)
Fixpoint assoc {A : Type} (k : string) (l : list (string * A)) : option A :=
  match l with
  | [] => None
  | (k', a) :: l' => if String.eqb k k' then Some a else assoc k l'
  end.

Definition names {A : Type} (l : list (string * A)) : list string := map fst l.

Definition mem (k : string) (l : list string) : bool := existsb (String.eqb k) l.

(** *** Alignment and arithmetic *)

(** Two positions agree when they carry the same label on every dimension
    they share. *)
Definition agree (p q : point) : bool :=
  forallb (fun dl : string * label =>
             match assoc (fst dl) q with
             | Some l => bool_decide (snd dl = l)
             | None => true
             end) p.

(** Broadcasting arithmetic on two arrays: the cells at agreeing positions
    are combined; dimensions only the right array has are appended. *)
Definition arr_binop (f : value -> value -> value) (a b : DataArray) : DataArray :=
  {| dims := dims a ++ List.filter (fun d => negb (mem d (dims a))) (dims b);
     cells :=
       flat_map (fun c : point * value =>
         flat_map (fun c' : point * value =>
           if agree (fst c) (fst c')
           then [(fst c ++ List.filter (fun dl : string * label =>
                                          negb (mem (fst dl) (dims a))) (fst c'),
                  f (snd c) (snd c'))]
           else []) (cells b)) (cells a) |}.

(** Inner join of two sets of indexes: a shared index keeps the labels of
    the left one that the right one has too. *)
Definition join_inner (ca cb : list (string * list label))
    : list (string * list label) :=
  map (fun c : string * list label =>
         (fst c,
          match assoc (fst c) cb with
          | Some ls => List.filter (fun l => bool_decide (l ∈ ls)) (snd c)
          | None => snd c
          end)) ca
  ++ List.filter (fun c : string * list label => negb (mem (fst c) (names ca))) cb.

(** A position lies within the indexes [idx]. *)
Definition within (idx : list (string * list label)) (p : point) : bool :=
  forallb (fun dl : string * label =>
             match assoc (fst dl) idx with
             | Some ls => bool_decide (snd dl ∈ ls)
             | None => true
             end) p.

Definition arr_restrict (idx : list (string * list label)) (a : DataArray)
    : DataArray :=
  {| dims := dims a;
     cells := List.filter (fun c : point * value => within idx (fst c)) (cells a) |}.

(** Arithmetic on two datasets, [a - b] and the like: their indexes are
    aligned by an inner join (the library's default for arithmetic,
    [arithmetic_join="inner"]), and the result has the data variables that
    both have. *)
Definition ds_binop (f : value -> value -> value) (a b : Dataset) : Dataset :=
  let idx := join_inner (coords a) (coords b) in
  {| coords := idx;
     data_vars :=
       flat_map (fun kx : string * DataArray =>
         match assoc (fst kx) (data_vars b) with
         | Some y => [(fst kx, arr_binop f (arr_restrict idx (snd kx))
                                            (arr_restrict idx y))]
         | None => []
         end) (data_vars a) |}.

Definition ds_sub := ds_binop sub.
Definition ds_div := ds_binop div.
Definition ds_mul := ds_binop mul.
Definition ds_add := ds_binop add.

(** *** Reductions *)

(** [dim] of a reduction: the listed dimensions, or all of them. *)
Definition reduced (dim : option (list string)) (d : string) : bool :=
  match dim with
  | None => true
  | Some ds => mem d ds
  end.

Definition remaining (dim : option (list string)) (p : point) : point :=
  List.filter (fun dl : string * label => negb (reduced dim (fst dl))) p.

(** Reducing an array over [dim] with [pick]: one cell for each position
    of the remaining dimensions.  (The library refuses to reduce an array
    without elements; here such an array reduces to no cells.) *)
Definition arr_reduce (pick : value -> value -> value) (dim : option (list string))
    (a : DataArray) : DataArray :=
  {| dims := List.filter (fun d => negb (reduced dim d)) (dims a);
     cells :=
       map (fun k : point =>
              (k, foldr pick NaN
                    (map snd (List.filter
                                (fun c : point * value =>
                                   bool_decide (remaining dim (fst c) = k))
                                (cells a)))))
           (remove_dups (map (fun c : point * value => remaining dim (fst c))
                             (cells a))) |}.

Definition ds_reduce (pick : value -> value -> value) (dim : option (list string))
    (ds : Dataset) : Dataset :=
  {| coords := List.filter (fun c : string * list label =>
                              negb (reduced dim (fst c))) (coords ds);
     data_vars := map (fun kx : string * DataArray =>
                         (fst kx, arr_reduce pick dim (snd kx))) (data_vars ds) |}.

(** [ds.min(dim)] and [ds.max(dim)] *)
Definition min (dim : option (list string)) := ds_reduce nanmin dim.
Definition max (dim : option (list string)) := ds_reduce nanmax dim.

(** *** Selecting, filling and renaming variables *)

(** [ds[names]] for names of data variables; a name the dataset does not
    have is a [KeyError].  (The library also accepts names of coordinates
    here; the program passes names of data variables.) *)
Definition getitem (ds : Dataset) (vars : list string) : result Dataset :=
  if forallb (fun k => mem k (names (data_vars ds))) vars
  then Ok {| coords := coords ds;
             data_vars := flat_map (fun k => match assoc k (data_vars ds) with
                                             | Some a => [(k, a)]
                                             | None => []
                                             end) vars |}
  else Raise KeyError.

Definition arr_fillna (v : value) (a : DataArray) : DataArray :=
  {| dims := dims a;
     cells := map (fun c : point * value =>
                     (fst c, match snd c with NaN => v | x => x end)) (cells a) |}.

(** [ds.fillna(value)] *)
Definition fillna (v : value) (ds : Dataset) : Dataset :=
  {| coords := coords ds;
     data_vars := map (fun kx : string * DataArray =>
                         (fst kx, arr_fillna v (snd kx))) (data_vars ds) |}.

(** [ds.update(other)]: the variables of [other] replace those of the
    same name, new ones are appended. *)
Definition update (ds other : Dataset) : Dataset :=
  {| coords := coords ds;
     data_vars :=
       map (fun kx : string * DataArray =>
              (fst kx, match assoc (fst kx) (data_vars other) with
                       | Some y => y
                       | None => snd kx
                       end)) (data_vars ds)
       ++ List.filter (fun kx : string * DataArray =>
                         negb (mem (fst kx) (names (data_vars ds))))
                      (data_vars other) |}.

(** [len(ds)]: the number of data variables, a name counting once. *)
Definition len (ds : Dataset) : nat :=
  length (remove_dups (names (data_vars ds))).

(** [ds[key] = value] for a list of names [key] and a dataset [value].  The
    library refuses an empty list of names with a ValueError; for a single
    name it stores [value] itself under that name, which is a TypeError for
    a dataset; for several names it refuses with a ValueError unless
    [value] has as many variables as there are names, and then gives the
    names the variables of [value], in their order. *)
Definition setitem (ds : Dataset) (key : list string) (value : Dataset)
    : result Dataset :=
  match key with
  | [] => Raise ValueError
  | [_] => Raise TypeError
  | _ =>
      if bool_decide (length key = len value)
      then Ok (update ds {| coords := coords value;
                            data_vars := zip key (map snd (data_vars value)) |})
      else Raise ValueError
  end.

(** [ds.rename(dict((param, param + suffix) for param in variables))]: a
    new name that a coordinate already bears is refused. *)
Definition rename_suffix (suffix : string) (vars : list string) (ds : Dataset)
    : result Dataset :=
  if existsb (fun k => mem (k +:+ suffix) (names (coords ds))) vars
  then Raise ValueError
  else Ok {| coords := coords ds;
             data_vars := map (fun kx : string * DataArray =>
                                 (if mem (fst kx) vars then fst kx +:+ suffix
                                  else fst kx, snd kx)) (data_vars ds) |}.

(** *** Selecting by label, merging *)

(** [ds.sel(d=slice(start, stop))] on an increasing index: the labels from
    [start] to [stop], both included.  A dataset without that coordinate
    is refused. *)
Definition sel_slice (d : string) (start stop : label) (ds : Dataset)
    : result Dataset :=
  let inside l := label_leb start l && label_leb l stop in
  match assoc d (coords ds) with
  | None => Raise KeyError
  | Some _ =>
      Ok {| coords := map (fun c : string * list label =>
                             (fst c, if String.eqb (fst c) d
                                     then List.filter inside (snd c)
                                     else snd c)) (coords ds);
            data_vars :=
              map (fun kx : string * DataArray =>
                     (fst kx,
                      {| dims := dims (snd kx);
                         cells := List.filter
                                    (fun c : point * value =>
                                       match assoc d (fst c) with
                                       | Some l => inside l
                                       | None => true
                                       end) (cells (snd kx)) |}))
                  (data_vars ds) |}
  end.

(** All positions over the given axes, the last axis running fastest. *)
Fixpoint grid (axes : list (string * list label)) : list point :=
  match axes with
  | [] => [[]]
  | (d, ls) :: axes' => flat_map (fun l => map (cons (d, l)) (grid axes')) ls
  end.

Definition find_cell (p : point) (a : DataArray) : option value :=
  option_map snd (List.find (fun c : point * value => bool_decide (fst c = p))
                            (cells a)).

(** The labels of dimension [d]: the index of that name, or else the
    labels the cells carry. *)
Definition axis (idx : list (string * list label)) (a : DataArray) (d : string)
    : list label :=
  match assoc d idx with
  | Some ls => ls
  | None => remove_dups (flat_map (fun c : point * value =>
                                     match assoc d (fst c) with
                                     | Some l => [l]
                                     | None => []
                                     end) (cells a))
  end.

(** Conforming an array to the indexes [idx]: positions it has no cell
    for are filled with NaN. *)
Definition arr_reindex (idx : list (string * list label)) (a : DataArray)
    : DataArray :=
  {| dims := dims a;
     cells := map (fun p : point => (p, default NaN (find_cell p a)))
                  (grid (map (fun d => (d, axis idx a d)) (dims a))) |}.

Inductive join := JoinLeft | JoinRight.

(** Indexes of [ca], and those of [cb] for coordinates [ca] lacks. *)
Definition join_onto (ca cb : list (string * list label))
    : list (string * list label) :=
  ca ++ List.filter (fun c : string * list label =>
                       negb (mem (fst c) (names ca))) cb.

(** [xr.merge([a, b], join=j)]: the indexes are those of the first object
    for [left] and of the last for [right]; every variable is conformed to
    them.  Two variables of one name are a [MergeError] (a [ValueError]),
    unless they are the same. *)
Definition merge (j : join) (a b : Dataset) : result Dataset :=
  let idx := match j with
             | JoinLeft => join_onto (coords a) (coords b)
             | JoinRight => join_onto (coords b) (coords a)
             end in
  let conform := map (fun kx : string * DataArray =>
                        (fst kx, arr_reindex idx (snd kx))) in
  let va := conform (data_vars a) in
  let vb := conform (data_vars b) in
  if forallb (fun kx : string * DataArray =>
                match assoc (fst kx) va with
                | Some x => bool_decide (x = snd kx)
                | None => true
                end) vb
  then Ok {| coords := idx;
             data_vars := va ++ List.filter
                                  (fun kx : string * DataArray =>
                                     negb (mem (fst kx) (names va))) vb |}
  else Raise ValueError.

End Xr.

(** ** [processing.py] *)

Definition first_and_last (ds : Xr.Dataset) : result (Xr.label * Xr.label) :=
  match Xr.assoc "time" (Xr.coords ds) with
  | None => Raise AttributeError
  | Some time =>
      start_date <- seq_getitem time 0 ;;
      end_date <- seq_getitem time (-1) ;;
      Ok (start_date, end_date)
  end.

Definition merge_observations_and_predictions
    (ds_observation ds_prediction : Xr.Dataset) (use_pred_timeframe : bool)
    : result Xr.Dataset :=
  let variables := Xr.names (Xr.data_vars ds_prediction) in
  dates <- (if use_pred_timeframe then first_and_last ds_prediction
            else first_and_last ds_observation) ;;
  let '(start_date, end_date) := dates in
  ds_obs <- Xr.getitem ds_observation variables ;;
  ds_obs <- Xr.sel_slice "time" start_date end_date ds_obs ;;
  ds_obs <- Xr.rename_suffix "_obs" variables ds_obs ;;
  ds_prediction <- Xr.rename_suffix "_pred" variables ds_prediction ;;
  if use_pred_timeframe
  then Xr.merge Xr.JoinLeft ds_prediction ds_obs
  else Xr.merge Xr.JoinRight ds_prediction ds_obs.

(** *** Objects and the store *)

Definition loc := nat.

(** Modelled from the spec: [dataset.HydroDataset] is not among the sources.
    The spec describes it as wrapping a labelled array plus feature and
    target column names and a date range; the processor reads and assigns
    its [timeseries] and reads its [feature_cols].  [timeseries] refers to
    an array object of the store. *)
Record HydroDataset := {
  timeseries : loc;
  feature_cols : list string;
  target_col : string;
  start_date : Z;
  end_date : Z
}.

(** The attributes of a processor object. *)
Record Processor := {
  variables : option (list string);
  scaling_params : option (Xr.Dataset * Xr.Dataset)
}.

(** The objects reachable by the program and the warnings logged so far. *)
Record Store := {
  objects : gmap loc HydroDataset;
  arrays : gmap loc Xr.Dataset;
  warnings : list string
}.

Record State := {
  self : Processor;
  store : Store
}.

(** A method of the processor: it may change the processor and the store,
    and either returns or raises; what it changed before raising stays
    changed. *)
Definition method (A : Type) : Type := State -> result A * State.

Definition ret {A : Type} (a : A) : method A := fun s => (Ok a, s).

Definition raise {A : Type} (e : exn) : method A := fun s => (Raise e, s).

Definition and_then {A B : Type} (m : method A) (k : A -> method B) : method B :=
  fun s =>
    match m s with
    | (Ok a, s') => k a s'
    | (Raise e, s') => (Raise e, s')
    end.

Notation "x <~ m ;; k" := (and_then m (fun x => k))
  (at level 100, m at next level, right associativity) : py_scope.

Definition get_self : method Processor := fun s => (Ok (self s), s).

Definition set_scaling_params (v : option (Xr.Dataset * Xr.Dataset)) : method unit :=
  fun s => (Ok tt, {| self := {| variables := variables (self s);
                                 scaling_params := v |};
                      store := store s |}).

Definition set_variables (v : option (list string)) : method unit :=
  fun s => (Ok tt, {| self := {| variables := v;
                                 scaling_params := scaling_params (self s) |};
                      store := store s |}).

Definition read_object (l : loc) : method HydroDataset :=
  fun s => match objects (store s) !! l with
           | Some o => (Ok o, s)
           | None => (Raise Dangling, s)
           end.

Definition read_array (l : loc) : method Xr.Dataset :=
  fun s => match arrays (store s) !! l with
           | Some x => (Ok x, s)
           | None => (Raise Dangling, s)
           end.

(** A new array object, at a location that held none. *)
Definition new_array (x : Xr.Dataset) : method loc :=
  fun s => let l := fresh (dom (arrays (store s))) in
           (Ok l, {| self := self s;
                     store := {| objects := objects (store s);
                                 arrays := <[l := x]> (arrays (store s));
                                 warnings := warnings (store s) |} |}).

(** The array object at [l] is changed in place. *)
Definition write_array (l : loc) (x : Xr.Dataset) : method unit :=
  fun s => (Ok tt, {| self := self s;
                      store := {| objects := objects (store s);
                                  arrays := <[l := x]> (arrays (store s));
                                  warnings := warnings (store s) |} |}).

(** [copy.copy(ds)]: a new object with the attributes of [ds]. *)
Definition copy (ds : loc) : method loc :=
  o <~ read_object ds ;;
  fun s => let l := fresh (dom (objects (store s))) in
           (Ok l, {| self := self s;
                     store := {| objects := <[l := o]> (objects (store s));
                                 arrays := arrays (store s);
                                 warnings := warnings (store s) |} |}).

(** [ds.timeseries = ts] *)
Definition set_timeseries (ds : loc) (ts : loc) : method unit :=
  o <~ read_object ds ;;
  fun s => (Ok tt, {| self := self s;
                      store := {| objects := <[ds := {| timeseries := ts;
                                                        feature_cols := feature_cols o;
                                                        target_col := target_col o;
                                                        start_date := start_date o;
                                                        end_date := end_date o |}]>
                                               (objects (store s));
                                  arrays := arrays (store s);
                                  warnings := warnings (store s) |} |}).

Definition warning (msg : string) : method unit :=
  fun s => (Ok tt, {| self := self s;
                      store := {| objects := objects (store s);
                                  arrays := arrays (store s);
                                  warnings := warnings (store s) ++ [msg] |} |}).

Definition lift {A : Type} (r : result A) : method A := fun s => (r, s).

(** *** AbstractProcessor *)
Module AbstractProcessor.

(** The arithmetic answers a new array object. *)
Definition scale (ds : loc) : method loc :=
  x <~ read_array ds ;;
  self <~ get_self ;;
  let '(min_params, max_params) :=
    match scaling_params self with
    | None => (Xr.min None x, Xr.max None x)
    | Some p => p
    end in
  new_array (Xr.ds_div (Xr.ds_sub x min_params) (Xr.ds_sub max_params min_params)).

Definition rescale (ds : loc) : method loc :=
  x <~ read_array ds ;;
  self <~ get_self ;;
  match scaling_params self with
  | None => raise TypeError
  | Some (min_params, max_params) =>
      new_array (Xr.ds_add (Xr.ds_mul x (Xr.ds_sub max_params min_params)) min_params)
  end.

(** [ds[self.variables] = ds[self.variables].fillna(value)]: the array
    object is changed in place and returned.  The right-hand side is
    evaluated first; the assignment may then be refused. *)
Definition fillna (ds : loc) (value : Xr.value) : method loc :=
  x <~ read_array ds ;;
  self <~ get_self ;;
  match variables self with
  | None => raise KeyError
  | Some vars =>
      selected <~ lift (Xr.getitem x vars) ;;
      assigned <~ lift (Xr.setitem x vars (Xr.fillna value selected)) ;;
      _ <~ write_array ds assigned ;;
      ret ds
  end.

End AbstractProcessor.

(** *** DefaultDatasetProcessor *)
Module DefaultDatasetProcessor.

Definition __fit_scaling_params (ds : loc) : method unit :=
  o <~ read_object ds ;;
  ts <~ read_array (timeseries o) ;;
  let has i := Xr.mem i (Xr.names (Xr.coords ts)) in
  if forallb has ["basin"; "time"; "y"; "x"] then
    set_scaling_params (Some (Xr.min (Some ["time"; "y"; "x"]) ts,
                              Xr.max (Some ["time"; "y"; "x"]) ts))
  else if forallb has ["basin"; "time"] then
    set_scaling_params (Some (Xr.min (Some ["time"]) ts,
                              Xr.max (Some ["time"]) ts))
  else raise ValueError.

Definition fit (ds : loc) : method unit :=
  _ <~ __fit_scaling_params ds ;;
  o <~ read_object ds ;;
  set_variables (Some (feature_cols o)).

Definition process (ds : loc) : method loc :=
  self <~ get_self ;;
  _ <~ (match scaling_params self with
        | None =>
            _ <~ warning ("Processor has not been fit to a dataset before. Thus, "
                          +:+ "it will be fitted to the provided dataset.") ;;
            __fit_scaling_params ds
        | Some _ => ret tt
        end) ;;
  ds <~ copy ds ;;
  o <~ read_object ds ;;
  ts <~ AbstractProcessor.scale (timeseries o) ;;
  _ <~ set_timeseries ds ts ;;
  o <~ read_object ds ;;
  ts <~ AbstractProcessor.fillna (timeseries o) (Xr.Fin (-1)%Qc) ;;
  _ <~ set_timeseries ds ts ;;
  ret ds.

End DefaultDatasetProcessor.

(** ** What the specification says of parameter validation

    The sections of [cfg.params] a class reads, the keys it requires in a
    section and the per-layer lists among them. *)

Definition sections_of (c : model_class) : list string :=
  match c with
  | AbstractModel => []
  | LstmModel => ["lstm"]
  | CnnLstmModel | MultiInputCnnLstmModel => ["cnn"; "lstm"]
  | ConvLstmModel | Conv3DModel => ["cnn"]
  end.

Definition per_layer_lists (section : string) : list string :=
  if String.eqb section "lstm" then ["units"; "dropout"] else ["filters"].

Definition required_keys (section : string) : list string :=
  "hiddenLayers" :: per_layer_lists section.

(** The entry of a dict under a key, if the value is a dict that has it. *)
Definition entry (v : pyval) (k : string) : option pyval :=
  match v with
  | PDict d => d !! k
  | _ => None
  end.

(** A required key of the section is missing. *)
Definition section_key_missing (section : string) (s : pyval) : bool :=
  existsb (fun k => match entry s k with Some _ => false | None => true end)
          (required_keys section).

(** A per-layer list of the section has a length different from its
    [hiddenLayers] value (different as Python's [!=] has it). *)
Definition section_length_differs (section : string) (s : pyval) : bool :=
  match entry s "hiddenLayers" with
  | Some hidden_layers =>
      existsb (fun k =>
                 match entry s k with
                 | Some (PList l) => py_ne_int (Z.of_nat (length l)) hidden_layers
                 | _ => false
                 end) (per_layer_lists section)
  | None => false
  end.

(** [hiddenLayers] of the section is no [int], or is negative. *)
Definition section_hidden_layers_refused (s : pyval) : bool :=
  match entry s "hiddenLayers" with
  | Some (PInt z) => z <? 0
  | Some (PBool _) => false
  | Some _ => true
  | None => false
  end.

(** A required parameter key for the class is missing. *)
Definition key_missing (c : model_class) (p : pyval) : bool :=
  existsb (fun section =>
             match entry p section with
             | None => true
             | Some s => section_key_missing section s
             end) (sections_of c).

(** A per-layer list (units, dropout, filters) has a length different from
    the configured [hiddenLayers] value. *)
Definition length_differs (c : model_class) (p : pyval) : bool :=
  existsb (fun section =>
             match entry p section with
             | Some s => section_length_differs section s
             | None => false
             end) (sections_of c).

(** [hiddenLayers] of a section is no [int] or is negative, for the classes
    whose validators check that: all but [LstmModel]. *)
Definition hidden_layers_refused (c : model_class) (p : pyval) : bool :=
  match c with
  | LstmModel => false
  | _ =>
      existsb (fun section =>
                 match entry p section with
                 | Some s => section_hidden_layers_refused s
                 | None => false
                 end) (sections_of c)
  end.

(** Parameters of the documented shape: a dict whose sections are dicts and
    whose per-layer entries are lists. *)
Definition is_dict (v : pyval) : bool :=
  match v with PDict _ => true | _ => false end.

Definition is_list (v : pyval) : bool :=
  match v with PList _ => true | _ => false end.

Definition section_shaped (section : string) (s : pyval) : bool :=
  is_dict s &&
  forallb (fun k => match entry s k with
                    | Some v => is_list v
                    | None => true
                    end) (per_layer_lists section).

Definition shaped (c : model_class) (p : pyval) : bool :=
  is_dict p &&
  forallb (fun section =>
             match entry p section with
             | Some s => section_shaped section s
             | None => true
             end) (sections_of c).

(** ** Example inputs *)

Definition config_of (type : string) (p : pyval) : ModelConfig :=
  {| model_type := type; params := p; timesteps := PInt 10; offset := 1;
     batch_size := 32; loss := ["mse"]; optimizer := "Adam"; metrics := ["mse"] |}.

Definition lstm_section (hidden_layers units dropout : pyval) : pyval :=
  PDict (<["hiddenLayers" := hidden_layers]>
         (<["units" := units]> (<["dropout" := dropout]> ∅))).

Definition cnn_section (hidden_layers filters : pyval) : pyval :=
  PDict (<["hiddenLayers" := hidden_layers]> (<["filters" := filters]> ∅)).

(** [{"lstm": {"hiddenLayers": 0, "units": [], "dropout": []}}] *)
Definition lstm_no_layers : pyval :=
  PDict (<["lstm" := lstm_section (PInt 0) (PList []) (PList [])]> ∅).

(** [{"lstm": {"hiddenLayers": 2, "units": [32, 32], "dropout": [0.1, 0]}}],
    the example of the class documentation. *)
Definition lstm_two_layers : pyval :=
  PDict (<["lstm" := lstm_section (PInt 2) (PList [PInt 32; PInt 32])
                       (PList [PFloat (1 # 10); PInt 0])]> ∅).

(** [{"cnn": {"hiddenLayers": 2.0, "filters": [8, 16]}}] *)
Definition cnn_float_layers : pyval :=
  PDict (<["cnn" := cnn_section (PFloat 2) (PList [PInt 8; PInt 16])]> ∅).

(** A file system with two files for basin 123 and none for basin 999. *)
Definition glob_example (pattern : string) (recursive : bool) : list string :=
  if String.eqb pattern "data/**/*123*"
  then ["data/123_streamflow.txt"; "data/daymet/123.nc"]
  else [].

(** A computation that does not raise a ConfigError. *)
Definition clean {A : Type} (r : result A) : Prop := r <> Raise ConfigError.

(** ** Proof automation *)

Create HintDb clean_db.

(** Settles a validator once its lookups are known, by the cases of its
    comparisons. *)
Ltac settle_validator :=
  intros _;
  repeat match goal with
         | |- context [py_ne_int ?n ?v] => destruct (py_ne_int n v)
         | |- context [?z <? 0] => destruct (z <? 0)
         end;
  cbn; auto.

(** ** What the specification says of processing *)

(** Min/max scaling of [x] with the parameter pair [p]:
    [(x - min) / (max - min)]. *)
Definition scaled_with (p : Xr.Dataset * Xr.Dataset) (x : Xr.Dataset) : Xr.Dataset :=
  Xr.ds_div (Xr.ds_sub x (fst p)) (Xr.ds_sub (snd p) (fst p)).

(** Its inverse: [x * (max - min) + min]. *)
Definition rescaled_with (p : Xr.Dataset * Xr.Dataset) (x : Xr.Dataset) : Xr.Dataset :=
  Xr.ds_add (Xr.ds_mul x (Xr.ds_sub (snd p) (fst p))) (fst p).

(** The NaN of the variables [vars] replaced by -1. *)
Definition nan_filled (vars : list string) (x : Xr.Dataset) : result Xr.Dataset :=
  selected <- Xr.getitem x vars ;;
  Xr.setitem x vars (Xr.fillna (Xr.Fin (-1)%Qc) selected).

(** The parameters a fit derives from the array [ts]. *)
Definition fitted_params (ts : Xr.Dataset) : result (Xr.Dataset * Xr.Dataset) :=
  let has i := Xr.mem i (Xr.names (Xr.coords ts)) in
  if forallb has ["basin"; "time"; "y"; "x"] then
    Ok (Xr.min (Some ["time"; "y"; "x"]) ts, Xr.max (Some ["time"; "y"; "x"]) ts)
  else if forallb has ["basin"; "time"] then
    Ok (Xr.min (Some ["time"]) ts, Xr.max (Some ["time"]) ts)
  else Raise ValueError.

(** A [HydroDataset] with another [timeseries]. *)
Definition with_timeseries (o : HydroDataset) (ts : loc) : HydroDataset :=
  {| timeseries := ts; feature_cols := feature_cols o; target_col := target_col o;
     start_date := start_date o; end_date := end_date o |}.

(** Calls made on a processor after its parameters were set. *)
Inductive call :=
| Process (ds : loc)
| Scale (ds : loc).

Definition perform (c : call) : method loc :=
  match c with
  | Process ds => DefaultDatasetProcessor.process ds
  | Scale ds => AbstractProcessor.scale ds
  end.

(** One call: the state before, what it returned or raised, the state after. *)
Record step := {
  before : State;
  called : call;
  outcome : result loc;
  after : State
}.

(** The calls made one after another, whatever each returns or raises. *)
Fixpoint run (cs : list call) (s : State) : list step :=
  match cs with
  | [] => []
  | c :: cs' =>
      let '(r, s') := perform c s in
      {| before := s; called := c; outcome := r; after := s' |} :: run cs' s'
  end.

(** What a call that returned has produced, in terms of the parameter pair
    [p]: [scale] a new array holding the scaled input; [process] a dataset
    object whose timeseries holds the scaled and NaN-filled input. *)
Definition produced_with (p : Xr.Dataset * Xr.Dataset) (st : step) : Prop :=
  forall l, outcome st = Ok l ->
  match called st with
  | Scale ds =>
      exists x, arrays (store (before st)) !! ds = Some x
                /\ arrays (store (after st)) !! l = Some (scaled_with p x)
  | Process ds =>
      exists o x vars y ts,
        objects (store (before st)) !! ds = Some o
        /\ arrays (store (before st)) !! timeseries o = Some x
        /\ variables (self (before st)) = Some vars
        /\ nan_filled vars (scaled_with p x) = Ok y
        /\ objects (store (after st)) !! l = Some (with_timeseries o ts)
        /\ arrays (store (after st)) !! ts = Some y
  end.

(** Steps through a method body once its primitives are unfolded. *)
Ltac unfold_methods :=
  repeat progress
    unfold and_then, ret, raise, lift, get_self, read_object, read_array, new_array,
      write_array, copy, set_timeseries, warning, set_scaling_params, set_variables;
  cbv beta.

Ltac run_method :=
  repeat first
    [ progress cbn [store self arrays objects warnings timeseries with_timeseries
                    bind variables scaling_params]
    | rewrite lookup_insert_eq
    | rewrite insert_insert_eq ].

(** Example datasets: daily precipitation and streamflow of two basins. *)

Definition num (a : Z) (b : positive) : Xr.value := Xr.Fin (Q2Qc (a # b)).

Definition at_day (basin : string) (t : Z) : Xr.point :=
  [("basin", Xr.LStr basin); ("time", Xr.LInt t)].

Definition prcp_train : Xr.DataArray :=
  {| Xr.dims := ["basin"; "time"];
     Xr.cells := [(at_day "01013500" 1, num 0 1); (at_day "01013500" 2, num 5 2);
                  (at_day "01013500" 3, num 10 1);
                  (at_day "01022500" 1, num 1 1); (at_day "01022500" 2, Xr.NaN);
                  (at_day "01022500" 3, num 3 1)] |}.

Definition flow_train : Xr.DataArray :=
  {| Xr.dims := ["basin"; "time"];
     Xr.cells := [(at_day "01013500" 1, num 2 1); (at_day "01013500" 2, num 4 1);
                  (at_day "01013500" 3, num 3 1);
                  (at_day "01022500" 1, num 20 1); (at_day "01022500" 2, num 10 1);
                  (at_day "01022500" 3, num 15 1)] |}.

Definition ds_train : Xr.Dataset :=
  {| Xr.coords := [("basin", [Xr.LStr "01013500"; Xr.LStr "01022500"]);
                   ("time", [Xr.LInt 1; Xr.LInt 2; Xr.LInt 3])];
     Xr.data_vars := [("prcp", prcp_train); ("streamflow", flow_train)] |}.

(** A test period of the first basin. *)
Definition ds_test : Xr.Dataset :=
  {| Xr.coords := [("basin", [Xr.LStr "01013500"]);
                   ("time", [Xr.LInt 4; Xr.LInt 5])];
     Xr.data_vars :=
       [("prcp", {| Xr.dims := ["basin"; "time"];
                    Xr.cells := [(at_day "01013500" 4, num 20 1);
                                 (at_day "01013500" 5, Xr.NaN)] |});
        ("streamflow", {| Xr.dims := ["basin"; "time"];
                          Xr.cells := [(at_day "01013500" 4, num 7 2);
                                       (at_day "01013500" 5, num 2 1)] |})] |}.

(** A basin that the training data do not have. *)
Definition ds_other_basin : Xr.Dataset :=
  {| Xr.coords := [("basin", [Xr.LStr "02053200"]); ("time", [Xr.LInt 4])];
     Xr.data_vars :=
       [("prcp", {| Xr.dims := ["basin"; "time"];
                    Xr.cells := [(at_day "02053200" 4, num 6 1)] |});
        ("streamflow", {| Xr.dims := ["basin"; "time"];
                          Xr.cells := [(at_day "02053200" 4, num 9 1)] |})] |}.

(** A table without a time coordinate. *)
Definition ds_no_time : Xr.Dataset :=
  {| Xr.coords := [("basin", [Xr.LStr "01013500"])];
     Xr.data_vars :=
       [("area", {| Xr.dims := ["basin"];
                    Xr.cells := [([("basin", Xr.LStr "01013500")], num 2252 1)] |})] |}.

Definition hydro (ts : loc) : HydroDataset :=
  {| timeseries := ts; feature_cols := ["prcp"; "streamflow"];
     target_col := "streamflow"; start_date := 1; end_date := 3 |}.

(** Objects 0 to 3 wrap the four datasets. *)
Definition store_example : Store :=
  {| objects := <[0%nat := hydro 0%nat]> (<[1%nat := hydro 1%nat]>
                  (<[2%nat := hydro 2%nat]> (<[3%nat := hydro 3%nat]> ∅)));
     arrays := <[0%nat := ds_train]> (<[1%nat := ds_test]>
                 (<[2%nat := ds_other_basin]> (<[3%nat := ds_no_time]> ∅)));
     warnings := [] |}.

(** A processor as constructed without arguments, one constructed with
    variables only, and one fitted to the training data. *)
Definition state_new : State :=
  {| self := {| variables := None; scaling_params := None |};
     store := store_example |}.

Definition state_with_variables : State :=
  {| self := {| variables := Some ["prcp"; "streamflow"]; scaling_params := None |};
     store := store_example |}.

Definition params_train : Xr.Dataset * Xr.Dataset :=
  (Xr.min (Some ["time"]) ds_train, Xr.max (Some ["time"]) ds_train).

Definition state_fitted : State :=
  {| self := {| variables := Some ["prcp"; "streamflow"];
                scaling_params := Some params_train |};
     store := store_example |}.

(** ** What the specification says of the scaling round trip *)

(** The cells of array [b] at positions that agree with [p]. *)
Definition hits (p : Xr.point) (b : Xr.DataArray) : list (Xr.point * Xr.value) :=
  List.filter (fun c : Xr.point * Xr.value => Xr.agree p (fst c)) (Xr.cells b).

(** The value array [b] has for the position [p] of an array of dimensions
    [ds]: there is one when exactly one cell of [b] agrees with [p] and
    that cell has no dimension beyond [ds]. *)
Definition value_for (ds : list string) (b : Xr.DataArray) (p : Xr.point)
    : option Xr.value :=
  match hits p b with
  | [(q, y)] => if forallb (fun dl : string * Xr.label => Xr.mem (fst dl) ds) q
                then Some y else None
  | _ => None
  end.

Definition finite (v : option Xr.value) : bool :=
  match v with
  | Some (Xr.Fin _) => true
  | _ => false
  end.

Definition finite_nonzero (v : option Xr.value) : bool :=
  match v with
  | Some (Xr.Fin q) => negb (Qc_eq_bool q 0)
  | _ => false
  end.

(** Array [a] with every value replaced by [h] of its position and value. *)
Definition remap (h : Xr.point -> Xr.value -> Xr.value) (a : Xr.DataArray)
    : Xr.DataArray :=
  {| Xr.dims := Xr.dims a;
     Xr.cells := map (fun c : Xr.point * Xr.value => (fst c, h (fst c) (snd c)))
                     (Xr.cells a) |}.

(** The parameter pair [p] covers the dataset [x]: aligning [x] with the
    parameters keeps the indexes of [x]; every variable of [x] has a
    minimum and a difference [max - min] among the parameters, with no
    dimension that the variable lacks; and at the position of every cell of
    [x] the minimum is one number and [max - min] is one number other than
    zero. *)
Definition covers (p : Xr.Dataset * Xr.Dataset) (x : Xr.Dataset) : bool :=
  let min_params := fst p in
  let range := Xr.ds_sub (snd p) (fst p) in
  bool_decide (Xr.join_inner (Xr.coords x) (Xr.coords min_params) = Xr.coords x)
  && bool_decide (Xr.join_inner (Xr.coords x) (Xr.coords range) = Xr.coords x)
  && forallb
       (fun kx : string * Xr.DataArray =>
          let a := snd kx in
          forallb (fun c : Xr.point * Xr.value => Xr.within (Xr.coords x) (fst c))
                  (Xr.cells a)
          && match Xr.assoc (fst kx) (Xr.data_vars min_params),
                   Xr.assoc (fst kx) (Xr.data_vars range) with
             | Some m, Some d =>
                 forallb (fun i => Xr.mem i (Xr.dims a)) (Xr.dims m)
                 && forallb (fun i => Xr.mem i (Xr.dims a)) (Xr.dims d)
                 && forallb
                      (fun c : Xr.point * Xr.value =>
                         finite (value_for (Xr.dims a)
                                   (Xr.arr_restrict (Xr.coords x) m) (fst c))
                         && finite_nonzero
                              (value_for (Xr.dims a)
                                 (Xr.arr_restrict (Xr.coords x) d) (fst c)))
                      (Xr.cells a)
             | _, _ => false
             end)
       (Xr.data_vars x).

(** The maximum is a number distinct from the minimum, in every variable
    and at every position the parameters have. *)
Definition max_distinct_from_min (p : Xr.Dataset * Xr.Dataset) : bool :=
  forallb
    (fun kx : string * Xr.DataArray =>
       match Xr.assoc (fst kx) (Xr.data_vars (fst p)) with
       | Some m =>
           forallb (fun c : Xr.point * Xr.value =>
                      match snd c, Xr.find_cell (fst c) m with
                      | Xr.Fin hi, Some (Xr.Fin lo) => negb (Qc_eq_bool hi lo)
                      | _, _ => false
                      end) (Xr.cells (snd kx))
       | None => false
       end)
    (Xr.data_vars (snd p)).

(** The value the dataset [b] holds for position [p] of the variable [kx]
    of a dataset with indexes [idx]; NaN when it holds none. *)
Definition param_at (b : Xr.Dataset) (idx : list (string * list Xr.label))
    (kx : string * Xr.DataArray) (p : Xr.point) : Xr.value :=
  match Xr.assoc (fst kx) (Xr.data_vars b) with
  | Some y => default Xr.NaN (value_for (Xr.dims (snd kx)) (Xr.arr_restrict idx y) p)
  | None => Xr.NaN
  end.

(** Dataset [x] with every value of every variable replaced by [h]. *)
Definition ds_remap (h : string * Xr.DataArray -> Xr.point -> Xr.value -> Xr.value)
    (x : Xr.Dataset) : Xr.Dataset :=
  {| Xr.coords := Xr.coords x;
     Xr.data_vars := map (fun kx : string * Xr.DataArray =>
                            (fst kx, remap (h kx) (snd kx))) (Xr.data_vars x) |}.

(** The dataset [b] has one value for every cell of [x], and aligning [x]
    with [b] keeps the indexes of [x]. *)
Definition has_value_for_each_cell (b x : Xr.Dataset) : Prop :=
  Xr.join_inner (Xr.coords x) (Xr.coords b) = Xr.coords x
  /\ forall kx, In kx (Xr.data_vars x) ->
       forallb (fun c : Xr.point * Xr.value => Xr.within (Xr.coords x) (fst c))
               (Xr.cells (snd kx)) = true
       /\ exists y, Xr.assoc (fst kx) (Xr.data_vars b) = Some y
            /\ forallb (fun i => Xr.mem i (Xr.dims (snd kx))) (Xr.dims y) = true
            /\ forall c, In c (Xr.cells (snd kx)) ->
                 exists v, value_for (Xr.dims (snd kx))
                             (Xr.arr_restrict (Xr.coords x) y) (fst c) = Some v.

(** ** What the specification says of merging *)






(** Observed and predicted streamflow of one basin. *)
Definition ds_observation : Xr.Dataset :=
  {| Xr.coords := [("basin", [Xr.LStr "01013500"]);
                   ("time", [Xr.LInt 1; Xr.LInt 2; Xr.LInt 3; Xr.LInt 4])];
     Xr.data_vars :=
       [("prcp", {| Xr.dims := ["basin"; "time"];
                    Xr.cells := [(at_day "01013500" 1, num 0 1);
                                 (at_day "01013500" 2, num 5 2);
                                 (at_day "01013500" 3, num 10 1);
                                 (at_day "01013500" 4, num 1 1)] |});
        ("streamflow", {| Xr.dims := ["basin"; "time"];
                          Xr.cells := [(at_day "01013500" 1, num 2 1);
                                       (at_day "01013500" 2, num 4 1);
                                       (at_day "01013500" 3, num 3 1);
                                       (at_day "01013500" 4, num 5 1)] |})] |}.

Definition ds_prediction : Xr.Dataset :=
  {| Xr.coords := [("basin", [Xr.LStr "01013500"]);
                   ("time", [Xr.LInt 3; Xr.LInt 4])];
     Xr.data_vars :=
       [("streamflow", {| Xr.dims := ["basin"; "time"];
                          Xr.cells := [(at_day "01013500" 3, num 7 2);
                                       (at_day "01013500" 4, num 9 2)] |})] |}.

(** The minimum or maximum over all cells of an array. *)
Definition extreme (pick : Xr.value -> Xr.value -> Xr.value) (a : Xr.DataArray)
    : Xr.value :=
  foldr pick Xr.NaN (map snd (Xr.cells a)).

(** A dataset as the library builds them: no two variables of one name, and
    every cell at a position of the indexes. *)
Definition well_formed (x : Xr.Dataset) : Prop :=
  NoDup (Xr.names (Xr.data_vars x))
  /\ forall kx, In kx (Xr.data_vars x) ->
       forallb (fun c : Xr.point * Xr.value => Xr.within (Xr.coords x) (fst c))
               (Xr.cells (snd kx)) = true.

(** ** Saving a model ([AbstractModel.save_model]) *)

Fixpoint ends_with_sep (s : string) : bool :=
  match s with
  | EmptyString => false
  | String c EmptyString => Ascii.eqb c "/"
  | String _ rest => ends_with_sep rest
  end.

(** [os.path.join(a, b)] on POSIX paths. *)
Definition path_join (a b : string) : string :=
  if String.prefix "/" b then b
  else if String.eqb a "" || ends_with_sep a then a +:+ b
  else a +:+ "/" +:+ b.

(** [save_model]: the framework is asked to save [self.model] at the path
    below the storage directory.  Answered are the path returned and the
    saves made, each a path and the model saved there. *)
Definition save_model (self : Model) (storage_path : string) (as_hdf5 : bool)
    : result string * list (string * keras_model) :=
  let storage_path := if as_hdf5 then path_join storage_path "model.h5"
                      else path_join storage_path "model" in
  match model self with
  | Some m => (Ok storage_path, [(storage_path, m)])
  | None => (Raise AttributeError, [])
  end.

(** ** Architectures

    The layers a stack of LSTM layers and a stack of convolution blocks
    consist of, one for each entry of the per-layer lists. *)

Definition lstm_stack (units dropout : list pyval) : list layer :=
  zip_with (fun u d => LSTM u true (Some d)) units dropout.

Definition block_stack (block : pyval -> list layer) (filters : list pyval)
    : list layer :=
  concat (map block filters).

(** Example configurations:
    [{"cnn": {"hiddenLayers": 2, "filters": [8, 16]},
      "lstm": {"hiddenLayers": 2, "units": [32, 32], "dropout": [0.1, 0]}}],
    the same without convolutional layers
    ([{"cnn": {"hiddenLayers": 0, "filters": []}, "lstm": ...}]), and
    [{"lstm": {"hiddenLayers": 2.0, "units": [32, 32], "dropout": [0.1, 0]}}]. *)
Definition cnn_lstm_two_layers : pyval :=
  PDict (<["cnn" := cnn_section (PInt 2) (PList [PInt 8; PInt 16])]>
         (<["lstm" := lstm_section (PInt 2) (PList [PInt 32; PInt 32])
                        (PList [PFloat (1 # 10); PInt 0])]> ∅)).

Definition cnn_no_layers : pyval :=
  PDict (<["cnn" := cnn_section (PInt 0) (PList [])]>
         (<["lstm" := lstm_section (PInt 2) (PList [PInt 32; PInt 32])
                        (PList [PFloat (1 # 10); PInt 0])]> ∅)).

Definition lstm_float_layers : pyval :=
  PDict (<["lstm" := lstm_section (PFloat 2) (PList [PInt 32; PInt 32])
                       (PList [PFloat (1 # 10); PInt 0])]> ∅).

(** ** File discovery for Daymet and CAMELS-US ([ioutils]) *)

Fixpoint has_sep (p : string) : bool :=
  match p with
  | EmptyString => false
  | String c rest => Ascii.eqb c "/" || has_sep rest
  end.

(** [os.path.basename(p)]: what follows the last separator. *)
Fixpoint basename (p : string) : string :=
  match p with
  | EmptyString => EmptyString
  | String c rest => if has_sep p then basename rest else p
  end.

(** The directory names of the forcings products. *)
Definition type_dict : gmap string string :=
  <["daymet" := "cida"]> (<["maurer" := "maurer"]> (<["nldas" := "nldas"]> ∅)).

(** [any(basin == os.path.basename(f)[0:8] for basin in basins)] *)
Definition names_a_basin (basins : list string) (f : string) : bool :=
  existsb (fun basin => String.eqb basin (String.substring 0 8 (basename f))) basins.

Section DiscoveryByProduct.

Variable glob : string -> bool -> list string.

Definition discover_single_daymet_file_for_basin (data_dir basin : string)
    : result string * list string :=
  let files := glob (data_dir +:+ "/**/*" +:+ basin +:+ "*.nc") true in
  match files with
  | [] => (Raise FileNotFoundError, [])
  | first :: rest =>
      (Ok first,
       if (1 <? Z.of_nat (length files))
       then ["Found multiple files for basin " +:+ basin +:+ " within directory "
               +:+ data_dir +:+ ". First one found will be returned."]
       else [])
  end.

(** The loop keeps the files found so far and the warnings logged so far. *)
Definition discover_daymet_files (root_data_dir : string) (variables : list string)
    : list string * list string :=
  fold_left
    (fun (acc : list string * list string) (variable : string) =>
       let '(file_list, log) := acc in
       let data_dir := path_join root_data_dir variable in
       let files := glob (data_dir +:+ "/*_daymet_v4_daily_na_" +:+ variable +:+ "_*.nc")
                         false in
       match files with
       | [] => (file_list,
                log ++ ["No files found in path " +:+ data_dir +:+ " for variable "
                          +:+ variable +:+ "."])
       | _ => (file_list ++ files, log)
       end)
    variables ([], []).

Definition discover_single_camels_us_forcings_file
    (data_dir forcings_type basin : string) : result string * list string :=
  match type_dict !! forcings_type with
  | Some product =>
      let files := glob (data_dir +:+ "/**/" +:+ basin +:+ "_lump_" +:+ product
                           +:+ "_forcing_leap.txt") true in
      match files with
      | [] => (Raise FileNotFoundError, [])
      | first :: rest =>
          (Ok first,
           if (1 <? Z.of_nat (length files))
           then ["Found multiple files for basin " +:+ basin +:+ " within directory "
                   +:+ data_dir +:+ ". First one found will be returned."]
           else [])
      end
  | None => (Raise ValueError, [])
  end.

Definition discover_single_camels_us_streamflow_file (data_dir basin : string)
    : result string * list string :=
  let files := glob (data_dir +:+ "/**/" +:+ basin +:+ "_streamflow_qc.txt") true in
  match files with
  | [] => (Raise FileNotFoundError, [])
  | first :: rest =>
      (Ok first,
       if (1 <? Z.of_nat (length files))
       then ["Found multiple files for basin " +:+ basin +:+ " within directory "
               +:+ data_dir +:+ ". First one found will be returned."]
       else [])
  end.

Definition discover_multiple_camels_us_forcings_files
    (data_dir forcings_type : string) (basins : option (list string))
    : result (list string) :=
  match type_dict !! forcings_type with
  | Some product =>
      let files := glob (data_dir +:+ "/**/*_lump_" +:+ product +:+ "_forcing_leap.txt")
                        true in
      match basins with
      | Some basins => Ok (List.filter (names_a_basin basins) files)
      | None => Ok files
      end
  | None => Raise ValueError
  end.

(** The pattern is given to [glob] without [recursive=True]. *)
Definition discover_multiple_camels_us_streamflow_files
    (data_dir : string) (basins : option (list string)) : list string :=
  let files := glob (data_dir +:+ "/**/*_streamflow_qc.txt") false in
  match basins with
  | Some basins => List.filter (names_a_basin basins) files
  | None => files
  end.

End DiscoveryByProduct.

(** A CAMELS-US directory with the forcings of three basins, and a Daymet
    directory with files of one of two variables. *)
Definition glob_camels (pattern : string) (recursive : bool) : list string :=
  if String.eqb pattern "camels/**/*_lump_cida_forcing_leap.txt"
  then ["camels/01/01013500_lump_cida_forcing_leap.txt";
        "camels/01/01022500_lump_cida_forcing_leap.txt";
        "camels/02/02053200_lump_cida_forcing_leap.txt"]
  else if String.eqb pattern "camels/**/01013500_lump_cida_forcing_leap.txt"
  then ["camels/01/01013500_lump_cida_forcing_leap.txt"]
  else if String.eqb pattern "daymet/prcp/*_daymet_v4_daily_na_prcp_*.nc"
  then ["daymet/prcp/1_daymet_v4_daily_na_prcp_2000.nc";
        "daymet/prcp/1_daymet_v4_daily_na_prcp_2001.nc"]
  else [].

(** ** [AbstractProcessor.setna] *)

(** [a != b] on numbers: NaN differs from every number, itself included. *)
Definition value_ne (a b : Xr.value) : bool :=
  match a, b with
  | Xr.NaN, _ | _, Xr.NaN => true
  | _, _ => negb (bool_decide (a = b))
  end.

(** [a.where(a != value)]: a cell that equals [value] becomes NaN. *)
Definition arr_where_ne (value : Xr.value) (a : Xr.DataArray) : Xr.DataArray :=
  {| Xr.dims := Xr.dims a;
     Xr.cells := map (fun c : Xr.point * Xr.value =>
                        (fst c, if value_ne (snd c) value then snd c else Xr.NaN))
                     (Xr.cells a) |}.

(** [ds[f]] for the name of a data variable. *)
Definition getitem_var (ds : Xr.Dataset) (f : string) : result Xr.DataArray :=
  match Xr.assoc f (Xr.data_vars ds) with
  | Some a => Ok a
  | None => Raise KeyError
  end.

(** [ds[f] = a] *)
Definition setitem_var (ds : Xr.Dataset) (f : string) (a : Xr.DataArray)
    : Xr.Dataset :=
  Xr.update ds {| Xr.coords := Xr.coords ds; Xr.data_vars := [(f, a)] |}.

(** [for a in l: body] *)
Fixpoint for_each {A : Type} (l : list A) (body : A -> method unit) : method unit :=
  match l with
  | [] => ret tt
  | a :: l' => _ <~ body a ;; for_each l' body
  end.

(** The array object is changed in place, variable after variable, and
    returned.  Iterating over [self.variables] is a TypeError when there
    are none. *)
Definition setna (ds : loc) (value : Xr.value) : method loc :=
  self <~ get_self ;;
  match variables self with
  | None => raise TypeError
  | Some vars =>
      _ <~ for_each vars (fun f =>
             x <~ read_array ds ;;
             a <~ lift (getitem_var x f) ;;
             write_array ds (setitem_var x f (arr_where_ne value a))) ;;
      ret ds
  end.

(** What filling and what un-filling does to one value. *)
Definition fill_with (value v : Xr.value) : Xr.value :=
  match v with
  | Xr.NaN => value
  | _ => v
  end.

Definition blank (value v : Xr.value) : Xr.value :=
  if value_ne v value then v else Xr.NaN.

(** Dataset [x] with [h] applied to every value of the variables [vars]. *)
Definition on_variables (vars : list string) (h : Xr.value -> Xr.value)
    (x : Xr.Dataset) : Xr.Dataset :=
  ds_remap (fun kx _ v => if Xr.mem (fst kx) vars then h v else v) x.

(** A name with a dot, as [time.year]: xarray reads it as a component of
    the variable before the dot rather than as the name of a variable. *)
Definition dotted (k : string) : bool :=
  existsb (Ascii.eqb ".") (list_ascii_of_string k).

(** ** What scaling with its own extremes does to a value *)

Definition number_or_nan (v : Xr.value) : bool :=
  match v with
  | Xr.Fin _ | Xr.NaN => true
  | _ => false
  end.

(** [w] is what min/max scaling makes of the value [v] of a variable whose
    least and greatest values are [lo] and [hi]: NaN stays NaN; when the
    extremes coincide everything becomes NaN; otherwise a number becomes a
    number between 0 and 1, the least one 0 and the greatest one 1. *)
Definition scaled_into_unit_interval (lo hi v w : Xr.value) : Prop :=
  (v = Xr.NaN -> w = Xr.NaN)
  /\ (lo = hi -> w = Xr.NaN)
  /\ (lo <> hi -> forall q, v = Xr.Fin q ->
        exists r, w = Xr.Fin r /\ (0 <= r)%Qc /\ (r <= 1)%Qc
                  /\ (v = lo -> r = 0%Qc) /\ (v = hi -> r = 1%Qc)).

(** ** Loading Daymet forcings ([ioutils.check_and_prepare_coordinates]) *)

(** The place of a label in an index. *)
Definition position (ls : list Xr.label) (l : Xr.label) : Xr.label :=
  match list_find (fun l' => l' = l) ls with
  | Some (i, _) => Xr.LInt (Z.of_nat i)
  | None => l
  end.

(** [xds.drop_vars(names)]: the coordinates and the data variables of these
    names are dropped; a name that the dataset has not is refused.  A
    dimension that loses its index stays, and so do the cells along it;
    they are then told apart by their place. *)
Definition drop_vars (names : list string) (xds : Xr.Dataset) : result Xr.Dataset :=
  let dropped k := Xr.mem k names in
  if forallb (fun n => Xr.mem n (Xr.names (Xr.coords xds))
                       || Xr.mem n (Xr.names (Xr.data_vars xds))) names
  then Ok {| Xr.coords := List.filter (fun c : string * list Xr.label =>
                                         negb (dropped (fst c))) (Xr.coords xds);
             Xr.data_vars :=
               map (fun kx : string * Xr.DataArray =>
                      (fst kx,
                       {| Xr.dims := Xr.dims (snd kx);
                          Xr.cells :=
                            map (fun c : Xr.point * Xr.value =>
                                   (map (fun dl : string * Xr.label =>
                                           match Xr.assoc (fst dl) (Xr.coords xds) with
                                           | Some ls =>
                                               if dropped (fst dl)
                                               then (fst dl, position ls (snd dl))
                                               else dl
                                           | None => dl
                                           end) (fst c),
                                    snd c)) (Xr.cells (snd kx)) |}))
                   (List.filter (fun kx : string * Xr.DataArray =>
                                   negb (dropped (fst kx))) (Xr.data_vars xds)) |}
  else Raise ValueError.

(** [list(set(xds.coords) - coords)] is the list of the coordinate names
    other than [coords], each once. *)
Definition check_and_prepare_coordinates (xds : Xr.Dataset) : result Xr.Dataset :=
  let has i := Xr.mem i (Xr.names (Xr.coords xds)) in
  if forallb has ["time"; "y"; "x"] then
    let coords := ["time"; "y"; "x"] in
    let diffs := List.filter (fun c => negb (Xr.mem c coords))
                             (remove_dups (Xr.names (Xr.coords xds))) in
    drop_vars diffs xds
  else if forallb has ["time"] then
    let coords := ["time"] in
    let diffs := List.filter (fun c => negb (Xr.mem c coords))
                             (remove_dups (Xr.names (Xr.coords xds))) in
    drop_vars diffs xds
  else Raise ValueError.

(** A gridded dataset: one variable over time, y and x, with a spatial
    reference coordinate besides. *)
Definition ds_grid : Xr.Dataset :=
  {| Xr.coords := [("time", [Xr.LInt 1; Xr.LInt 2]); ("y", [Xr.LInt 10]);
                   ("x", [Xr.LInt 20; Xr.LInt 30]); ("crs", [Xr.LInt 0])];
     Xr.data_vars :=
       [("prcp",
         {| Xr.dims := ["time"; "y"; "x"];
            Xr.cells :=
              [([("time", Xr.LInt 1); ("y", Xr.LInt 10); ("x", Xr.LInt 20)], num 1 1);
               ([("time", Xr.LInt 1); ("y", Xr.LInt 10); ("x", Xr.LInt 30)], num 2 1);
               ([("time", Xr.LInt 2); ("y", Xr.LInt 10); ("x", Xr.LInt 20)], Xr.NaN);
               ([("time", Xr.LInt 2); ("y", Xr.LInt 10); ("x", Xr.LInt 30)], num 4 1)]
         |})] |}.

(** ** Predictions as a dataset ([AbstractModel.prediction_to_dataset])

    Dates are counted in days, as the time labels of a daily timeseries
    are. *)

(** A two-dimensional array of numbers, as the framework answers
    predictions: its rows, each of [ncols] numbers. *)
Record ndarray := {
  ncols : nat;
  rows : list (list Xr.value)
}.

(** [predictions[:, i]] *)
Definition column (predictions : ndarray) (i : nat) : result (list Xr.value) :=
  if (i <? ncols predictions)%nat
  then Ok (map (fun row => nth i row Xr.NaN) (rows predictions))
  else Raise IndexError.

(** [np.timedelta64(v, 'D')] in days; numpy converts integers and refuses
    other numbers, strings and lists.  (None, which numpy reads as no
    time at all, is not told apart from these.) *)
Definition timedelta64 (v : pyval) : result Z :=
  match py_index v with
  | Some n => Ok n
  | None => Raise ValueError
  end.

(** [ds.time] *)
Definition time_of (ds : Xr.Dataset) : result (list Xr.label) :=
  match Xr.assoc "time" (Xr.coords ds) with
  | Some time => Ok time
  | None => Raise AttributeError
  end.

(** [np.invert(np.isnan(res_ds.sel(basin=basin)[param]))] and the time
    labels it selects, [res_ds.time[non_nan_flags]]: the labels at which
    the variable is a number for that basin.  The flags index the time
    labels when the variable, at one basin, runs over time alone; numpy
    refuses flags of another shape. *)
Definition non_nan_times (res_ds : Xr.Dataset) (basin param : string)
    : result (list Xr.label) :=
  match Xr.assoc "basin" (Xr.coords res_ds) with
  | None => Raise KeyError
  | Some basins =>
      if bool_decide (Xr.LStr basin ∈ basins) then
        a <- getitem_var res_ds param ;;
        time <- time_of res_ds ;;
        if bool_decide (List.filter (fun d => negb (String.eqb d "basin")) (Xr.dims a)
                        = ["time"])
        then Ok (List.filter
                   (fun t =>
                      match List.find
                              (fun c : Xr.point * Xr.value =>
                                 Xr.agree [("basin", Xr.LStr basin); ("time", t)] (fst c))
                              (Xr.cells a) with
                      | Some (_, Xr.NaN) | None => false
                      | Some _ => true
                      end) time)
        else Raise IndexError
      else Raise KeyError
  end.

(** [xr.DataArray(data, coords=[times], dims=["time"])]: as many numbers as
    labels, or a ValueError. *)
Definition data_array (data : list Xr.value) (times : list Xr.label)
    : result Xr.DataArray :=
  if bool_decide (length data = length times)
  then Ok {| Xr.dims := ["time"];
             Xr.cells := map (fun tv : Xr.label * Xr.value =>
                                ([("time", fst tv)], snd tv)) (zip times data) |}
  else Raise ValueError.

(** [xr.Dataset({param: a})] for an array over time, then
    [assign_coords({"basin": basin})] and [expand_dims("basin")]: the basin
    becomes the first dimension, with the one label. *)
Definition dataset_of_basin (param : string) (a : Xr.DataArray) (times : list Xr.label)
    (basin : string) : Xr.Dataset :=
  {| Xr.coords := [("time", times); ("basin", [Xr.LStr basin])];
     Xr.data_vars :=
       [(param, {| Xr.dims := "basin" :: Xr.dims a;
                   Xr.cells := map (fun c : Xr.point * Xr.value =>
                                      (("basin", Xr.LStr basin) :: fst c, snd c))
                                   (Xr.cells a) |})] |}.

(** The dataset and its timeseries are read from the store; nothing is
    changed.  The loop over [[ds.target_col]] has one round, with [i = 0]. *)
Definition prediction_to_dataset (self : Model) (st : Store) (ds : loc)
    (predictions : ndarray) (basin : string) (remove_nan : bool)
    : result Xr.Dataset :=
  match objects st !! ds with
  | None => Raise Dangling
  | Some ds =>
      timesteps <- (if isinstance_int (timesteps (_config self))
                    then Ok (timesteps (_config self))
                    else (timesteps (_config self)).[PInt 0]) ;;
      days <- timedelta64 timesteps ;;
      let target_start_date := start_date ds + days + offset (_config self) - 1 in
      match arrays st !! timeseries ds with
      | None => Raise Dangling
      | Some ts =>
          res_ds <- Xr.sel_slice "time" (Xr.LInt target_start_date)
                      (Xr.LInt (end_date ds)) ts ;;
          let param := target_col ds in
          res_times <- (if remove_nan then non_nan_times res_ds basin param
                        else time_of res_ds) ;;
          data <- column predictions 0 ;;
          a <- data_array data res_times ;;
          Ok (dataset_of_basin param a res_times basin)
      end
  end.

(** Predictions for the days 3 and 4 of the observed basin, from windows of
    two time steps with offset 1 over the days 1 to 4. *)
Definition store_observed : Store :=
  {| objects := <[0%nat := {| timeseries := 0%nat;
                              feature_cols := ["prcp"; "streamflow"];
                              target_col := "streamflow";
                              start_date := 1; end_date := 4 |}]> ∅;
     arrays := <[0%nat := ds_observation]> ∅;
     warnings := [] |}.

Definition model_built : Model :=
  {| class_of := LstmModel;
     model := Some (Sequential []);
     _config := {| model_type := "lstm"; params := lstm_two_layers;
                   timesteps := PInt 2; offset := 1; batch_size := 32;
                   loss := ["mse"]; optimizer := "Adam"; metrics := ["mse"] |} |}.

Definition predictions_example : ndarray :=
  {| ncols := 1; rows := [[num 7 2]; [num 9 2]] |}.

(** The variable [param] of the dataset is a number (not NaN) for the basin
    at time [t]. *)
Definition is_number_at (ts : Xr.Dataset) (basin param : string) (t : Xr.label)
    : bool :=
  match Xr.assoc param (Xr.data_vars ts) with
  | Some a =>
      match List.find (fun c : Xr.point * Xr.value =>
                         Xr.agree [("basin", Xr.LStr basin); ("time", t)] (fst c))
                      (Xr.cells a) with
      | Some (_, Xr.NaN) | None => false
      | Some _ => true
      end
  | None => false
  end.

(** * Theorems *)

(** ** The factory *)

Lemma type_name_inj (c c' : model_class) (s : string) :
  type_name c = Some s -> type_name c' = Some s -> c = c'.
Proof. destruct c, c'; simpl; intros H H'; congruence. Qed.

Lemma factory_of_type_name (c : model_class) (cfg : ModelConfig) :
  type_name c = Some (model_type cfg) -> factory cfg = Ok (__init__ c cfg).
Proof.
  unfold factory.
  destruct c; simpl; intros H; try discriminate;
    injection H as H; rewrite <- H; reflexivity.
Qed.

Lemma factory_cases (cfg : ModelConfig) :
  (exists c, type_name c = Some (model_type cfg) /\ factory cfg = Ok (__init__ c cfg))
  \/ ((forall c, type_name c <> Some (model_type cfg)) /\ factory cfg = Raise ValueError).
Proof.
  unfold factory.
  destruct (String.eqb_spec (model_type cfg) "lstm") as [E1|N1];
    [left; exists LstmModel; simpl; rewrite E1; auto|].
  destruct (String.eqb_spec (model_type cfg) "cnn-lstm") as [E2|N2];
    [left; exists CnnLstmModel; simpl; rewrite E2; auto|].
  destruct (String.eqb_spec (model_type cfg) "multi-cnn-lstm") as [E3|N3];
    [left; exists MultiInputCnnLstmModel; simpl; rewrite E3; auto|].
  destruct (String.eqb_spec (model_type cfg) "convlstm") as [E4|N4];
    [left; exists ConvLstmModel; simpl; rewrite E4; auto|].
  destruct (String.eqb_spec (model_type cfg) "conv3d") as [E5|N5];
    [left; exists Conv3DModel; simpl; rewrite E5; auto|].
  right; split; [|reflexivity].
  intros c; destruct c; simpl; congruence.
Qed.

(** C6. For every configuration, [factory] returns an instance of class [c]
    exactly when the configured model type is the type string of [c]
    ("lstm", "cnn-lstm", "multi-cnn-lstm", "convlstm", "conv3d" for the five
    model classes), and it raises a ValueError exactly when the configured
    type is none of the five strings. *)
Theorem factory_by_model_type (cfg : ModelConfig) :
  (forall c, (exists m, factory cfg = Ok m /\ class_of m = c)
             <-> type_name c = Some (model_type cfg))
  /\ (factory cfg = Raise ValueError
      <-> model_type cfg <> "lstm" /\ model_type cfg <> "cnn-lstm"
          /\ model_type cfg <> "multi-cnn-lstm" /\ model_type cfg <> "convlstm"
          /\ model_type cfg <> "conv3d")
  /\ (forall e, factory cfg = Raise e -> e = ValueError).
Proof.
  destruct (factory_cases cfg) as [(c0 & Hn & Hf)|(Hnone & Hf)].
  - split; [|split].
    + intros c; split.
      * intros (m & Hm & Hc). rewrite Hf in Hm. injection Hm as <-.
        simpl in Hc. subst c0. exact Hn.
      * intros Hc. exists (__init__ c cfg). split; [|reflexivity].
        rewrite (type_name_inj c c0 _ Hc Hn). exact Hf.
    + rewrite Hf. split; [discriminate|].
      intros (H1 & H2 & H3 & H4 & H5).
      destruct c0; simpl in Hn; congruence.
    + intros e He. rewrite Hf in He. discriminate.
  - split; [|split].
    + intros c; split.
      * intros (m & Hm & _). rewrite Hf in Hm. discriminate.
      * intros Hc. destruct (Hnone c Hc).
    + split; [|intros _; exact Hf].
      intros _.
      pose proof (Hnone LstmModel) as H1. pose proof (Hnone CnnLstmModel) as H2.
      pose proof (Hnone MultiInputCnnLstmModel) as H3.
      pose proof (Hnone ConvLstmModel) as H4. pose proof (Hnone Conv3DModel) as H5.
      simpl in *. repeat split; congruence.
    + intros e He. rewrite Hf in He. congruence.
Qed.

Lemma factory_by_model_type_witness :
  exists m, factory (config_of "multi-cnn-lstm" lstm_two_layers) = Ok m
            /\ class_of m = MultiInputCnnLstmModel.
Proof.
  apply (proj1 (factory_by_model_type (config_of "multi-cnn-lstm" lstm_two_layers))
           MultiInputCnnLstmModel).
  reflexivity.
Defined.

Example factory_convlstm :
  factory (config_of "convlstm" cnn_float_layers)
  = Ok (__init__ ConvLstmModel (config_of "convlstm" cnn_float_layers)).
Proof. reflexivity. Qed.

Example factory_unknown : factory (config_of "LSTM" lstm_two_layers) = Raise ValueError.
Proof. reflexivity. Qed.

(** ** File discovery *)

Lemma discover_files_for_basins_ok (glob : string -> bool -> list string)
    (data_dir : string) (basins files : list string) (log : list string) :
  discover_files_for_basins glob data_dir basins = (Ok files, log) ->
  Forall2 (fun b f => fst (discover_single_file_for_basin glob data_dir b) = Ok f)
          basins files.
Proof.
  revert files log. induction basins as [|b basins IH]; simpl; intros files log H.
  - injection H as <- _. constructor.
  - destruct (discover_single_file_for_basin glob data_dir b) as [[f|e] l1] eqn:E1;
      [|discriminate].
    destruct (discover_files_for_basins glob data_dir basins) as [[fs|e] l2] eqn:E2;
      [|discriminate].
    injection H as <- _. constructor; [rewrite E1; reflexivity|].
    eapply IH. reflexivity.
Qed.

(** C8. For every data directory and basin id, with [files] the paths the
    file system has for the basin pattern: [discover_single_file_for_basin]
    raises a FileNotFoundError exactly when [files] is empty; otherwise it
    returns the first of them, and what it logs is a single warning when
    there are several files and nothing when there is one. *)
Theorem discover_single_file_first_match (glob : string -> bool -> list string)
    (data_dir basin : string) :
  let files := glob (data_dir +:+ "/**/*" +:+ basin +:+ "*") true in
  let out := discover_single_file_for_basin glob data_dir basin in
  (fst out = Raise FileNotFoundError <-> files = [])
  /\ (forall e, fst out = Raise e -> e = FileNotFoundError /\ snd out = [])
  /\ (forall first rest, files = first :: rest ->
        fst out = Ok first
        /\ (rest = [] -> snd out = [])
        /\ (rest <> [] -> exists msg, snd out = [msg])).
Proof.
  unfold discover_single_file_for_basin.
  destruct (glob (data_dir +:+ "/**/*" +:+ basin +:+ "*") true) as [|f rest] eqn:E;
    simpl.
  - split; [split; reflexivity|].
    split; [intros e H; injection H as <-; split; reflexivity|].
    intros first rest' H. discriminate.
  - split; [split; discriminate|]. split; [intros e H; discriminate|].
    intros first rest' H. injection H as <- <-.
    split; [reflexivity|]. split.
    + intros ->. reflexivity.
    + intros Hne. destruct rest as [|g rest]; [congruence|].
      eexists.
      match goal with
      | |- context [?a <? ?b] => destruct (Z.ltb_spec a b) as [_|Hle]
      end; [reflexivity|].
      simpl length in Hle. lia.
Qed.

Lemma discover_single_file_first_match_witness :
  fst (discover_single_file_for_basin glob_example "data" "123")
  = Ok "data/123_streamflow.txt"
  /\ (exists msg, snd (discover_single_file_for_basin glob_example "data" "123") = [msg])
  /\ fst (discover_single_file_for_basin glob_example "data" "999")
     = Raise FileNotFoundError.
Proof.
  pose proof (discover_single_file_first_match glob_example "data" "123") as H1.
  pose proof (discover_single_file_first_match glob_example "data" "999") as H2.
  simpl in H1, H2.
  destruct H1 as (_ & _ & H1). destruct H2 as (H2 & _).
  destruct (H1 "data/123_streamflow.txt" ["data/daymet/123.nc"] eq_refl)
    as (Ha & _ & Hb).
  split; [exact Ha|]. split; [apply Hb; discriminate|].
  apply H2. reflexivity.
Defined.

(** ** Building models: what can and what cannot raise a ConfigError *)

Lemma clean_Ok {A : Type} (a : A) : clean (Ok a).
Proof. discriminate. Qed.

Lemma clean_bind {A B : Type} (m : result A) (k : A -> result B) :
  clean m -> (forall a, clean (k a)) -> clean (bind m k).
Proof.
  unfold clean. destruct m as [a|e]; simpl; intros Hm Hk; [apply Hk|].
  intros H. apply Hm. congruence.
Qed.

Lemma clean_mapM {A B : Type} (f : A -> result B) (l : list A) :
  (forall a, clean (f a)) -> clean (mapM f l).
Proof.
  intros Hf. induction l as [|a l IH]; simpl.
  - apply clean_Ok.
  - apply clean_bind; [apply Hf|]. intros b.
    apply clean_bind; [exact IH|]. intros bs. apply clean_Ok.
Qed.

Lemma clean_seq_getitem {A : Type} (l : list A) (i : Z) : clean (seq_getitem l i).
Proof.
  unfold clean, seq_getitem.
  destruct (_ || _); [discriminate|].
  destruct (l !! _); discriminate.
Qed.

Lemma clean_getitem (v k : pyval) : clean v.[k].
Proof.
  unfold py_getitem.
  destruct v; try discriminate.
  - destruct (py_index k); [apply clean_seq_getitem|discriminate].
  - destruct (py_index k); [apply clean_seq_getitem|discriminate].
  - destruct k; try discriminate. destruct (d !! s); discriminate.
Qed.

Lemma clean_pred (v : pyval) : clean (py_pred v).
Proof. destruct v; discriminate. Qed.

Lemma clean_range (v : pyval) : clean (py_range v).
Proof. unfold py_range. destruct (py_index v); discriminate. Qed.

#[local] Hint Resolve clean_Ok clean_getitem clean_pred clean_range clean_bind
  clean_mapM : clean_db.

Lemma clean_build_lstm input_shape p output_size :
  clean (LstmModel._build_model input_shape p output_size).
Proof. destruct p as [[hl us] ds]. unfold LstmModel._build_model. auto 40 with clean_db. Qed.

Lemma clean_build_cnn_lstm input_shape p output_size :
  clean (CnnLstmModel._build_model input_shape p output_size).
Proof.
  destruct p as [[[[hc fs] hl] us] ds]. unfold CnnLstmModel._build_model. auto 40 with clean_db.
Qed.

Lemma clean_build_multi input_shape p output_size :
  clean (MultiInputCnnLstmModel._build_model input_shape p output_size).
Proof.
  destruct p as [[[[hc fs] hl] us] ds]. unfold MultiInputCnnLstmModel._build_model.
  auto 40 with clean_db.
Qed.

Lemma clean_build_convlstm input_shape p output_size :
  clean (ConvLstmModel._build_model input_shape p output_size).
Proof. destruct p as [hc fs]. unfold ConvLstmModel._build_model. auto 40 with clean_db. Qed.

Lemma clean_build_conv3d input_shape p output_size :
  clean (Conv3DModel._build_model input_shape p output_size).
Proof. destruct p as [hc fs]. unfold Conv3DModel._build_model. auto 40 with clean_db. Qed.

(** [build] raises a ConfigError exactly when validation does. *)
Lemma bind_build_ConfigError {A : Type} (v : result A) (b : A -> result keras_model)
    (self : Model) :
  (forall a, clean (b a)) ->
  (bind v (fun p => bind (b p) (fun m => Ok (set_model self m))) = Raise ConfigError
   <-> v = Raise ConfigError).
Proof.
  intros Hb. destruct v as [a|e]; simpl.
  - split; [|discriminate]. intros H. exfalso.
    specialize (Hb a). unfold clean in Hb.
    destruct (b a) as [m|e]; simpl in H; [discriminate|congruence].
  - split; congruence.
Qed.

(** ** Parameter validation, section by section *)

Lemma cnn_section_validated (s : pyval) :
  section_shaped "cnn" s = true ->
  match CnnParams.__get_and_validate_cnn_params s with
  | Ok _ => section_key_missing "cnn" s || section_length_differs "cnn" s
            || section_hidden_layers_refused s = false
  | Raise e => e = ConfigError
               /\ section_key_missing "cnn" s || section_length_differs "cnn" s
                  || section_hidden_layers_refused s = true
  end.
Proof.
  unfold section_shaped, section_key_missing, section_length_differs,
    section_hidden_layers_refused, CnnParams.__get_and_validate_cnn_params,
    required_keys, per_layer_lists, entry, py_getitem.
  destruct s as [| | | | | |d]; try discriminate.
  replace ("cnn" =? "lstm")%string with false by reflexivity.
  cbn [is_dict andb forallb existsb orb].
  destruct (d !! "hiddenLayers") as [hl|] eqn:Ehl;
    destruct (d !! "filters") as [[| | | | |l|]|] eqn:Ef;
    try discriminate; cbn [bind except_KeyError orb andb]; auto.
  destruct hl as [|b|z|q|t|l'|d']; cbn; auto; settle_validator.
Qed.

Lemma lstm_section_validated (s : pyval) :
  section_shaped "lstm" s = true ->
  match CnnParams.__get_and_validate_lstm_params s with
  | Ok _ => section_key_missing "lstm" s || section_length_differs "lstm" s
            || section_hidden_layers_refused s = false
  | Raise e => e = ConfigError
               /\ section_key_missing "lstm" s || section_length_differs "lstm" s
                  || section_hidden_layers_refused s = true
  end.
Proof.
  unfold section_shaped, section_key_missing, section_length_differs,
    section_hidden_layers_refused, CnnParams.__get_and_validate_lstm_params,
    required_keys, per_layer_lists, entry, py_getitem.
  destruct s as [| | | | | |d]; try discriminate.
  replace ("lstm" =? "lstm")%string with true by reflexivity.
  cbn [is_dict andb forallb existsb orb].
  destruct (d !! "hiddenLayers") as [hl|] eqn:Ehl;
    destruct (d !! "units") as [[| | | | |l|]|] eqn:Eu;
    destruct (d !! "dropout") as [[| | | | |l2|]|] eqn:Ed;
    try discriminate; cbn [bind except_KeyError orb andb]; auto.
  all: destruct hl as [|b|z|q|t|l'|d']; cbn; auto; settle_validator.
Qed.

Lemma lstm_model_validated (p : pyval) :
  shaped LstmModel p = true ->
  match LstmModel._get_and_validate_params p with
  | Ok _ => key_missing LstmModel p || length_differs LstmModel p = false
  | Raise e => e = ConfigError
               /\ key_missing LstmModel p || length_differs LstmModel p = true
  end.
Proof.
  unfold shaped, key_missing, length_differs, sections_of.
  destruct p as [| | | | | |d0]; try discriminate.
  unfold LstmModel._get_and_validate_params.
  unfold py_getitem at 1. unfold entry.
  cbn [is_dict andb forallb existsb orb].
  destruct (d0 !! "lstm") as [s|] eqn:Es; [|intros _; cbn; auto].
  unfold section_shaped, section_key_missing, section_length_differs,
    required_keys, per_layer_lists, entry, py_getitem.
  destruct s as [| | | | | |d]; try discriminate.
  replace ("lstm" =? "lstm")%string with true by reflexivity.
  cbn [is_dict andb forallb existsb orb bind].
  destruct (d !! "hiddenLayers") as [hl|] eqn:Ehl;
    destruct (d !! "units") as [[| | | | |l|]|] eqn:Eu;
    destruct (d !! "dropout") as [[| | | | |l2|]|] eqn:Ed;
    try discriminate; cbn [bind except_KeyError orb andb]; auto.
  all: cbn; settle_validator.
Qed.

Lemma cnn_only_validated (c : model_class) (p : pyval) :
  c = ConvLstmModel \/ c = Conv3DModel ->
  shaped c p = true ->
  match CnnParams.cnn_only p with
  | Ok _ => key_missing c p || length_differs c p || hidden_layers_refused c p = false
  | Raise e => e = ConfigError
               /\ key_missing c p || length_differs c p || hidden_layers_refused c p
                  = true
  end.
Proof.
  intros Hc.
  assert (sections_of c = ["cnn"] /\ hidden_layers_refused c p
          = existsb (fun section => match entry p section with
                                    | Some s => section_hidden_layers_refused s
                                    | None => false
                                    end) (sections_of c)) as [Hs Hr]
    by (destruct Hc as [-> | ->]; split; reflexivity).
  rewrite Hr. unfold shaped, key_missing, length_differs. rewrite Hs. clear Hr Hs Hc.
  destruct p as [| | | | | |d0]; try discriminate.
  unfold CnnParams.cnn_only. unfold py_getitem at 1. unfold entry.
  cbn [is_dict andb forallb existsb orb].
  destruct (d0 !! "cnn") as [s|] eqn:Es; [|intros _; cbn; auto].
  rewrite andb_true_r. intros Hsh.
  pose proof (cnn_section_validated s Hsh) as Hv. cbn [bind].
  destruct (CnnParams.__get_and_validate_cnn_params s) as [[hl fs]|e];
    cbn [bind except_KeyError].
  - revert Hv.
    destruct (section_key_missing "cnn" s), (section_length_differs "cnn" s),
      (section_hidden_layers_refused s); simpl; congruence.
  - destruct Hv as [-> Hv]. split; [reflexivity|]. revert Hv.
    destruct (section_key_missing "cnn" s), (section_length_differs "cnn" s),
      (section_hidden_layers_refused s); simpl; congruence.
Qed.

Lemma cnn_and_lstm_validated (c : model_class) (p : pyval) :
  c = CnnLstmModel \/ c = MultiInputCnnLstmModel ->
  shaped c p = true ->
  match CnnParams.cnn_and_lstm p with
  | Ok _ => key_missing c p || length_differs c p || hidden_layers_refused c p = false
  | Raise e => e = ConfigError
               /\ key_missing c p || length_differs c p || hidden_layers_refused c p
                  = true
  end.
Proof.
  intros Hc.
  assert (sections_of c = ["cnn"; "lstm"] /\ hidden_layers_refused c p
          = existsb (fun section => match entry p section with
                                    | Some s => section_hidden_layers_refused s
                                    | None => false
                                    end) (sections_of c)) as [Hs Hr]
    by (destruct Hc as [-> | ->]; split; reflexivity).
  rewrite Hr. unfold shaped, key_missing, length_differs. rewrite Hs. clear Hr Hs Hc.
  destruct p as [| | | | | |d0]; try discriminate.
  unfold CnnParams.cnn_and_lstm. unfold py_getitem at 1 2. unfold entry.
  cbn [is_dict andb forallb existsb orb].
  destruct (d0 !! "cnn") as [s|] eqn:Es; [|intros _; cbn; auto].
  intros Hsh. apply andb_prop in Hsh as [Hsh Hsh'].
  pose proof (cnn_section_validated s Hsh) as Hv. cbn [bind].
  destruct (CnnParams.__get_and_validate_cnn_params s) as [[hc fs]|e];
    cbn [bind except_KeyError].
  - destruct (d0 !! "lstm") as [s'|] eqn:Es'; cbn [bind except_KeyError].
    + rewrite andb_true_r in Hsh'.
      pose proof (lstm_section_validated s' Hsh') as Hv'.
      destruct (CnnParams.__get_and_validate_lstm_params s') as [[[hl us] ds]|e];
        cbn [bind except_KeyError].
      * revert Hv Hv'.
        destruct (section_key_missing "cnn" s), (section_length_differs "cnn" s),
          (section_hidden_layers_refused s), (section_key_missing "lstm" s'),
          (section_length_differs "lstm" s'), (section_hidden_layers_refused s');
          simpl; congruence.
      * destruct Hv' as [-> Hv']. split; [reflexivity|]. revert Hv Hv'.
        destruct (section_key_missing "cnn" s), (section_length_differs "cnn" s),
          (section_hidden_layers_refused s), (section_key_missing "lstm" s'),
          (section_length_differs "lstm" s'), (section_hidden_layers_refused s');
          simpl; congruence.
    + split; [reflexivity|]. rewrite !orb_true_r. reflexivity.
  - destruct Hv as [-> Hv]. split; [reflexivity|]. revert Hv.
    destruct (section_key_missing "cnn" s), (section_length_differs "cnn" s),
      (section_hidden_layers_refused s); simpl; try congruence; intros _;
      rewrite ?orb_true_r; reflexivity.
Qed.

Lemma build_ConfigError_iff_validation (c : model_class) (cfg : ModelConfig)
    (input_shape : pyval) (output_size : option pyval) :
  build (__init__ c cfg) input_shape output_size = Raise ConfigError <->
  match c with
  | AbstractModel => False
  | LstmModel => LstmModel._get_and_validate_params (params cfg) = Raise ConfigError
  | CnnLstmModel | MultiInputCnnLstmModel =>
      CnnParams.cnn_and_lstm (params cfg) = Raise ConfigError
  | ConvLstmModel | Conv3DModel => CnnParams.cnn_only (params cfg) = Raise ConfigError
  end.
Proof.
  unfold build. destruct c; cbn [class_of __init__ _config].
  - split; [discriminate|tauto].
  - apply bind_build_ConfigError. intros a. apply clean_build_lstm.
  - apply bind_build_ConfigError. intros a. apply clean_build_cnn_lstm.
  - apply bind_build_ConfigError. intros a. apply clean_build_multi.
  - apply bind_build_ConfigError. intros a. apply clean_build_convlstm.
  - apply bind_build_ConfigError. intros a. apply clean_build_conv3d.
Qed.

Lemma raises_iff {A : Type} (r : result A) (b : bool) :
  match r with
  | Ok _ => b = false
  | Raise e => e = ConfigError /\ b = true
  end ->
  (r = Raise ConfigError <-> b = true).
Proof.
  destruct r as [a|e].
  - intros ->. split; discriminate.
  - intros [-> ->]. split; reflexivity.
Qed.

(** C5, as amended.  Constructing a model, also through [factory], reads
    nothing of [cfg.params]: it succeeds for every configuration of a known
    type.  For parameters of the documented shape (sections are dicts,
    per-layer entries are lists), [build] raises a ConfigError exactly when
    a required key of the class is missing, or a per-layer list (units,
    dropout, filters) has a length different from [hiddenLayers], or, for
    the four CNN based classes, [hiddenLayers] is no [int] or is negative. *)
Theorem build_validates_lazily (c : model_class) (cfg : ModelConfig)
    (input_shape : pyval) (output_size : option pyval) :
  type_name c = Some (model_type cfg) ->
  shaped c (params cfg) = true ->
  (forall cfg', model_type cfg' = model_type cfg ->
                factory cfg' = Ok (__init__ c cfg')
                /\ model (__init__ c cfg') = None)
  /\ (build (__init__ c cfg) input_shape output_size = Raise ConfigError
      <-> key_missing c (params cfg) || length_differs c (params cfg)
          || hidden_layers_refused c (params cfg) = true).
Proof.
  intros Hc Hsh. split.
  - intros cfg' E. split; [|reflexivity].
    apply factory_of_type_name. rewrite E. exact Hc.
  - rewrite build_ConfigError_iff_validation.
    destruct c; try discriminate Hc.
    + rewrite orb_false_r. apply raises_iff. apply lstm_model_validated, Hsh.
    + apply raises_iff. apply cnn_and_lstm_validated; auto.
    + apply raises_iff. apply cnn_and_lstm_validated; auto.
    + apply raises_iff. apply cnn_only_validated; auto.
    + apply raises_iff. apply cnn_only_validated; auto.
Qed.

Lemma build_validates_lazily_witness :
  build (__init__ ConvLstmModel (config_of "convlstm" cnn_float_layers))
        (PList [PInt 10; PInt 8; PInt 8; PInt 3]) None
  = Raise ConfigError.
Proof.
  apply (proj2 (build_validates_lazily ConvLstmModel
                  (config_of "convlstm" cnn_float_layers)
                  (PList [PInt 10; PInt 8; PInt 8; PInt 3]) None
                  eq_refl ltac:(vm_compute; reflexivity))).
  vm_compute. reflexivity.
Defined.

(** C5, as claimed, fails: with [{"cnn": {"hiddenLayers": 2.0, "filters":
    [8, 16]}}] a ConvLstmModel raises a ConfigError on [build], although no
    required key is missing and the list of filters has the length that
    [hiddenLayers] states. *)
Lemma build_ConfigError_not_only_keys_and_lengths :
  ~ (build (__init__ ConvLstmModel (config_of "convlstm" cnn_float_layers))
           (PList [PInt 10; PInt 8; PInt 8; PInt 3]) None
     = Raise ConfigError
     <-> key_missing ConvLstmModel cnn_float_layers
         || length_differs ConvLstmModel cnn_float_layers = true).
Proof.
  intros [H _].
  assert (key_missing ConvLstmModel cnn_float_layers
          || length_differs ConvLstmModel cnn_float_layers = false) as E
    by (vm_compute; reflexivity).
  rewrite E in H. discriminate H. vm_compute. reflexivity.
Qed.

(** ** Index accesses of [LstmModel._build_model] *)

Lemma seq_getitem_in_range {A : Type} (l : list A) (i : Z) :
  0 <= i < Z.of_nat (length l) -> exists a, seq_getitem l i = Ok a.
Proof.
  intros Hi. unfold seq_getitem.
  destruct (Z.ltb_spec i 0) as [?|_]; [lia|].
  destruct (Z.ltb_spec i 0) as [?|_]; [lia|].
  destruct (Z.leb_spec (Z.of_nat (length l)) i) as [?|_]; [lia|]. cbn [orb].
  destruct (l !! Z.to_nat i) as [a|] eqn:E; [eauto|].
  apply lookup_ge_None in E. lia.
Qed.

Lemma mapM_Ok {A B : Type} (f : A -> result B) (l : list A) :
  (forall a, In a l -> exists b, f a = Ok b) -> exists bs, mapM f l = Ok bs.
Proof.
  induction l as [|a l IH]; intros Hf; simpl.
  - eauto.
  - destruct (Hf a) as [b Hb]; [left; reflexivity|]. rewrite Hb. cbn [bind].
    destruct IH as [bs Hbs]; [intros a' Ha'; apply Hf; right; exact Ha'|].
    rewrite Hbs. cbn [bind]. eauto.
Qed.

Lemma py_range_elements (n i : Z) :
  In i (map Z.of_nat (seq 0 (Z.to_nat n))) -> 0 <= i < n.
Proof.
  intros H. apply in_map_iff in H as (k & <- & Hk). apply in_seq in Hk. lia.
Qed.

Lemma lstm_build_in_range (input_shape : pyval) (output_size : option pyval)
    (hl : Z) (us ds : list pyval) :
  1 <= hl -> Z.of_nat (length us) = hl -> Z.of_nat (length ds) = hl ->
  exists m, LstmModel._build_model input_shape (PInt hl, PList us, PList ds)
              output_size = Ok m.
Proof.
  intros Hhl Hus Hds. unfold LstmModel._build_model, py_pred, py_range, py_index.
  cbn [bind].
  destruct (mapM_Ok (fun i => u <- (PList us).[PInt i] ;;
                             d <- (PList ds).[PInt i] ;;
                             Ok (LSTM u true (Some d)))
                    (map Z.of_nat (seq 0 (Z.to_nat (hl - 1))))) as [stacked Hst].
  { intros i Hi. apply py_range_elements in Hi.
    unfold py_getitem, py_index.
    destruct (seq_getitem_in_range us i) as [u Hu]; [lia|].
    destruct (seq_getitem_in_range ds i) as [d Hd]; [lia|].
    rewrite Hu, Hd. cbn [bind]. eauto. }
  rewrite Hst. cbn [bind]. unfold py_getitem, py_index.
  destruct (seq_getitem_in_range us (hl - 1)) as [u Hu]; [lia|].
  destruct (seq_getitem_in_range ds (hl - 1)) as [d Hd]; [lia|].
  rewrite Hu, Hd. cbn [bind]. eauto.
Qed.

Lemma lstm_validated_lengths (p : pyval) (hl : Z) (us ds : list pyval) :
  LstmModel._get_and_validate_params p = Ok (PInt hl, PList us, PList ds) ->
  Z.of_nat (length us) = hl /\ Z.of_nat (length ds) = hl.
Proof.
  unfold LstmModel._get_and_validate_params.
  destruct p.[PStr "lstm"] as [s|e]; cbn [bind]; [|destruct e; discriminate].
  destruct s.[PStr "hiddenLayers"] as [h|e]; cbn [bind]; [|destruct e; discriminate].
  destruct s.[PStr "units"] as [u|e]; cbn [bind]; [|destruct e; discriminate].
  destruct (py_len u) as [n|e] eqn:En; cbn [bind]; [|destruct e; discriminate].
  destruct (py_ne_int n h) eqn:E1; [discriminate|].
  destruct s.[PStr "dropout"] as [d|e]; cbn [bind]; [|destruct e; discriminate].
  destruct (py_len d) as [n'|e] eqn:En'; cbn [bind]; [|destruct e; discriminate].
  destruct (py_ne_int n' h) eqn:E2; [discriminate|].
  cbn [except_KeyError]. intros H. injection H as -> -> ->.
  cbn in En, En'. injection En as <-. injection En' as <-.
  unfold py_ne_int, py_eq_int in E1, E2.
  apply negb_false_iff, Z.eqb_eq in E1. apply negb_false_iff, Z.eqb_eq in E2.
  split; assumption.
Qed.

Lemma cnn_validator_rejects_negative (s : pyval) (hl : Z) (filters : pyval) :
  entry s "hiddenLayers" = Some (PInt hl) -> entry s "filters" = Some filters ->
  hl < 0 -> CnnParams.__get_and_validate_cnn_params s = Raise ConfigError.
Proof.
  destruct s as [| | | | | |d]; try discriminate. cbn [entry]. intros Eh Ef Hneg.
  unfold CnnParams.__get_and_validate_cnn_params, py_getitem. rewrite Eh, Ef.
  cbn. destruct (Z.ltb_spec hl 0); [reflexivity|lia].
Qed.

(** C10.  [LstmModel] validation accepts [hiddenLayers = 0] with empty
    [units] and [dropout], and [_build_model] then raises an IndexError at
    [units[hiddenLayers - 1]].  Whatever validation accepts has lists of
    length [hiddenLayers]; the index accesses of [_build_model] are then in
    range when [hiddenLayers >= 1], so that it raises no IndexError (what
    the framework makes of the layers is not part of the statement), and
    they raise an IndexError otherwise.  The CNN validators, unlike this
    one, have an explicit check that rejects a negative [hiddenLayers]. *)
Theorem lstm_zero_layers_out_of_range (input_shape : pyval)
    (output_size : option pyval) :
  LstmModel._get_and_validate_params lstm_no_layers = Ok (PInt 0, PList [], PList [])
  /\ LstmModel._build_model input_shape (PInt 0, PList [], PList []) output_size
     = Raise IndexError
  /\ (forall p hl us ds,
        LstmModel._get_and_validate_params p = Ok (PInt hl, PList us, PList ds) ->
        Z.of_nat (length us) = hl /\ Z.of_nat (length ds) = hl
        /\ (1 <= hl ->
              LstmModel._build_model input_shape (PInt hl, PList us, PList ds)
                output_size <> Raise IndexError)
        /\ (hl < 1 ->
              LstmModel._build_model input_shape (PInt hl, PList us, PList ds)
                output_size = Raise IndexError))
  /\ (forall s hl filters,
        entry s "hiddenLayers" = Some (PInt hl) -> entry s "filters" = Some filters ->
        hl < 0 -> CnnParams.__get_and_validate_cnn_params s = Raise ConfigError).
Proof.
  split; [vm_compute; reflexivity|].
  split; [reflexivity|].
  split.
  - intros p hl us ds Hv. destruct (lstm_validated_lengths p hl us ds Hv) as [Hu Hd].
    split; [exact Hu|]. split; [exact Hd|]. split.
    + intros Hhl.
      destruct (lstm_build_in_range input_shape output_size hl us ds) as [m Hm];
        [assumption..|]. rewrite Hm. discriminate.
    + intros Hhl. assert (hl = 0) as -> by lia.
      destruct us; [|simpl in Hu; lia]. destruct ds; [|simpl in Hd; lia].
      reflexivity.
  - apply cnn_validator_rejects_negative.
Qed.

Lemma lstm_zero_layers_out_of_range_witness :
  LstmModel._build_model (PList [PInt 10; PInt 5])
    (PInt 2, PList [PInt 32; PInt 32], PList [PFloat (1 # 10); PInt 0]) None
  <> Raise IndexError.
Proof.
  destruct (lstm_zero_layers_out_of_range (PList [PInt 10; PInt 5]) None)
    as (_ & _ & H & _).
  destruct (H lstm_two_layers 2 [PInt 32; PInt 32] [PFloat (1 # 10); PInt 0])
    as (_ & _ & Hb & _).
  - vm_compute. reflexivity.
  - apply Hb. lia.
Defined.

(** ** Fitting the processor *)

Lemma mem_In (k : string) (l : list string) : Xr.mem k l = true <-> In k l.
Proof.
  unfold Xr.mem. rewrite existsb_exists. split.
  - intros (x & Hx & E). apply String.eqb_eq in E. subst. exact Hx.
  - intros H. exists k. split; [exact H|apply String.eqb_refl].
Qed.

Lemma forallb_mem_In (l names : list string) :
  forallb (fun i => Xr.mem i names) l = true <-> (forall i, In i l -> In i names).
Proof.
  rewrite forallb_forall. split; intros H i Hi; apply mem_In, H, Hi.
Qed.

Lemma fit_scaling_params_fitted (ds : loc) (s : State) (o : HydroDataset)
    (ts : Xr.Dataset) :
  objects (store s) !! ds = Some o ->
  arrays (store s) !! timeseries o = Some ts ->
  DefaultDatasetProcessor.__fit_scaling_params ds s =
  match fitted_params ts with
  | Ok p => (Ok tt, {| self := {| variables := variables (self s);
                                 scaling_params := Some p |};
                       store := store s |})
  | Raise e => (Raise e, s)
  end.
Proof.
  intros Ho Hts.
  unfold DefaultDatasetProcessor.__fit_scaling_params, and_then, read_object, read_array.
  rewrite Ho, Hts. unfold fitted_params.
  destruct (forallb _ ["basin"; "time"; "y"; "x"]); [reflexivity|].
  destruct (forallb _ ["basin"; "time"]); reflexivity.
Qed.

(** C3.  Fitting looks at the coordinates of the dataset's timeseries: when
    they contain basin, time, y and x, the minimum and maximum are reduced
    over time, y and x; when they contain basin and time but not all of y
    and x, over time only; when they contain neither of the two sets,
    fitting raises a ValueError and leaves the processor as it was. *)
Theorem fit_validates_coordinates (ds : loc) (s : State) (o : HydroDataset)
    (ts : Xr.Dataset) :
  objects (store s) !! ds = Some o ->
  arrays (store s) !! timeseries o = Some ts ->
  let contains l := forall i, In i l -> In i (Xr.names (Xr.coords ts)) in
  let fitted p := (Ok tt, {| self := {| variables := Some (feature_cols o);
                                       scaling_params := Some p |};
                             store := store s |}) in
  (contains ["basin"; "time"; "y"; "x"] ->
   DefaultDatasetProcessor.fit ds s
   = fitted (Xr.min (Some ["time"; "y"; "x"]) ts, Xr.max (Some ["time"; "y"; "x"]) ts))
  /\ (contains ["basin"; "time"] -> ~ contains ["basin"; "time"; "y"; "x"] ->
      DefaultDatasetProcessor.fit ds s
      = fitted (Xr.min (Some ["time"]) ts, Xr.max (Some ["time"]) ts))
  /\ (~ contains ["basin"; "time"; "y"; "x"] -> ~ contains ["basin"; "time"] ->
      DefaultDatasetProcessor.fit ds s = (Raise ValueError, s)).
Proof.
  intros Ho Hts contains fitted.
  unfold DefaultDatasetProcessor.fit, and_then.
  rewrite (fit_scaling_params_fitted ds s o ts Ho Hts). unfold fitted_params.
  destruct (forallb _ ["basin"; "time"; "y"; "x"]) eqn:E4;
    [|destruct (forallb _ ["basin"; "time"]) eqn:E2].
  - pose proof (proj1 (forallb_mem_In _ _) E4) as H4.
    unfold read_object, set_variables. cbn [store self objects]. rewrite Ho.
    split; [reflexivity|]. split; intros; contradiction.
  - pose proof (proj1 (forallb_mem_In _ _) E2) as H2.
    unfold read_object, set_variables. cbn [store self objects]. rewrite Ho.
    split; [|split]; [|reflexivity|intros; contradiction].
    intros H4. apply (proj2 (forallb_mem_In _ _)) in H4. congruence.
  - split; [|split]; [| |reflexivity].
    + intros H4. apply (proj2 (forallb_mem_In _ _)) in H4. congruence.
    + intros H2. apply (proj2 (forallb_mem_In _ _)) in H2. congruence.
Qed.

(** ** Scaling and processing, step by step *)

Lemma fresh_is_free {A : Type} (m : gmap loc A) : m !! fresh (dom m) = None.
Proof. apply not_elem_of_dom, is_fresh. Qed.

Lemma fresh_differs {A : Type} (m : gmap loc A) (l : loc) (a : A) :
  m !! l = Some a -> fresh (dom m) <> l.
Proof. intros H E. rewrite <- E, fresh_is_free in H. discriminate. Qed.

(** The parameters [scale] works with: the stored ones, or else the minimum
    and maximum of the array itself. *)
Lemma scale_returns (ds : loc) (s : State) (x : Xr.Dataset) :
  arrays (store s) !! ds = Some x ->
  AbstractProcessor.scale ds s =
  (Ok (fresh (dom (arrays (store s)))),
   {| self := self s;
      store := {| objects := objects (store s);
                  arrays := <[fresh (dom (arrays (store s))) :=
                                scaled_with
                                  match scaling_params (self s) with
                                  | Some p => p
                                  | None => (Xr.min None x, Xr.max None x)
                                  end x]> (arrays (store s));
                  warnings := warnings (store s) |} |}).
Proof.
  intros Hx. unfold AbstractProcessor.scale. unfold_methods.
  rewrite Hx. unfold scaled_with.
  destruct (scaling_params (self s)) as [[mn mx]|]; reflexivity.
Qed.

Lemma process_with_params (ds : loc) (s : State) (p : Xr.Dataset * Xr.Dataset)
    (o : HydroDataset) (x : Xr.Dataset) :
  scaling_params (self s) = Some p ->
  objects (store s) !! ds = Some o ->
  arrays (store s) !! timeseries o = Some x ->
  let lo := fresh (dom (objects (store s))) in
  let la := fresh (dom (arrays (store s))) in
  let state_with y :=
    {| self := self s;
       store := {| objects := <[lo := with_timeseries o la]> (objects (store s));
                   arrays := <[la := y]> (arrays (store s));
                   warnings := warnings (store s) |} |} in
  DefaultDatasetProcessor.process ds s =
  match variables (self s) with
  | None => (Raise KeyError, state_with (scaled_with p x))
  | Some vars =>
      match nan_filled vars (scaled_with p x) with
      | Ok y => (Ok lo, state_with y)
      | Raise e => (Raise e, state_with (scaled_with p x))
      end
  end.
Proof.
  intros Hp Ho Hx lo la state_with.
  unfold DefaultDatasetProcessor.process, AbstractProcessor.fillna, nan_filled.
  unfold_methods. rewrite Hp. run_method. rewrite Ho. fold lo. run_method.
  rewrite (scale_returns (timeseries o) _ x) by exact Hx.
  run_method. rewrite Hp. fold la. run_method.
  destruct (variables (self s)) as [vars|]; [|reflexivity].
  destruct (Xr.getitem (scaled_with p x) vars) as [sel|e]; [|reflexivity].
  run_method.
  destruct (Xr.setitem (scaled_with p x) vars (Xr.fillna (Xr.Fin (-1)%Qc) sel))
    as [y|e]; [|reflexivity].
  run_method. reflexivity.
Qed.

Lemma process_without_params (ds : loc) (s : State) (o : HydroDataset)
    (x : Xr.Dataset) :
  scaling_params (self s) = None ->
  objects (store s) !! ds = Some o ->
  arrays (store s) !! timeseries o = Some x ->
  let warned :=
    {| objects := objects (store s); arrays := arrays (store s);
       warnings := warnings (store s)
                   ++ ["Processor has not been fit to a dataset before. Thus, "
                       +:+ "it will be fitted to the provided dataset."] |} in
  DefaultDatasetProcessor.process ds s =
  match fitted_params x with
  | Ok p => DefaultDatasetProcessor.process ds
              {| self := {| variables := variables (self s);
                            scaling_params := Some p |};
                 store := warned |}
  | Raise e => (Raise e, {| self := self s; store := warned |})
  end.
Proof.
  intros Hp Ho Hx warned.
  unfold DefaultDatasetProcessor.process.
  unfold and_then at 1. unfold get_self at 1. rewrite Hp.
  unfold and_then at 1. unfold and_then at 1. unfold warning at 1.
  rewrite (fit_scaling_params_fitted ds _ o x) by assumption.
  destruct (fitted_params x) as [p|e]; [|reflexivity].
  cbn [self store variables].
  unfold and_then at 3. unfold get_self at 1. cbn [self scaling_params].
  unfold and_then at 3. unfold ret at 1. reflexivity.
Qed.

Lemma scale_dangling (ds : loc) (s : State) :
  arrays (store s) !! ds = None -> AbstractProcessor.scale ds s = (Raise Dangling, s).
Proof.
  intros Hx. unfold AbstractProcessor.scale. unfold_methods. rewrite Hx. reflexivity.
Qed.

Lemma process_dangling (ds : loc) (s : State) :
  objects (store s) !! ds = None
  \/ (exists o, objects (store s) !! ds = Some o
                /\ arrays (store s) !! timeseries o = None) ->
  fst (DefaultDatasetProcessor.process ds s) = Raise Dangling
  /\ scaling_params (self (snd (DefaultDatasetProcessor.process ds s)))
     = scaling_params (self s).
Proof.
  intros H.
  unfold DefaultDatasetProcessor.process, DefaultDatasetProcessor.__fit_scaling_params,
    AbstractProcessor.scale.
  unfold_methods.
  destruct H as [Ho|(o & Ho & Hx)].
  - destruct (scaling_params (self s)) eqn:Hp; run_method; rewrite Ho;
      cbn [fst snd]; run_method; rewrite ?Hp; split; reflexivity.
  - destruct (scaling_params (self s)) eqn:Hp; run_method; rewrite Ho; run_method;
      rewrite ?Hx; run_method; rewrite ?Hx; cbn [fst snd]; run_method; rewrite ?Hp;
      split; reflexivity.
Qed.

(** One call on a processor whose parameters are [p]: the parameters stay,
    and what the call returns is computed with [p]. *)
Lemma perform_uses_stored (p : Xr.Dataset * Xr.Dataset) (c : call) (s : State) :
  scaling_params (self s) = Some p ->
  scaling_params (self (snd (perform c s))) = Some p
  /\ produced_with p {| before := s; called := c; outcome := fst (perform c s);
                        after := snd (perform c s) |}.
Proof.
  intros Hp. unfold produced_with. cbn [before called outcome after].
  destruct c as [ds|ds]; cbn [perform].
  - destruct (objects (store s) !! ds) as [o|] eqn:Ho.
    + destruct (arrays (store s) !! timeseries o) as [x|] eqn:Hx.
      * rewrite (process_with_params ds s p o x Hp Ho Hx).
        destruct (variables (self s)) as [vars|] eqn:Hv;
          [destruct (nan_filled vars (scaled_with p x)) as [y|e] eqn:Hy|];
          cbn [fst snd self store objects arrays]; (split; [exact Hp|]);
          intros l Hl; try discriminate.
        injection Hl as <-.
        exists o, x, vars, y, (fresh (dom (arrays (store s)))).
        rewrite !lookup_insert_eq. auto 10.
      * destruct (process_dangling ds s) as [Hr Hs]; [right; eauto|].
        rewrite Hr, Hs. split; [exact Hp|]. intros l Hl. discriminate.
    + destruct (process_dangling ds s) as [Hr Hs]; [left; exact Ho|].
      rewrite Hr, Hs. split; [exact Hp|]. intros l Hl. discriminate.
  - destruct (arrays (store s) !! ds) as [x|] eqn:Hx.
    + rewrite (scale_returns ds s x Hx). rewrite Hp.
      cbn [fst snd self store objects arrays]. split; [exact Hp|].
      intros l Hl. injection Hl as <-. exists x.
      rewrite lookup_insert_eq. auto.
    + rewrite (scale_dangling ds s Hx). cbn [fst snd]. split; [exact Hp|].
      intros l Hl. discriminate.
Qed.

Lemma run_uses_stored (p : Xr.Dataset * Xr.Dataset) (cs : list call) (s : State) :
  scaling_params (self s) = Some p ->
  Forall (fun st => scaling_params (self (before st)) = Some p
                    /\ scaling_params (self (after st)) = Some p
                    /\ produced_with p st) (run cs s).
Proof.
  revert s. induction cs as [|c cs IH]; intros s Hp; cbn [run].
  - constructor.
  - destruct (perform_uses_stored p c s Hp) as [Hp' Hprod].
    destruct (perform c s) as [r s'] eqn:E. cbn [fst snd] in *.
    constructor; [|apply IH; exact Hp'].
    cbn [before after]. auto.
Qed.

Lemma fit_sets_params (ds : loc) (s s' : State) :
  DefaultDatasetProcessor.fit ds s = (Ok tt, s') ->
  exists o x p, objects (store s) !! ds = Some o
                /\ arrays (store s) !! timeseries o = Some x
                /\ fitted_params x = Ok p
                /\ scaling_params (self s') = Some p.
Proof.
  unfold DefaultDatasetProcessor.fit. unfold and_then at 1.
  destruct (objects (store s) !! ds) as [o|] eqn:Ho.
  - destruct (arrays (store s) !! timeseries o) as [x|] eqn:Hx.
    + rewrite (fit_scaling_params_fitted ds s o x Ho Hx).
      destruct (fitted_params x) as [p|e] eqn:Hfit; [|discriminate].
      unfold_methods. run_method. rewrite Ho. intros H. injection H as <-.
      exists o, x, p. auto.
    + unfold DefaultDatasetProcessor.__fit_scaling_params. unfold_methods.
      rewrite Ho. run_method. rewrite Hx. discriminate.
  - unfold DefaultDatasetProcessor.__fit_scaling_params. unfold_methods.
    rewrite Ho. discriminate.
Qed.

(** C1.  Once a processor has scaling parameters [p], every later call of
    [process] or [scale], on whatever datasets and whether it returns or
    raises, leaves [p] in place and computes what it returns from [p] and
    its input alone.  A [fit] that returns has stored parameters, and a
    [process] that returns on a processor without parameters has stored the
    parameters fitted to its own input and used them; whether that first
    [process] returns or raises, the parameters it leaves are the fitted
    ones, or none when the fit itself raised. *)
Theorem stored_params_reused :
  (forall (p : Xr.Dataset * Xr.Dataset) (cs : list call) (s : State),
     scaling_params (self s) = Some p ->
     Forall (fun st => scaling_params (self (before st)) = Some p
                       /\ scaling_params (self (after st)) = Some p
                       /\ produced_with p st) (run cs s))
  /\ (forall (ds : loc) (s s' : State),
        DefaultDatasetProcessor.fit ds s = (Ok tt, s') ->
        exists o x p, objects (store s) !! ds = Some o
                      /\ arrays (store s) !! timeseries o = Some x
                      /\ fitted_params x = Ok p
                      /\ scaling_params (self s') = Some p)
  /\ (forall (ds l : loc) (s s' : State),
        scaling_params (self s) = None ->
        DefaultDatasetProcessor.process ds s = (Ok l, s') ->
        exists o x p, objects (store s) !! ds = Some o
                      /\ arrays (store s) !! timeseries o = Some x
                      /\ fitted_params x = Ok p
                      /\ scaling_params (self s') = Some p
                      /\ produced_with p {| before := s; called := Process ds;
                                            outcome := Ok l; after := s' |})
  /\ (forall (ds : loc) (s : State) (o : HydroDataset) (x : Xr.Dataset),
        scaling_params (self s) = None ->
        objects (store s) !! ds = Some o ->
        arrays (store s) !! timeseries o = Some x ->
        scaling_params (self (snd (DefaultDatasetProcessor.process ds s)))
        = match fitted_params x with
          | Ok p => Some p
          | Raise _ => None
          end).
Proof.
  split; [exact run_uses_stored|]. split; [exact fit_sets_params|].
  split.
  2: { intros ds s o x Hnone Ho Hx.
       rewrite (process_without_params ds s o x Hnone Ho Hx).
       destruct (fitted_params x) as [p|e]; [|exact Hnone].
       match goal with
       | |- context [DefaultDatasetProcessor.process ds ?s1] =>
           exact (proj1 (perform_uses_stored p (Process ds) s1 eq_refl))
       end. }
  intros ds l s s' Hnone Hrun.
  destruct (objects (store s) !! ds) as [o|] eqn:Ho.
  2: { destruct (process_dangling ds s) as [Hr _]; [left; exact Ho|].
       rewrite Hrun in Hr. discriminate. }
  destruct (arrays (store s) !! timeseries o) as [x|] eqn:Hx.
  2: { destruct (process_dangling ds s) as [Hr _]; [right; eauto|].
       rewrite Hrun in Hr. discriminate. }
  rewrite (process_without_params ds s o x Hnone Ho Hx) in Hrun.
  destruct (fitted_params x) as [p|e] eqn:Hfit; [|discriminate].
  exists o, x, p.
  split; [reflexivity|]. split; [exact Hx|]. split; [exact Hfit|].
  match type of Hrun with
  | DefaultDatasetProcessor.process ds ?s1 = _ =>
      destruct (perform_uses_stored p (Process ds) s1 eq_refl) as [Hp' Hprod];
      cbn [perform] in Hp', Hprod; rewrite Hrun in Hp', Hprod
  end.
  cbn [fst snd] in Hp', Hprod. split; [exact Hp'|].
  unfold produced_with in *. cbn [before called outcome after] in *.
  intros l' Hl'. destruct (Hprod l' Hl') as (o' & x' & vars & y & ts & H1 & H2 & H3 & H4 & H5 & H6).
  cbn [store objects arrays self variables] in H1, H2, H3.
  exists o', x', vars, y, ts. auto 10.
Qed.

Lemma fit_validates_coordinates_witness :
  DefaultDatasetProcessor.fit 0%nat state_new = (Ok tt, state_fitted)
  /\ DefaultDatasetProcessor.fit 3%nat state_new = (Raise ValueError, state_new).
Proof.
  destruct (fit_validates_coordinates 0%nat state_new (hydro 0%nat) ds_train
              eq_refl eq_refl) as (_ & H2 & _).
  destruct (fit_validates_coordinates 3%nat state_new (hydro 3%nat) ds_no_time
              eq_refl eq_refl) as (_ & _ & H3).
  split.
  - apply H2.
    + intros i [<-|[<-|[]]]; simpl; auto.
    + intros H. specialize (H "y"). simpl in H.
      destruct H as [H|[H|[]]]; [auto| |]; discriminate H.
  - apply H3.
    + intros H. specialize (H "time"). simpl in H.
      destruct H as [H|[]]; [auto|]. discriminate H.
    + intros H. specialize (H "time"). simpl in H.
      destruct H as [H|[]]; [auto|]. discriminate H.
Defined.

Lemma stored_params_reused_witness :
  Forall (fun st => scaling_params (self (before st)) = Some params_train
                    /\ scaling_params (self (after st)) = Some params_train
                    /\ produced_with params_train st)
         (run [Process 1%nat; Scale 2%nat; Process 3%nat; Process 0%nat] state_fitted).
Proof. apply (proj1 stored_params_reused). reflexivity. Defined.

(** ** What [process] leaves alone *)

Lemma insert_fresh_keeps {A : Type} (m : gmap loc A) (a b : A) (l : loc) :
  m !! l = Some a -> <[fresh (dom m) := b]> m !! l = Some a.
Proof.
  intros H. rewrite lookup_insert_ne; [exact H|]. apply (fresh_differs m l a H).
Qed.


(** ** Arithmetic of values *)

Lemma sgn_Eq (q : Qc) : Xr.sgn q = Eq <-> q = 0%Qc.
Proof. unfold Xr.sgn. symmetry. apply Qceq_alt. Qed.

Lemma Qc_eq_bool_false (a b : Qc) : Qc_eq_bool a b = false -> a <> b.
Proof.
  unfold Qc_eq_bool. destruct (Qcanon.Qc_eq_dec a b); [discriminate|auto].
Qed.

(** Scaling a value with minimum [lo] and range [d], then rescaling it,
    gives the value back, as long as the range is not zero. *)
Lemma value_round_trip (v : Xr.value) (lo d : Qc) :
  d <> 0%Qc ->
  Xr.add (Xr.mul (Xr.div (Xr.sub v (Xr.Fin lo)) (Xr.Fin d)) (Xr.Fin d)) (Xr.Fin lo) = v.
Proof.
  intros Hd.
  assert (Xr.sgn d <> Eq) as Hs by (rewrite sgn_Eq; exact Hd).
  destruct v as [q| | |]; cbn.
  - destruct (Xr.sgn d) eqn:E; [congruence| |]; cbn; f_equal; field; exact Hd.
  - destruct (Xr.sgn d) eqn:E; [congruence| |]; cbn; rewrite ?E; reflexivity.
  - destruct (Xr.sgn d) eqn:E; [congruence| |]; cbn; rewrite ?E; reflexivity.
  - reflexivity.
Qed.

(** ** Arithmetic of arrays, position by position *)

Lemma flat_map_if_filter {A B : Type} (P : A -> bool) (h : A -> B) (l : list A) :
  flat_map (fun a => if P a then [h a] else []) l = map h (List.filter P l).
Proof.
  induction l as [|a l IH]; simpl; [reflexivity|].
  destruct (P a); simpl; rewrite IH; reflexivity.
Qed.

Lemma filter_none {A : Type} (P : A -> bool) (l : list A) :
  forallb P l = true -> List.filter (fun a => negb (P a)) l = [].
Proof.
  induction l as [|a l IH]; simpl; [reflexivity|].
  intros H. apply andb_prop in H as [Ha Hl]. rewrite Ha. apply IH, Hl.
Qed.

Lemma filter_all {A : Type} (P : A -> bool) (l : list A) :
  forallb P l = true -> List.filter P l = l.
Proof.
  induction l as [|a l IH]; simpl; [reflexivity|].
  intros H. apply andb_prop in H as [Ha Hl]. rewrite Ha, IH; auto.
Qed.

Lemma binop_cell (f : Xr.value -> Xr.value -> Xr.value) (a b : Xr.DataArray)
    (c : Xr.point * Xr.value) (y : Xr.value) :
  value_for (Xr.dims a) b (fst c) = Some y ->
  flat_map (fun c' : Xr.point * Xr.value =>
              if Xr.agree (fst c) (fst c')
              then [(fst c ++ List.filter (fun dl : string * Xr.label =>
                                             negb (Xr.mem (fst dl) (Xr.dims a))) (fst c'),
                     f (snd c) (snd c'))]
              else []) (Xr.cells b)
  = [(fst c, f (snd c) y)].
Proof.
  unfold value_for, hits. intros H.
  rewrite (flat_map_if_filter (fun c' => Xr.agree (fst c) (fst c'))
             (fun c' => (fst c ++ List.filter (fun dl : string * Xr.label =>
                                                 negb (Xr.mem (fst dl) (Xr.dims a)))
                                              (fst c'),
                         f (snd c) (snd c')))).
  destruct (List.filter _ (Xr.cells b)) as [|[q y'] [|? ?]]; try discriminate.
  destruct (forallb _ q) eqn:Hq; [|discriminate]. injection H as ->.
  cbn [map fst snd].
  rewrite (filter_none (fun dl : string * Xr.label => Xr.mem (fst dl) (Xr.dims a)) q Hq).
  rewrite app_nil_r. reflexivity.
Qed.

(** An operation with an array that has one value for each position of
    [a], and no further dimension, works position by position on [a]. *)
Lemma binop_remap (f : Xr.value -> Xr.value -> Xr.value) (a b : Xr.DataArray) :
  forallb (fun i => Xr.mem i (Xr.dims a)) (Xr.dims b) = true ->
  (forall c, In c (Xr.cells a) -> exists y, value_for (Xr.dims a) b (fst c) = Some y) ->
  Xr.arr_binop f a b
  = remap (fun p v => f v (default Xr.NaN (value_for (Xr.dims a) b p))) a.
Proof.
  intros Hd Hc. unfold Xr.arr_binop, remap. f_equal.
  - rewrite (filter_none (fun i => Xr.mem i (Xr.dims a)) _ Hd). apply app_nil_r.
  - induction (Xr.cells a) as [|c l IH]; [reflexivity|].
    cbn [flat_map map].
    destruct (Hc c) as [y Hy]; [left; reflexivity|].
    rewrite (binop_cell f a b c y Hy), Hy. cbn [app default]. f_equal.
    apply IH. intros c' Hc'. apply Hc. right. exact Hc'.
Qed.

Lemma remap_dims h a : Xr.dims (remap h a) = Xr.dims a.
Proof. reflexivity. Qed.

Lemma remap_remap (h g : Xr.point -> Xr.value -> Xr.value) (a : Xr.DataArray) :
  remap g (remap h a) = remap (fun p v => g p (h p v)) a.
Proof. unfold remap. cbn [Xr.dims Xr.cells]. rewrite map_map. reflexivity. Qed.

Lemma remap_In h a c :
  In c (Xr.cells (remap h a)) -> exists c0, In c0 (Xr.cells a) /\ fst c = fst c0.
Proof.
  unfold remap. cbn [Xr.cells]. intros H. apply in_map_iff in H as (c0 & <- & H0).
  exists c0. auto.
Qed.

Lemma remap_id (h : Xr.point -> Xr.value -> Xr.value) (a : Xr.DataArray) :
  (forall c, In c (Xr.cells a) -> h (fst c) (snd c) = snd c) -> remap h a = a.
Proof.
  intros H. destruct a as [ds cs]. unfold remap. cbn [Xr.dims Xr.cells] in *. f_equal.
  induction cs as [|c cs IH]; [reflexivity|].
  cbn [map]. rewrite (H c) by (left; reflexivity).
  rewrite IH by (intros c' Hc'; apply H; right; exact Hc').
  destruct c; reflexivity.
Qed.

Lemma forallb_fst_map {A B C : Type} (P : A -> bool) (h : A -> B -> C)
    (l : list (A * B)) :
  forallb (fun c : A * C => P (fst c)) (map (fun c => (fst c, h (fst c) (snd c))) l)
  = forallb (fun c : A * B => P (fst c)) l.
Proof. induction l as [|c l IH]; simpl; [reflexivity|]. rewrite IH. reflexivity. Qed.

Lemma restrict_remap (idx : list (string * list Xr.label))
    (h : Xr.point -> Xr.value -> Xr.value) (a : Xr.DataArray) :
  forallb (fun c : Xr.point * Xr.value => Xr.within idx (fst c)) (Xr.cells a) = true ->
  Xr.arr_restrict idx (remap h a) = remap h a.
Proof.
  intros H. unfold Xr.arr_restrict, remap. cbn [Xr.dims Xr.cells]. f_equal.
  apply filter_all. rewrite forallb_fst_map. exact H.
Qed.

Lemma restrict_whole (idx : list (string * list Xr.label)) (a : Xr.DataArray) :
  forallb (fun c : Xr.point * Xr.value => Xr.within idx (fst c)) (Xr.cells a) = true ->
  Xr.arr_restrict idx a = a.
Proof.
  intros H. destruct a as [ds cs]. unfold Xr.arr_restrict. cbn [Xr.dims Xr.cells] in *.
  f_equal. apply filter_all, H.
Qed.

(** ** Arithmetic of datasets, position by position *)

Lemma ds_remap_id (h : string * Xr.DataArray -> Xr.point -> Xr.value -> Xr.value)
    (x : Xr.Dataset) :
  (forall kx c, In kx (Xr.data_vars x) -> In c (Xr.cells (snd kx)) ->
                h kx (fst c) (snd c) = snd c) ->
  ds_remap h x = x.
Proof.
  intros H. destruct x as [cs vs]. unfold ds_remap. cbn [Xr.coords Xr.data_vars] in *.
  f_equal. induction vs as [|kx vs IH]; [reflexivity|].
  cbn [map]. rewrite remap_id by (intros c Hc; apply H; [left; reflexivity|exact Hc]).
  rewrite IH by (intros kx' c Hk Hc; apply H; [right; exact Hk|exact Hc]).
  destruct kx; reflexivity.
Qed.

Lemma ds_binop_remap (f : Xr.value -> Xr.value -> Xr.value) (x b : Xr.Dataset)
    (h : string * Xr.DataArray -> Xr.point -> Xr.value -> Xr.value) :
  has_value_for_each_cell b x ->
  Xr.ds_binop f (ds_remap h x) b
  = ds_remap (fun kx p v => f (h kx p v) (param_at b (Xr.coords x) kx p)) x.
Proof.
  intros [Hidx Hvars]. unfold Xr.ds_binop, ds_remap. cbn [Xr.coords Xr.data_vars].
  rewrite Hidx. f_equal.
  induction (Xr.data_vars x) as [|kx vs IH]; [reflexivity|].
  cbn [map flat_map fst snd].
  destruct (Hvars kx) as (Hin & y & Hy & Hdims & Hcells); [left; reflexivity|].
  rewrite Hy. cbn [app]. f_equal.
  - f_equal. rewrite restrict_remap by exact Hin.
    rewrite binop_remap.
    + rewrite remap_remap. unfold param_at. rewrite Hy. reflexivity.
    + exact Hdims.
    + intros c Hc. apply remap_In in Hc as (c0 & Hc0 & ->). apply Hcells, Hc0.
  - apply IH. intros kx' Hk. apply Hvars. right. exact Hk.
Qed.

Lemma covers_min (p : Xr.Dataset * Xr.Dataset) (x : Xr.Dataset) :
  covers p x = true -> has_value_for_each_cell (fst p) x.
Proof.
  unfold covers. intros H.
  apply andb_prop in H as [H Hv]. apply andb_prop in H as [H1 _].
  apply bool_decide_eq_true in H1. split; [exact H1|].
  intros kx Hk. rewrite forallb_forall in Hv. specialize (Hv kx Hk). cbv zeta in Hv.
  apply andb_prop in Hv as [Hin Hv]. split; [exact Hin|].
  destruct (Xr.assoc (fst kx) (Xr.data_vars (fst p))) as [m|]; [|discriminate].
  destruct (Xr.assoc (fst kx) (Xr.data_vars (Xr.ds_sub (snd p) (fst p)))) as [d|];
    [|discriminate].
  apply andb_prop in Hv as [Hv Hc]. apply andb_prop in Hv as [Hm _].
  exists m. split; [reflexivity|]. split; [exact Hm|].
  intros c Hc'. rewrite forallb_forall in Hc. specialize (Hc c Hc').
  apply andb_prop in Hc as [Hf _].
  destruct (value_for _ _ _) as [v|]; [eauto|discriminate].
Qed.

Lemma covers_range (p : Xr.Dataset * Xr.Dataset) (x : Xr.Dataset) :
  covers p x = true -> has_value_for_each_cell (Xr.ds_sub (snd p) (fst p)) x.
Proof.
  unfold covers. intros H.
  apply andb_prop in H as [H Hv]. apply andb_prop in H as [_ H2].
  apply bool_decide_eq_true in H2. split; [exact H2|].
  intros kx Hk. rewrite forallb_forall in Hv. specialize (Hv kx Hk). cbv zeta in Hv.
  apply andb_prop in Hv as [Hin Hv]. split; [exact Hin|].
  destruct (Xr.assoc (fst kx) (Xr.data_vars (fst p))) as [m|]; [|discriminate].
  destruct (Xr.assoc (fst kx) (Xr.data_vars (Xr.ds_sub (snd p) (fst p)))) as [d|];
    [|discriminate].
  apply andb_prop in Hv as [Hv Hc]. apply andb_prop in Hv as [_ Hd].
  exists d. split; [reflexivity|]. split; [exact Hd|].
  intros c Hc'. rewrite forallb_forall in Hc. specialize (Hc c Hc').
  apply andb_prop in Hc as [_ Hf].
  destruct (value_for _ _ _) as [v|]; [eauto|discriminate].
Qed.

Lemma covers_values (p : Xr.Dataset * Xr.Dataset) (x : Xr.Dataset)
    (kx : string * Xr.DataArray) (c : Xr.point * Xr.value) :
  covers p x = true -> In kx (Xr.data_vars x) -> In c (Xr.cells (snd kx)) ->
  exists lo d, param_at (fst p) (Xr.coords x) kx (fst c) = Xr.Fin lo
               /\ param_at (Xr.ds_sub (snd p) (fst p)) (Xr.coords x) kx (fst c)
                  = Xr.Fin d
               /\ d <> 0%Qc.
Proof.
  unfold covers, param_at. intros H Hk Hc'.
  apply andb_prop in H as [_ Hv].
  rewrite forallb_forall in Hv. specialize (Hv kx Hk). cbv zeta in Hv.
  apply andb_prop in Hv as [_ Hv].
  destruct (Xr.assoc (fst kx) (Xr.data_vars (fst p))) as [m|]; [|discriminate].
  destruct (Xr.assoc (fst kx) (Xr.data_vars (Xr.ds_sub (snd p) (fst p)))) as [d|];
    [|discriminate].
  apply andb_prop in Hv as [_ Hc].
  rewrite forallb_forall in Hc. specialize (Hc c Hc').
  apply andb_prop in Hc as [Hlo Hd].
  destruct (value_for (Xr.dims (snd kx)) (Xr.arr_restrict (Xr.coords x) m) (fst c))
    as [[lo| | |]|]; try discriminate.
  destruct (value_for (Xr.dims (snd kx)) (Xr.arr_restrict (Xr.coords x) d) (fst c))
    as [[r| | |]|]; try discriminate.
  exists lo, r. cbn [default finite_nonzero] in *. split; [reflexivity|].
  split; [reflexivity|]. apply Qc_eq_bool_false, negb_true_iff, Hd.
Qed.

(** The round trip on datasets. *)
Lemma rescaled_scaled (p : Xr.Dataset * Xr.Dataset) (x : Xr.Dataset) :
  covers p x = true -> rescaled_with p (scaled_with p x) = x.
Proof.
  intros H. unfold rescaled_with, scaled_with.
  pose proof (covers_min p x H) as Hmin. pose proof (covers_range p x H) as Hrange.
  rewrite <- (ds_remap_id (fun _ _ v => v) x) at 1 by reflexivity.
  unfold Xr.ds_sub at 1. rewrite (ds_binop_remap Xr.sub x (fst p) _ Hmin).
  unfold Xr.ds_div. rewrite (ds_binop_remap Xr.div x _ _ Hrange).
  unfold Xr.ds_mul. rewrite (ds_binop_remap Xr.mul x _ _ Hrange).
  unfold Xr.ds_add. rewrite (ds_binop_remap Xr.add x (fst p) _ Hmin).
  apply ds_remap_id. intros kx c Hk Hc.
  destruct (covers_values p x kx c H Hk Hc) as (lo & d & -> & -> & Hd).
  apply value_round_trip, Hd.
Qed.

Lemma rescale_returns (ds : loc) (s : State) (p : Xr.Dataset * Xr.Dataset)
    (y : Xr.Dataset) :
  scaling_params (self s) = Some p ->
  arrays (store s) !! ds = Some y ->
  AbstractProcessor.rescale ds s =
  (Ok (fresh (dom (arrays (store s)))),
   {| self := self s;
      store := {| objects := objects (store s);
                  arrays := <[fresh (dom (arrays (store s))) := rescaled_with p y]>
                              (arrays (store s));
                  warnings := warnings (store s) |} |}).
Proof.
  intros Hp Hy. unfold AbstractProcessor.rescale. unfold_methods.
  rewrite Hy, Hp. destruct p as [mn mx]. reflexivity.
Qed.

(** C9, as amended.  With stored parameters that cover the dataset (every
    variable and position of the dataset has one finite minimum and one
    finite, non-zero [max - min] among them), rescaling the scaled dataset
    gives the dataset back, in exact arithmetic: [scale] and then
    [rescale] return, and the array [rescale] answers holds the data the
    input holds. *)
Theorem rescale_inverts_scale (ds : loc) (s : State) (p : Xr.Dataset * Xr.Dataset)
    (x : Xr.Dataset) :
  scaling_params (self s) = Some p ->
  arrays (store s) !! ds = Some x ->
  covers p x = true ->
  rescaled_with p (scaled_with p x) = x
  /\ exists l s1 l' s2,
       AbstractProcessor.scale ds s = (Ok l, s1)
       /\ AbstractProcessor.rescale l s1 = (Ok l', s2)
       /\ arrays (store s2) !! l' = Some x
       /\ arrays (store s2) !! ds = Some x.
Proof.
  intros Hp Hx Hc. pose proof (rescaled_scaled p x Hc) as Hrt.
  split; [exact Hrt|].
  rewrite (scale_returns ds s x Hx), Hp.
  eexists _, _, _, _. split; [reflexivity|].
  split.
  - apply (rescale_returns _ _ p (scaled_with p x)); [exact Hp|].
    cbn [store arrays]. apply lookup_insert_eq.
  - cbn [store arrays]. rewrite lookup_insert_eq. split; [f_equal; exact Hrt|].
    rewrite !lookup_insert_ne; [exact Hx| |].
    + apply fresh_differs with (a := x). exact Hx.
    + match goal with
      | |- fresh (dom ?m) <> _ => apply (fresh_differs m ds x)
      end.
      rewrite lookup_insert_ne; [exact Hx|]. apply fresh_differs with (a := x). exact Hx.
Qed.

Lemma rescale_inverts_scale_witness :
  rescaled_with params_train (scaled_with params_train ds_test) = ds_test.
Proof.
  apply (proj1 (rescale_inverts_scale 1%nat state_fitted params_train ds_test
                  eq_refl eq_refl ltac:(vm_compute; reflexivity))).
Defined.

(** C9, as claimed, fails: the parameters fitted to the training data have
    a maximum distinct from the minimum in every variable, and yet scaling
    and rescaling the data of a basin they do not have answers an array
    without that basin. *)
Lemma rescale_scale_loses_other_basin :
  fitted_params ds_train = Ok params_train
  /\ max_distinct_from_min params_train = true
  /\ rescaled_with params_train (scaled_with params_train ds_other_basin)
     <> ds_other_basin
  /\ exists l s1 l' s2,
       AbstractProcessor.scale 2%nat state_fitted = (Ok l, s1)
       /\ AbstractProcessor.rescale l s1 = (Ok l', s2)
       /\ arrays (store s2) !! l'
          = Some (rescaled_with params_train (scaled_with params_train ds_other_basin)).
Proof.
  split; [reflexivity|]. split; [vm_compute; reflexivity|]. split.
  - intros E. vm_compute in E. discriminate E.
  - rewrite (scale_returns 2%nat state_fitted ds_other_basin eq_refl).
    eexists _, _, _, _. split; [reflexivity|]. split.
    + apply (rescale_returns _ _ params_train
               (scaled_with params_train ds_other_basin)); [reflexivity|].
      cbn [store arrays]. apply lookup_insert_eq.
    + cbn [store arrays]. rewrite lookup_insert_eq. reflexivity.
Qed.

(** ** What [scale] computes *)

(** Arithmetic on datasets works variable by variable, on the variables
    both datasets have. *)
Lemma assoc_ds_binop (f : Xr.value -> Xr.value -> Xr.value) (a b : Xr.Dataset)
    (k : string) :
  Xr.assoc k (Xr.data_vars (Xr.ds_binop f a b)) =
  match Xr.assoc k (Xr.data_vars a), Xr.assoc k (Xr.data_vars b) with
  | Some u, Some v =>
      let idx := Xr.join_inner (Xr.coords a) (Xr.coords b) in
      Some (Xr.arr_binop f (Xr.arr_restrict idx u) (Xr.arr_restrict idx v))
  | _, _ => None
  end.
Proof.
  unfold Xr.ds_binop. cbn [Xr.data_vars]. cbv zeta.
  induction (Xr.data_vars a) as [|[k' u] vs IH]; [reflexivity|].
  cbn [flat_map Xr.assoc fst snd].
  destruct (String.eqb_spec k k') as [->|Hne].
  - destruct (Xr.assoc k' (Xr.data_vars b)) as [v|] eqn:Hv.
    + cbn [app Xr.assoc]. rewrite String.eqb_refl. reflexivity.
    + cbn [app]. rewrite IH. destruct (Xr.assoc k' vs); reflexivity.
  - destruct (Xr.assoc k' (Xr.data_vars b)) as [v|] eqn:Hv.
    + cbn [app Xr.assoc]. apply String.eqb_neq in Hne. rewrite Hne. exact IH.
    + cbn [app]. exact IH.
Qed.


(** ** Merging observations and predictions *)



Lemma assoc_Some_of_mem {A : Type} (k : string) (l : list (string * A)) :
  Xr.mem k (Xr.names l) = true -> exists a, Xr.assoc k l = Some a.
Proof.
  intros H. apply mem_In in H. induction l as [|[k' a] l IH]; [destruct H|].
  cbn [Xr.assoc]. destruct (String.eqb_spec k k') as [->|Hne]; [eauto|].
  apply IH. destruct H as [H|H]; [cbn in H; congruence|exact H].
Qed.

Lemma assoc_None_of_not_In {A : Type} (k : string) (l : list (string * A)) :
  ~ In k (Xr.names l) -> Xr.assoc k l = None.
Proof.
  induction l as [|[k' a] l IH]; [reflexivity|]. cbn [Xr.assoc Xr.names map fst].
  intros H. destruct (String.eqb_spec k k') as [->|Hne].
  - exfalso. apply H. left. reflexivity.
  - apply IH. intros Hin. apply H. right. exact Hin.
Qed.


Lemma getitem_Ok (ds r : Xr.Dataset) (vars : list string) :
  Xr.getitem ds vars = Ok r ->
  Xr.names (Xr.data_vars r) = vars /\ Xr.coords r = Xr.coords ds.
Proof.
  unfold Xr.getitem. destruct (forallb _ vars) eqn:E; [|discriminate].
  intros H. injection H as <-. cbn [Xr.data_vars Xr.coords]. split; [|reflexivity].
  induction vars as [|k vars IH]; [reflexivity|].
  cbn [forallb] in E. apply andb_prop in E as [Ek E].
  destruct (assoc_Some_of_mem k _ Ek) as [a Ha].
  cbn [flat_map]. rewrite Ha. cbn [app Xr.names map fst]. f_equal. apply IH, E.
Qed.

Lemma getitem_returns (ds : Xr.Dataset) (vars : list string) :
  (forall k, In k vars -> In k (Xr.names (Xr.data_vars ds))) ->
  exists r, Xr.getitem ds vars = Ok r.
Proof.
  intros H. unfold Xr.getitem.
  rewrite (proj2 (forallb_mem_In vars (Xr.names (Xr.data_vars ds))) H). eauto.
Qed.

Lemma assoc_map_index {A : Type} (d k : string) (h : A -> A) (l : list (string * A)) :
  Xr.assoc k (map (fun c : string * A =>
                     (fst c, if String.eqb (fst c) d then h (snd c) else snd c)) l)
  = option_map (fun a => if String.eqb k d then h a else a) (Xr.assoc k l).
Proof.
  induction l as [|[k' a] l IH]; [reflexivity|]. cbn [map Xr.assoc fst snd].
  destruct (String.eqb_spec k k') as [->|Hne]; [reflexivity|exact IH].
Qed.

Lemma sel_slice_Ok (d : string) (start stop : Xr.label) (ds r : Xr.Dataset) :
  Xr.sel_slice d start stop ds = Ok r ->
  Xr.names (Xr.data_vars r) = Xr.names (Xr.data_vars ds)
  /\ Xr.names (Xr.coords r) = Xr.names (Xr.coords ds)
  /\ Xr.assoc d (Xr.coords r)
     = option_map (List.filter (fun l => Xr.label_leb start l && Xr.label_leb l stop))
                  (Xr.assoc d (Xr.coords ds)).
Proof.
  unfold Xr.sel_slice. destruct (Xr.assoc d (Xr.coords ds)) as [ts|] eqn:E;
    [|discriminate].
  intros H. injection H as <-. cbn [Xr.data_vars Xr.coords].
  unfold Xr.names. rewrite !map_map. cbn [fst]. split; [reflexivity|].
  split; [reflexivity|].
  rewrite assoc_map_index, E. cbn [option_map]. rewrite String.eqb_refl. reflexivity.
Qed.






Lemma first_and_last_Ok (ds : Xr.Dataset) (dates : Xr.label * Xr.label) :
  first_and_last ds = Ok dates ->
  exists ts, Xr.assoc "time" (Xr.coords ds) = Some ts /\ ts <> [].
Proof.
  unfold first_and_last. destruct (Xr.assoc "time" (Xr.coords ds)) as [ts|];
    [|discriminate].
  intros H. exists ts. split; [reflexivity|]. intros ->. discriminate H.
Qed.

Lemma first_and_last_returns (ds : Xr.Dataset) (ts : list Xr.label) :
  Xr.assoc "time" (Xr.coords ds) = Some ts -> ts <> [] ->
  exists dates, first_and_last ds = Ok dates.
Proof.
  intros E Hne. unfold first_and_last. rewrite E.
  destruct (seq_getitem_in_range ts 0) as [s Hs].
  { destruct ts; [congruence|]. simpl length. lia. }
  destruct (seq_getitem_in_range ts (Z.of_nat (length ts) - 1)) as [e He].
  { destruct ts; [congruence|]. simpl length. lia. }
  rewrite Hs. cbn [bind].
  assert (seq_getitem ts (-1) = Ok e) as ->; [|cbn [bind]; eauto].
  revert He. unfold seq_getitem.
  assert (0 < Z.of_nat (length ts)) as Hlen
    by (destruct ts; [congruence|simpl length; lia]).
  replace (-1 <? 0) with true by reflexivity.
  destruct (Z.ltb_spec (Z.of_nat (length ts) - 1) 0); [lia|].
  replace (-1 + Z.of_nat (length ts)) with (Z.of_nat (length ts) - 1) by lia.
  auto.
Qed.






Lemma remaining_all (p : Xr.point) : Xr.remaining None p = [].
Proof. unfold Xr.remaining. induction p as [|dl p IH]; [reflexivity|exact IH]. Qed.

Lemma remove_dups_constant {A : Type} `{EqDecision A} (a : A) (l : list A) :
  (forall b, In b l -> b = a) -> l <> [] -> remove_dups l = [a].
Proof.
  intros Hall Hne.
  pose proof (NoDup_remove_dups l) as Hnd.
  assert (forall b, b ∈ remove_dups l -> b = a) as Hall'
    by (intros b Hb; apply Hall, list_elem_of_In, elem_of_remove_dups, Hb).
  assert (exists b, b ∈ remove_dups l) as [b0 Hb0].
  { destruct l as [|b l]; [congruence|]. exists b.
    apply elem_of_remove_dups. left. }
  destruct (remove_dups l) as [|b [|b' r]].
  - inversion Hb0.
  - f_equal. apply Hall'. left.
  - exfalso. apply NoDup_cons in Hnd as [Hnotin _]. apply Hnotin.
    rewrite (Hall' b) by left. rewrite <- (Hall' b'); [left|right; left].
Qed.

(** Reducing over all dimensions leaves one cell without position, or none
    when the array has no cell. *)
Lemma arr_reduce_all (pick : Xr.value -> Xr.value -> Xr.value) (a : Xr.DataArray) :
  Xr.arr_reduce pick None a =
  {| Xr.dims := [];
     Xr.cells := match Xr.cells a with
                 | [] => []
                 | _ => [([], foldr pick Xr.NaN (map snd (Xr.cells a)))]
                 end |}.
Proof.
  destruct a as [ds cs]. unfold Xr.arr_reduce. cbn [Xr.dims Xr.cells]. f_equal.
  - induction ds as [|d ds IH]; [reflexivity|exact IH].
  - destruct cs as [|c cs]; [reflexivity|].
    rewrite (remove_dups_constant (A := Xr.point) []).
    + cbn [map]. rewrite filter_all; [reflexivity|].
      apply forallb_forall. intros c' _.
      rewrite remaining_all. apply bool_decide_eq_true. reflexivity.
    + intros b Hb. apply in_map_iff in Hb as (c' & <- & _). apply remaining_all.
    + discriminate.
Qed.

Lemma agree_nil (p : Xr.point) : Xr.agree p [] = true.
Proof. unfold Xr.agree. apply forallb_forall. intros dl _. reflexivity. Qed.

Lemma join_inner_nil (cs : list (string * list Xr.label)) : Xr.join_inner cs [] = cs.
Proof.
  unfold Xr.join_inner. cbn [Xr.assoc List.filter]. rewrite app_nil_r.
  induction cs as [|[d ls] cs IH]; [reflexivity|]. cbn [map fst snd]. rewrite IH.
  reflexivity.
Qed.

(** The one value a scalar array has for any position. *)
Lemma value_for_scalar (ds : list string) (idx : list (string * list Xr.label))
    (v : Xr.value) (p : Xr.point) :
  value_for ds (Xr.arr_restrict idx {| Xr.dims := []; Xr.cells := [([], v)] |}) p
  = Some v.
Proof.
  unfold value_for, hits, Xr.arr_restrict. cbn [Xr.cells Xr.dims List.filter fst].
  cbn [Xr.within forallb]. cbn [List.filter fst]. rewrite agree_nil. reflexivity.
Qed.

Lemma assoc_map_NoDup {A B : Type} (g : A -> B) (l : list (string * A))
    (kx : string * A) :
  NoDup (Xr.names l) -> In kx l ->
  Xr.assoc (fst kx) (map (fun kx : string * A => (fst kx, g (snd kx))) l)
  = Some (g (snd kx)).
Proof.
  induction l as [|[k a] l IH]; intros Hnd Hin; [destruct Hin|].
  cbn [map Xr.assoc fst snd]. cbn [Xr.names map fst] in Hnd.
  apply NoDup_cons in Hnd as [Hk Hnd].
  destruct Hin as [<-|Hin].
  - cbn [fst snd]. rewrite String.eqb_refl. reflexivity.
  - destruct (String.eqb_spec (fst kx) k) as [E|_]; [|apply IH; assumption].
    exfalso. apply Hk. subst k. apply list_elem_of_In, in_map, Hin.
Qed.

Lemma ds_remap_ext (h h' : string * Xr.DataArray -> Xr.point -> Xr.value -> Xr.value)
    (x : Xr.Dataset) :
  (forall kx c, In kx (Xr.data_vars x) -> In c (Xr.cells (snd kx)) ->
                h kx (fst c) (snd c) = h' kx (fst c) (snd c)) ->
  ds_remap h x = ds_remap h' x.
Proof.
  intros H. unfold ds_remap. f_equal. apply map_ext_in. intros kx Hk.
  f_equal. unfold remap. f_equal. apply map_ext_in. intros c Hc.
  f_equal. apply H; assumption.
Qed.

Lemma range_of_extremes (a : Xr.DataArray) :
  Xr.arr_binop Xr.sub (Xr.arr_restrict [] (Xr.arr_reduce Xr.nanmax None a))
                      (Xr.arr_restrict [] (Xr.arr_reduce Xr.nanmin None a))
  = {| Xr.dims := [];
       Xr.cells := match Xr.cells a with
                   | [] => []
                   | _ => [([], Xr.sub (extreme Xr.nanmax a) (extreme Xr.nanmin a))]
                   end |}.
Proof.
  rewrite !arr_reduce_all. unfold extreme. destruct (Xr.cells a); reflexivity.
Qed.

Lemma coords_reduce_all (pick : Xr.value -> Xr.value -> Xr.value) (x : Xr.Dataset) :
  Xr.coords (Xr.ds_reduce pick None x) = [].
Proof.
  unfold Xr.ds_reduce. cbn [Xr.coords].
  induction (Xr.coords x) as [|c cs IH]; [reflexivity|exact IH].
Qed.

Lemma own_min_has_values (x : Xr.Dataset) :
  well_formed x -> has_value_for_each_cell (Xr.min None x) x.
Proof.
  intros [Hnd Hin]. split.
  { unfold Xr.min. rewrite coords_reduce_all. apply join_inner_nil. }
  intros kx Hk. split; [apply Hin, Hk|].
  exists (Xr.arr_reduce Xr.nanmin None (snd kx)).
  split; [apply (assoc_map_NoDup (Xr.arr_reduce Xr.nanmin None) _ kx Hnd Hk)|].
  rewrite arr_reduce_all. split; [reflexivity|].
  intros c Hc. destruct (Xr.cells (snd kx)); [destruct Hc|].
  eexists. apply value_for_scalar.
Qed.

Lemma own_range_assoc (x : Xr.Dataset) (kx : string * Xr.DataArray) :
  well_formed x -> In kx (Xr.data_vars x) ->
  Xr.assoc (fst kx) (Xr.data_vars (Xr.ds_sub (Xr.max None x) (Xr.min None x)))
  = Some {| Xr.dims := [];
            Xr.cells := match Xr.cells (snd kx) with
                        | [] => []
                        | _ => [([], Xr.sub (extreme Xr.nanmax (snd kx))
                                            (extreme Xr.nanmin (snd kx)))]
                        end |}.
Proof.
  intros [Hnd Hin] Hk. unfold Xr.ds_sub. rewrite assoc_ds_binop.
  unfold Xr.max, Xr.min. rewrite !coords_reduce_all.
  unfold Xr.ds_reduce. cbn [Xr.data_vars].
  rewrite (assoc_map_NoDup (Xr.arr_reduce Xr.nanmax None) _ kx Hnd Hk).
  rewrite (assoc_map_NoDup (Xr.arr_reduce Xr.nanmin None) _ kx Hnd Hk).
  cbv zeta. change (Xr.join_inner [] []) with (@nil (string * list Xr.label)).
  rewrite range_of_extremes. reflexivity.
Qed.

Lemma own_range_has_values (x : Xr.Dataset) :
  well_formed x ->
  has_value_for_each_cell (Xr.ds_sub (Xr.max None x) (Xr.min None x)) x.
Proof.
  intros Hwf. split.
  - unfold Xr.ds_sub, Xr.ds_binop, Xr.max, Xr.min. cbn [Xr.coords].
    rewrite !coords_reduce_all. apply join_inner_nil.
  - intros kx Hk. split; [apply (proj2 Hwf), Hk|].
    eexists. split; [apply (own_range_assoc x kx Hwf Hk)|].
    split; [reflexivity|].
    intros c Hc. destruct (Xr.cells (snd kx)); [destruct Hc|].
    eexists. apply value_for_scalar.
Qed.

(** Scaling a dataset with its own minimum and maximum, cell by cell. *)
Lemma scaled_with_own_extremes (x : Xr.Dataset) :
  well_formed x ->
  scaled_with (Xr.min None x, Xr.max None x) x
  = ds_remap (fun kx _ v =>
                Xr.div (Xr.sub v (extreme Xr.nanmin (snd kx)))
                       (Xr.sub (extreme Xr.nanmax (snd kx))
                               (extreme Xr.nanmin (snd kx)))) x.
Proof.
  intros Hwf. unfold scaled_with. cbn [fst snd].
  rewrite <- (ds_remap_id (fun _ _ v => v) x) at 1 by reflexivity.
  unfold Xr.ds_sub at 1. rewrite (ds_binop_remap Xr.sub x _ _ (own_min_has_values x Hwf)).
  unfold Xr.ds_div. rewrite (ds_binop_remap Xr.div x _ _ (own_range_has_values x Hwf)).
  apply ds_remap_ext. intros kx c Hk Hc.
  unfold param_at. rewrite (own_range_assoc x kx Hwf Hk).
  unfold Xr.min, Xr.ds_reduce. cbn [Xr.data_vars].
  rewrite (assoc_map_NoDup (Xr.arr_reduce Xr.nanmin None) _ kx (proj1 Hwf) Hk).
  rewrite arr_reduce_all.
  destruct (Xr.cells (snd kx)) as [|c0 cs] eqn:E; [destruct Hc|].
  rewrite !value_for_scalar. cbn [default]. unfold extreme. rewrite E. reflexivity.
Qed.

(** Scaling a dataset with parameters that cover it, cell by cell. *)
Lemma scaled_with_covering (p : Xr.Dataset * Xr.Dataset) (x : Xr.Dataset) :
  covers p x = true ->
  scaled_with p x
  = ds_remap (fun kx q v =>
                Xr.div (Xr.sub v (param_at (fst p) (Xr.coords x) kx q))
                       (param_at (Xr.ds_sub (snd p) (fst p)) (Xr.coords x) kx q)) x.
Proof.
  intros H. unfold scaled_with.
  rewrite <- (ds_remap_id (fun _ _ v => v) x) at 1 by reflexivity.
  unfold Xr.ds_sub at 1. rewrite (ds_binop_remap Xr.sub x _ _ (covers_min p x H)).
  unfold Xr.ds_div. rewrite (ds_binop_remap Xr.div x _ _ (covers_range p x H)).
  reflexivity.
Qed.

(** C4.  For every array, [scale] answers a new array holding
    [(ds - min) / (max - min)], where [(min, max)] are the stored parameters
    if there are any and otherwise the minimum and maximum of the array
    itself, over all its dimensions; and it does nothing else: the
    processor, every existing object and the log are as before.  The
    arithmetic goes variable by variable.  Without stored parameters every
    cell [v] of a variable becomes [(v - lo) / (hi - lo)] for the least and
    the greatest value [lo] and [hi] of that variable; with stored
    parameters that cover the array, [(v - lo) / range] for the stored
    minimum and range at the position of the cell. *)
Theorem scale_is_min_max_scaling (ds : loc) (s : State) (x : Xr.Dataset) :
  arrays (store s) !! ds = Some x ->
  let p := match scaling_params (self s) with
           | Some p => p
           | None => (Xr.min None x, Xr.max None x)
           end in
  let y := Xr.ds_div (Xr.ds_sub x (fst p)) (Xr.ds_sub (snd p) (fst p)) in
  let l := fresh (dom (arrays (store s))) in
  AbstractProcessor.scale ds s =
  (Ok l, {| self := self s;
            store := {| objects := objects (store s);
                        arrays := <[l := y]> (arrays (store s));
                        warnings := warnings (store s) |} |})
  /\ arrays (store s) !! l = None
  /\ (forall l' x', arrays (store s) !! l' = Some x' ->
                    <[l := y]> (arrays (store s)) !! l' = Some x')
  /\ (forall k,
        Xr.assoc k (Xr.data_vars y) =
        match Xr.assoc k (Xr.data_vars x), Xr.assoc k (Xr.data_vars (fst p)),
              Xr.assoc k (Xr.data_vars (snd p)) with
        | Some a, Some lo, Some hi =>
            let i_num := Xr.join_inner (Xr.coords x) (Xr.coords (fst p)) in
            let i_den := Xr.join_inner (Xr.coords (snd p)) (Xr.coords (fst p)) in
            let i := Xr.join_inner i_num i_den in
            Some (Xr.arr_binop Xr.div
                    (Xr.arr_restrict i
                       (Xr.arr_binop Xr.sub (Xr.arr_restrict i_num a)
                                            (Xr.arr_restrict i_num lo)))
                    (Xr.arr_restrict i
                       (Xr.arr_binop Xr.sub (Xr.arr_restrict i_den hi)
                                            (Xr.arr_restrict i_den lo))))
        | _, _, _ => None
        end)
  /\ (scaling_params (self s) = None -> well_formed x ->
      y = ds_remap (fun kx _ v =>
                      Xr.div (Xr.sub v (extreme Xr.nanmin (snd kx)))
                             (Xr.sub (extreme Xr.nanmax (snd kx))
                                     (extreme Xr.nanmin (snd kx)))) x)
  /\ (forall stored, scaling_params (self s) = Some stored ->
      covers stored x = true ->
      y = ds_remap (fun kx q v =>
                      Xr.div (Xr.sub v (param_at (fst stored) (Xr.coords x) kx q))
                             (param_at (Xr.ds_sub (snd stored) (fst stored))
                                       (Xr.coords x) kx q)) x).
Proof.
  intros Hx p y l.
  split; [exact (scale_returns ds s x Hx)|].
  split; [apply fresh_is_free|].
  split; [intros l' x' H; apply insert_fresh_keeps, H|].
  split; [|split].
  - intros k. subst y. unfold Xr.ds_div, Xr.ds_sub.
    rewrite !assoc_ds_binop. cbn [Xr.coords Xr.ds_binop].
    destruct (Xr.assoc k (Xr.data_vars x)) as [a|];
      destruct (Xr.assoc k (Xr.data_vars (fst p))) as [lo|];
      destruct (Xr.assoc k (Xr.data_vars (snd p))) as [hi|]; reflexivity.
  - intros Hnone Hwf. subst y p. rewrite Hnone.
    exact (scaled_with_own_extremes x Hwf).
  - intros stored Hsome Hcov. subst y p. rewrite Hsome.
    exact (scaled_with_covering stored x Hcov).
Qed.

Lemma scale_is_min_max_scaling_witness :
  exists l s',
    AbstractProcessor.scale 0%nat state_new = (Ok l, s')
    /\ self s' = self state_new
    /\ arrays (store s') !! l
       = Some (ds_remap (fun kx _ v =>
                           Xr.div (Xr.sub v (extreme Xr.nanmin (snd kx)))
                                  (Xr.sub (extreme Xr.nanmax (snd kx))
                                          (extreme Xr.nanmin (snd kx)))) ds_train).
Proof.
  destruct (scale_is_min_max_scaling 0%nat state_new ds_train eq_refl)
    as (H & _ & _ & _ & Hcells & _).
  eexists _, _. split; [exact H|]. cbn [store arrays self].
  split; [reflexivity|]. rewrite lookup_insert_eq. apply f_equal.
  apply Hcells; [reflexivity|]. split.
  - apply (bool_decide_eq_true_1 (NoDup (Xr.names (Xr.data_vars ds_train)))).
    vm_compute. reflexivity.
  - intros kx [<-|[<-|[]]]; vm_compute; reflexivity.
Defined.

(** Precipitation of the training data ranges from 0 to 10: 5/2 scales to
    1/4. *)
Example scale_train_cell :
  Xr.div (Xr.sub (num 5 2) (extreme Xr.nanmin prcp_train))
         (Xr.sub (extreme Xr.nanmax prcp_train) (extreme Xr.nanmin prcp_train))
  = num 1 4.
Proof. vm_compute. f_equal. apply Qc_is_canon. reflexivity. Qed.


(** ** The architectures that [build] constructs *)

Lemma seq_getitem_nat {A : Type} (l : list A) (i : nat) (a : A) :
  l !! i = Some a -> seq_getitem l (Z.of_nat i) = Ok a.
Proof.
  intros H. pose proof (lookup_lt_Some _ _ _ H) as Hlt. unfold seq_getitem.
  destruct (Z.ltb_spec (Z.of_nat i) 0) as [?|_]; [lia|].
  destruct (Z.ltb_spec (Z.of_nat i) 0) as [?|_]; [lia|].
  destruct (Z.leb_spec (Z.of_nat (length l)) (Z.of_nat i)) as [?|_]; [lia|].
  cbn [orb]. rewrite Nat2Z.id, H. reflexivity.
Qed.

Lemma seq_getitem_last {A : Type} (l : list A) (a : A) :
  seq_getitem (l ++ [a]) (Z.of_nat (length l)) = Ok a.
Proof.
  apply seq_getitem_nat. rewrite lookup_app_r by lia.
  rewrite Nat.sub_diag. reflexivity.
Qed.

Lemma seq_getitem_empty {A : Type} (i : Z) : seq_getitem (@nil A) i = Raise IndexError.
Proof.
  unfold seq_getitem. destruct (_ || _); [reflexivity|].
  rewrite lookup_nil. reflexivity.
Qed.

(** A loop over [range(0, n)] that builds one thing per index. *)
Lemma mapM_seq {B : Type} (f : Z -> result B) (bs : list B) (s : nat) :
  (forall i b, bs !! i = Some b -> f (Z.of_nat (s + i)) = Ok b) ->
  mapM f (map Z.of_nat (seq s (length bs))) = Ok bs.
Proof.
  revert s. induction bs as [|b bs IH]; intros s Hf; [reflexivity|].
  cbn [length seq map mapM].
  rewrite <- (Nat.add_0_r s) at 1. rewrite (Hf 0%nat b eq_refl). cbn [bind].
  rewrite (IH (S s)); [reflexivity|].
  intros i b' Hi. rewrite <- (Hf (S i) b' Hi). f_equal. lia.
Qed.

Lemma lstm_loop (us ds : list pyval) (u d : pyval) :
  length ds = length us ->
  mapM (fun i => x <- (PList (us ++ [u])).[PInt i] ;;
                 y <- (PList (ds ++ [d])).[PInt i] ;;
                 Ok (LSTM x true (Some y)))
       (map Z.of_nat (seq 0 (length us)))
  = Ok (lstm_stack us ds).
Proof.
  intros Hlen.
  replace (length us) with (length (lstm_stack us ds))
    by (unfold lstm_stack; rewrite length_zip_with; lia).
  apply mapM_seq. intros i b Hb. unfold lstm_stack in Hb.
  apply lookup_zip_with_Some in Hb as (x & y & -> & Hx & Hy).
  cbn [Nat.add py_getitem py_index].
  rewrite (seq_getitem_nat (us ++ [u]) i x) by (apply lookup_app_l_Some, Hx).
  rewrite (seq_getitem_nat (ds ++ [d]) i y) by (apply lookup_app_l_Some, Hy).
  reflexivity.
Qed.

Lemma block_loop (block : pyval -> list layer) (fs : list pyval) (f : pyval) :
  mapM (fun i => x <- (PList (fs ++ [f])).[PInt i] ;; Ok (block x))
       (map Z.of_nat (seq 0 (length fs)))
  = Ok (map block fs).
Proof.
  replace (length fs) with (length (map block fs)) by apply length_map.
  apply mapM_seq. intros i b Hb.
  rewrite list_lookup_fmap in Hb.
  destruct (fs !! i) as [x|] eqn:Hx; [|discriminate]. injection Hb as <-.
  cbn [Nat.add py_getitem py_index].
  rewrite (seq_getitem_nat (fs ++ [f]) i x) by (apply lookup_app_l_Some, Hx).
  reflexivity.
Qed.

Lemma entry_getitem (v x : pyval) (k : string) :
  entry v k = Some x -> v.[PStr k] = Ok x.
Proof.
  destruct v; try discriminate. cbn [entry py_getitem]. intros ->. reflexivity.
Qed.

Lemma py_ne_int_same (n : Z) : py_ne_int n (PInt n) = false.
Proof. unfold py_ne_int, py_eq_int. rewrite Z.eqb_refl. reflexivity. Qed.

Lemma lstm_section_accepted (s : pyval) (us ds : list pyval) :
  entry s "hiddenLayers" = Some (PInt (Z.of_nat (length us))) ->
  entry s "units" = Some (PList us) ->
  entry s "dropout" = Some (PList ds) ->
  length ds = length us ->
  CnnParams.__get_and_validate_lstm_params s
  = Ok (PInt (Z.of_nat (length us)), PList us, PList ds).
Proof.
  intros Hh Hu Hd Hlen. unfold CnnParams.__get_and_validate_lstm_params.
  rewrite (entry_getitem _ _ _ Hh), (entry_getitem _ _ _ Hu), (entry_getitem _ _ _ Hd).
  cbn [bind isinstance_int negb py_lt_zero py_len].
  destruct (Z.ltb_spec (Z.of_nat (length us)) 0) as [?|_]; [lia|].
  rewrite Hlen, py_ne_int_same. reflexivity.
Qed.

Lemma cnn_section_accepted (s : pyval) (fs : list pyval) :
  entry s "hiddenLayers" = Some (PInt (Z.of_nat (length fs))) ->
  entry s "filters" = Some (PList fs) ->
  CnnParams.__get_and_validate_cnn_params s
  = Ok (PInt (Z.of_nat (length fs)), PList fs).
Proof.
  intros Hh Hf. unfold CnnParams.__get_and_validate_cnn_params.
  rewrite (entry_getitem _ _ _ Hh), (entry_getitem _ _ _ Hf).
  cbn [bind isinstance_int negb py_lt_zero py_len].
  destruct (Z.ltb_spec (Z.of_nat (length fs)) 0) as [?|_]; [lia|].
  rewrite py_ne_int_same. reflexivity.
Qed.

Lemma lstm_model_accepted (p s : pyval) (us ds : list pyval) :
  entry p "lstm" = Some s ->
  entry s "hiddenLayers" = Some (PInt (Z.of_nat (length us))) ->
  entry s "units" = Some (PList us) ->
  entry s "dropout" = Some (PList ds) ->
  length ds = length us ->
  LstmModel._get_and_validate_params p
  = Ok (PInt (Z.of_nat (length us)), PList us, PList ds).
Proof.
  intros Hs Hh Hu Hd Hlen. unfold LstmModel._get_and_validate_params.
  rewrite (entry_getitem _ _ _ Hs). cbn [bind].
  rewrite (entry_getitem _ _ _ Hh), (entry_getitem _ _ _ Hu), (entry_getitem _ _ _ Hd).
  cbn [bind py_len]. rewrite Hlen, py_ne_int_same. reflexivity.
Qed.

Lemma cnn_only_accepted (p s : pyval) (fs : list pyval) :
  entry p "cnn" = Some s ->
  entry s "hiddenLayers" = Some (PInt (Z.of_nat (length fs))) ->
  entry s "filters" = Some (PList fs) ->
  CnnParams.cnn_only p = Ok (PInt (Z.of_nat (length fs)), PList fs).
Proof.
  intros Hs Hh Hf. unfold CnnParams.cnn_only.
  rewrite (entry_getitem _ _ _ Hs). cbn [bind].
  rewrite (cnn_section_accepted s fs Hh Hf). reflexivity.
Qed.

Lemma cnn_and_lstm_accepted (p sc sl : pyval) (fs us ds : list pyval) :
  entry p "cnn" = Some sc ->
  entry sc "hiddenLayers" = Some (PInt (Z.of_nat (length fs))) ->
  entry sc "filters" = Some (PList fs) ->
  entry p "lstm" = Some sl ->
  entry sl "hiddenLayers" = Some (PInt (Z.of_nat (length us))) ->
  entry sl "units" = Some (PList us) ->
  entry sl "dropout" = Some (PList ds) ->
  length ds = length us ->
  CnnParams.cnn_and_lstm p
  = Ok (PInt (Z.of_nat (length fs)), PList fs,
        PInt (Z.of_nat (length us)), PList us, PList ds).
Proof.
  intros Hsc Hh Hf Hsl Hh' Hu Hd Hlen. unfold CnnParams.cnn_and_lstm.
  rewrite (entry_getitem _ _ _ Hsc). cbn [bind].
  rewrite (cnn_section_accepted sc fs Hh Hf). cbn [bind].
  rewrite (entry_getitem _ _ _ Hsl). cbn [bind].
  rewrite (lstm_section_accepted sl us ds Hh' Hu Hd Hlen). reflexivity.
Qed.

Lemma pred_of_length {A : Type} (l : list A) (a : A) :
  py_pred (PInt (Z.of_nat (length (l ++ [a])))) = Ok (PInt (Z.of_nat (length l))).
Proof. cbn [py_pred]. rewrite length_app. cbn [length]. do 2 f_equal. lia. Qed.

Lemma range_of_nat (n : nat) : py_range (PInt (Z.of_nat n)) = Ok (map Z.of_nat (seq 0 n)).
Proof. unfold py_range. cbn [py_index]. rewrite Nat2Z.id. reflexivity. Qed.

Lemma getitem_last (l : list pyval) (a : pyval) :
  (PList (l ++ [a])).[PInt (Z.of_nat (length l))] = Ok a.
Proof. cbn [py_getitem py_index]. apply seq_getitem_last. Qed.

Lemma length_snoc_eq {A B : Type} (l : list A) (k : list B) (a : A) (b : B) :
  length k = length l -> length (k ++ [b]) = length (l ++ [a]).
Proof. intros H. rewrite !length_app, H. reflexivity. Qed.

Lemma lstm_build_stack (input_shape : pyval) (output_size : option pyval)
    (us ds : list pyval) (u d : pyval) :
  length ds = length us ->
  LstmModel._build_model input_shape
    (PInt (Z.of_nat (length (us ++ [u]))), PList (us ++ [u]), PList (ds ++ [d]))
    output_size
  = Ok (Sequential (InputLayer input_shape :: lstm_stack us ds
                      ++ [LSTM u false (Some d); output_layer output_size])).
Proof.
  intros Hlen. unfold LstmModel._build_model.
  rewrite pred_of_length. cbn [bind]. rewrite range_of_nat. cbn [bind].
  rewrite (lstm_loop us ds u d Hlen). cbn [bind].
  rewrite getitem_last. cbn [bind]. rewrite <- Hlen, getitem_last. reflexivity.
Qed.

(** X1.  Validation accepts a configuration of an LSTM model with
    [n >= 1] hidden layers, [n] units and [n] dropout rates: [build] raises
    no ConfigError.  Whenever [build] returns, it has built this model: the
    input layer, one LSTM layer for each of the first [n - 1] entries, with
    the units and the dropout of that entry and returning sequences, one
    LSTM layer for the last entry that does not return sequences, and a
    dense output layer of the output size (of one unit when none is given).
    Whether the framework accepts these layers for the input shape is not
    part of the statement. *)
Theorem lstm_build_architecture (cfg : ModelConfig) (input_shape : pyval)
    (output_size : option pyval) (s : pyval) (us ds : list pyval) (u d : pyval) :
  entry (params cfg) "lstm" = Some s ->
  entry s "hiddenLayers" = Some (PInt (Z.of_nat (length (us ++ [u])))) ->
  entry s "units" = Some (PList (us ++ [u])) ->
  entry s "dropout" = Some (PList (ds ++ [d])) ->
  length ds = length us ->
  (forall m,
     build (__init__ LstmModel cfg) input_shape output_size = Ok m ->
     m = set_model (__init__ LstmModel cfg)
           (Sequential (InputLayer input_shape :: lstm_stack us ds
                          ++ [LSTM u false (Some d); output_layer output_size])))
  /\ build (__init__ LstmModel cfg) input_shape output_size <> Raise ConfigError.
Proof.
  intros Hs Hh Hu Hd Hlen. unfold build. cbn [class_of __init__ _config].
  rewrite (lstm_model_accepted (params cfg) s (us ++ [u]) (ds ++ [d]) Hs Hh Hu Hd
             (length_snoc_eq us ds u d Hlen)).
  cbn [bind]. rewrite (lstm_build_stack input_shape output_size us ds u d Hlen).
  cbn [bind]. split; [|discriminate]. intros m H. injection H as <-. reflexivity.
Qed.

Lemma lstm_build_architecture_witness :
  (forall m,
     build (__init__ LstmModel (config_of "lstm" lstm_two_layers))
           (PList [PInt 10; PInt 5]) None = Ok m ->
     m = set_model (__init__ LstmModel (config_of "lstm" lstm_two_layers))
           (Sequential [InputLayer (PList [PInt 10; PInt 5]);
                        LSTM (PInt 32) true (Some (PFloat (1 # 10)));
                        LSTM (PInt 32) false (Some (PInt 0));
                        Dense (PInt 1) false]))
  /\ build (__init__ LstmModel (config_of "lstm" lstm_two_layers))
           (PList [PInt 10; PInt 5]) None <> Raise ConfigError.
Proof.
  apply (lstm_build_architecture (config_of "lstm" lstm_two_layers)
           (PList [PInt 10; PInt 5]) None
           (lstm_section (PInt 2) (PList [PInt 32; PInt 32])
              (PList [PFloat (1 # 10); PInt 0]))
           [PInt 32] [PFloat (1 # 10)] (PInt 32) (PInt 0)); reflexivity.
Defined.

Lemma convlstm_build_stack (input_shape : pyval) (output_size : option pyval)
    (fs : list pyval) (f : pyval) :
  ConvLstmModel._build_model input_shape
    (PInt (Z.of_nat (length (fs ++ [f]))), PList (fs ++ [f])) output_size
  = Ok (Sequential
          (InputLayer input_shape
             :: block_stack (fun x => [ConvLSTM2D x true; MaxPooling3D]) fs
             ++ [ConvLSTM2D f false; GlobalMaxPooling2D; output_layer output_size])).
Proof.
  unfold ConvLstmModel._build_model.
  rewrite pred_of_length. cbn [bind]. rewrite range_of_nat. cbn [bind].
  rewrite (block_loop (fun x => [ConvLSTM2D x true; MaxPooling3D]) fs f). cbn [bind].
  rewrite getitem_last. reflexivity.
Qed.

Lemma conv3d_build_stack (input_shape : pyval) (output_size : option pyval)
    (fs : list pyval) (f : pyval) :
  Conv3DModel._build_model input_shape
    (PInt (Z.of_nat (length (fs ++ [f]))), PList (fs ++ [f])) output_size
  = Ok (Sequential
          (InputLayer input_shape
             :: block_stack (fun x => [Conv3D x; MaxPooling3D]) fs
             ++ [Conv3D f; GlobalMaxPooling3D; output_layer output_size])).
Proof.
  unfold Conv3DModel._build_model.
  rewrite pred_of_length. cbn [bind]. rewrite range_of_nat. cbn [bind].
  rewrite (block_loop (fun x => [Conv3D x; MaxPooling3D]) fs f). cbn [bind].
  rewrite getitem_last. reflexivity.
Qed.

(** X2.  Validation accepts a configuration with [n >= 1] convolutional
    layers and [n] filters: [build] raises no ConfigError.  Whenever
    [build] returns, it has built, for [ConvLstmModel]: the input layer, a
    sequence-returning ConvLSTM2D layer and a 3D max pooling for each of
    the first [n - 1] filters, a ConvLSTM2D layer for the last filter that
    does not return sequences, a global 2D max pooling and the dense output
    layer; for [Conv3DModel] the same with Conv3D layers and a global 3D
    max pooling.  Whether the framework accepts these layers for the input
    shape is not part of the statement. *)
Theorem conv_build_architecture (cfg : ModelConfig) (input_shape : pyval)
    (output_size : option pyval) (s : pyval) (fs : list pyval) (f : pyval) :
  entry (params cfg) "cnn" = Some s ->
  entry s "hiddenLayers" = Some (PInt (Z.of_nat (length (fs ++ [f])))) ->
  entry s "filters" = Some (PList (fs ++ [f])) ->
  (forall m,
     build (__init__ ConvLstmModel cfg) input_shape output_size = Ok m ->
     m = set_model (__init__ ConvLstmModel cfg)
           (Sequential
              (InputLayer input_shape
                 :: block_stack (fun x => [ConvLSTM2D x true; MaxPooling3D]) fs
                 ++ [ConvLSTM2D f false; GlobalMaxPooling2D;
                     output_layer output_size])))
  /\ build (__init__ ConvLstmModel cfg) input_shape output_size <> Raise ConfigError
  /\ (forall m,
        build (__init__ Conv3DModel cfg) input_shape output_size = Ok m ->
        m = set_model (__init__ Conv3DModel cfg)
              (Sequential
                 (InputLayer input_shape
                    :: block_stack (fun x => [Conv3D x; MaxPooling3D]) fs
                    ++ [Conv3D f; GlobalMaxPooling3D; output_layer output_size])))
  /\ build (__init__ Conv3DModel cfg) input_shape output_size <> Raise ConfigError.
Proof.
  intros Hs Hh Hf. unfold build. cbn [class_of __init__ _config].
  unfold ConvLstmModel._get_and_validate_params, Conv3DModel._get_and_validate_params.
  rewrite (cnn_only_accepted (params cfg) s (fs ++ [f]) Hs Hh Hf). cbn [bind].
  rewrite convlstm_build_stack, conv3d_build_stack. cbn [bind].
  split; [intros m H; injection H as <-; reflexivity|].
  split; [discriminate|].
  split; [intros m H; injection H as <-; reflexivity|discriminate].
Qed.

Lemma conv_build_architecture_witness :
  (forall m,
     build (__init__ Conv3DModel
              (config_of "conv3d"
                 (PDict (<["cnn" := cnn_section (PInt 2) (PList [PInt 8; PInt 16])]> ∅))))
           (PList [PInt 10; PInt 4; PInt 4; PInt 3]) (Some (PInt 2)) = Ok m ->
     m = set_model
           (__init__ Conv3DModel
              (config_of "conv3d"
                 (PDict (<["cnn" := cnn_section (PInt 2) (PList [PInt 8; PInt 16])]> ∅))))
           (Sequential [InputLayer (PList [PInt 10; PInt 4; PInt 4; PInt 3]);
                        Conv3D (PInt 8); MaxPooling3D;
                        Conv3D (PInt 16); GlobalMaxPooling3D; Dense (PInt 2) false]))
  /\ build (__init__ Conv3DModel
              (config_of "conv3d"
                 (PDict (<["cnn" := cnn_section (PInt 2) (PList [PInt 8; PInt 16])]> ∅))))
           (PList [PInt 10; PInt 4; PInt 4; PInt 3]) (Some (PInt 2))
     <> Raise ConfigError.
Proof.
  destruct (conv_build_architecture
              (config_of "conv3d"
                 (PDict (<["cnn" := cnn_section (PInt 2) (PList [PInt 8; PInt 16])]> ∅)))
              (PList [PInt 10; PInt 4; PInt 4; PInt 3]) (Some (PInt 2))
              (cnn_section (PInt 2) (PList [PInt 8; PInt 16])) [PInt 8] (PInt 16))
    as (_ & _ & H1 & H2); [reflexivity..|].
  split; [exact H1|exact H2].
Defined.

Lemma cnn_lstm_build_stack (input_shape : pyval) (output_size : option pyval)
    (fs us ds : list pyval) (f u d : pyval) :
  length ds = length us ->
  CnnLstmModel._build_model input_shape
    (PInt (Z.of_nat (length (fs ++ [f]))), PList (fs ++ [f]),
     PInt (Z.of_nat (length (us ++ [u]))), PList (us ++ [u]), PList (ds ++ [d]))
    output_size
  = Ok (Sequential
          (InputLayer input_shape
             :: block_stack (fun x => [TimeDistributed (Conv2D x);
                                       TimeDistributed MaxPooling2D]) fs
             ++ [TimeDistributed (Conv2D f); TimeDistributed GlobalMaxPooling2D]
             ++ lstm_stack us ds
             ++ [LSTM u false None; output_layer output_size])).
Proof.
  intros Hlen. unfold CnnLstmModel._build_model.
  rewrite pred_of_length. cbn [bind]. rewrite range_of_nat. cbn [bind].
  rewrite (block_loop (fun x => [TimeDistributed (Conv2D x);
                                 TimeDistributed MaxPooling2D]) fs f). cbn [bind].
  rewrite getitem_last. cbn [bind].
  rewrite pred_of_length. cbn [bind]. rewrite range_of_nat. cbn [bind].
  rewrite (lstm_loop us ds u d Hlen). cbn [bind].
  rewrite getitem_last. reflexivity.
Qed.

(** X3.  Validation accepts a configuration of a CNN-LSTM model with
    [n >= 1] convolutional and [m >= 1] LSTM layers: [build] raises no
    ConfigError.  Whenever [build] returns, it has built: the input layer;
    a time-distributed Conv2D layer and max pooling for each of the first
    [n - 1] filters; a time-distributed Conv2D layer for the last filter
    and a global max pooling; an LSTM layer for each of the first [m - 1]
    entries, with its units and dropout; an LSTM layer with the last units
    and no dropout; the dense output layer.  The last dropout rate [d],
    which validation requires to be there, has no part in the model.
    Whether the framework accepts these layers for the input shape is not
    part of the statement. *)
Theorem cnn_lstm_build_architecture (cfg : ModelConfig) (input_shape : pyval)
    (output_size : option pyval) (sc sl : pyval) (fs us ds : list pyval)
    (f u d : pyval) :
  entry (params cfg) "cnn" = Some sc ->
  entry sc "hiddenLayers" = Some (PInt (Z.of_nat (length (fs ++ [f])))) ->
  entry sc "filters" = Some (PList (fs ++ [f])) ->
  entry (params cfg) "lstm" = Some sl ->
  entry sl "hiddenLayers" = Some (PInt (Z.of_nat (length (us ++ [u])))) ->
  entry sl "units" = Some (PList (us ++ [u])) ->
  entry sl "dropout" = Some (PList (ds ++ [d])) ->
  length ds = length us ->
  (forall m,
     build (__init__ CnnLstmModel cfg) input_shape output_size = Ok m ->
     m = set_model (__init__ CnnLstmModel cfg)
           (Sequential
              (InputLayer input_shape
                 :: block_stack (fun x => [TimeDistributed (Conv2D x);
                                           TimeDistributed MaxPooling2D]) fs
                 ++ [TimeDistributed (Conv2D f); TimeDistributed GlobalMaxPooling2D]
                 ++ lstm_stack us ds
                 ++ [LSTM u false None; output_layer output_size])))
  /\ build (__init__ CnnLstmModel cfg) input_shape output_size <> Raise ConfigError.
Proof.
  intros Hsc Hh Hf Hsl Hh' Hu Hd Hlen. unfold build. cbn [class_of __init__ _config].
  unfold CnnLstmModel._get_and_validate_params.
  rewrite (cnn_and_lstm_accepted (params cfg) sc sl (fs ++ [f]) (us ++ [u]) (ds ++ [d])
             Hsc Hh Hf Hsl Hh' Hu Hd (length_snoc_eq us ds u d Hlen)).
  cbn [bind]. rewrite (cnn_lstm_build_stack _ _ fs us ds f u d Hlen). cbn [bind].
  split; [|discriminate]. intros m H. injection H as <-. reflexivity.
Qed.

Lemma multi_build_stack (input_lstm input_cnn : pyval) (rest : list pyval)
    (output_size : option pyval) (fs us ds : list pyval) (f u d : pyval) :
  length ds = length us ->
  MultiInputCnnLstmModel._build_model (PList (input_lstm :: input_cnn :: rest))
    (PInt (Z.of_nat (length (fs ++ [f]))), PList (fs ++ [f]),
     PInt (Z.of_nat (length (us ++ [u]))), PList (us ++ [u]), PList (ds ++ [d]))
    output_size
  = Ok (Functional input_lstm (lstm_stack us ds ++ [LSTM u false (Some d)])
          input_cnn
          ((block_stack (fun x => [TimeDistributed (Conv2D x);
                                   TimeDistributed MaxPooling2D]) fs
            ++ [TimeDistributed (Conv2D f); TimeDistributed GlobalMaxPooling2D])
           ++ lstm_stack us ds ++ [LSTM u false (Some d)])
          [Dense (PInt 64) true; Dense (PInt 1) false]).
Proof.
  intros Hlen. unfold MultiInputCnnLstmModel._build_model.
  change ((PList (input_lstm :: input_cnn :: rest)).[PInt 0]) with (Ok input_lstm).
  change ((PList (input_lstm :: input_cnn :: rest)).[PInt 1])
    with (seq_getitem (input_lstm :: input_cnn :: rest) 1).
  pose proof (seq_getitem_nat (input_lstm :: input_cnn :: rest) 1 input_cnn eq_refl)
    as H1.
  change (Z.of_nat 1) with 1 in H1. rewrite H1. clear H1.
  cbn [bind].
  rewrite !pred_of_length. cbn [bind]. rewrite !range_of_nat. cbn [bind].
  rewrite (lstm_loop us ds u d Hlen). cbn [bind].
  rewrite getitem_last. cbn [bind].
  pose proof (getitem_last ds d) as Hd. rewrite Hlen in Hd. rewrite Hd. cbn [bind].
  rewrite (block_loop (fun x => [TimeDistributed (Conv2D x);
                                 TimeDistributed MaxPooling2D]) fs f). cbn [bind].
  rewrite getitem_last. reflexivity.
Qed.

Lemma cnn_lstm_build_architecture_witness :
  (forall m,
     build (__init__ CnnLstmModel (config_of "cnn-lstm" cnn_lstm_two_layers))
           (PList [PInt 10; PInt 4; PInt 4; PInt 3]) None = Ok m ->
     m = set_model (__init__ CnnLstmModel (config_of "cnn-lstm" cnn_lstm_two_layers))
           (Sequential [InputLayer (PList [PInt 10; PInt 4; PInt 4; PInt 3]);
                        TimeDistributed (Conv2D (PInt 8)); TimeDistributed MaxPooling2D;
                        TimeDistributed (Conv2D (PInt 16));
                        TimeDistributed GlobalMaxPooling2D;
                        LSTM (PInt 32) true (Some (PFloat (1 # 10)));
                        LSTM (PInt 32) false None;
                        Dense (PInt 1) false]))
  /\ build (__init__ CnnLstmModel (config_of "cnn-lstm" cnn_lstm_two_layers))
           (PList [PInt 10; PInt 4; PInt 4; PInt 3]) None <> Raise ConfigError.
Proof.
  apply (cnn_lstm_build_architecture (config_of "cnn-lstm" cnn_lstm_two_layers)
           (PList [PInt 10; PInt 4; PInt 4; PInt 3]) None
           (cnn_section (PInt 2) (PList [PInt 8; PInt 16]))
           (lstm_section (PInt 2) (PList [PInt 32; PInt 32])
              (PList [PFloat (1 # 10); PInt 0]))
           [PInt 8] [PInt 32] [PFloat (1 # 10)] (PInt 16) (PInt 32) (PInt 0));
    reflexivity.
Defined.

(** X4.  Validation accepts a configuration of a multi-input CNN-LSTM
    model with [n >= 1] convolutional and [m >= 1] LSTM layers: [build]
    raises no ConfigError.  Whenever [build] returns for a pair of input
    shapes, the model has two branches: the LSTM branch on the first input,
    with an LSTM layer for each of the [m] entries (the last one not
    returning sequences); and the CNN-LSTM branch on the second input, with
    the time-distributed convolution blocks followed by LSTM layers
    configured exactly as those of the first branch.  The joined branches
    end in a dense layer of 64 units and a dense layer of one unit,
    whatever output size is asked for.  Whether the framework accepts these
    layers for the input shapes is not part of the statement. *)
Theorem multi_input_build_architecture (cfg : ModelConfig)
    (input_lstm input_cnn : pyval) (rest : list pyval) (output_size : option pyval)
    (sc sl : pyval) (fs us ds : list pyval) (f u d : pyval) :
  entry (params cfg) "cnn" = Some sc ->
  entry sc "hiddenLayers" = Some (PInt (Z.of_nat (length (fs ++ [f])))) ->
  entry sc "filters" = Some (PList (fs ++ [f])) ->
  entry (params cfg) "lstm" = Some sl ->
  entry sl "hiddenLayers" = Some (PInt (Z.of_nat (length (us ++ [u])))) ->
  entry sl "units" = Some (PList (us ++ [u])) ->
  entry sl "dropout" = Some (PList (ds ++ [d])) ->
  length ds = length us ->
  (forall m,
     build (__init__ MultiInputCnnLstmModel cfg)
           (PList (input_lstm :: input_cnn :: rest)) output_size = Ok m ->
     m = set_model (__init__ MultiInputCnnLstmModel cfg)
           (Functional input_lstm (lstm_stack us ds ++ [LSTM u false (Some d)])
              input_cnn
              ((block_stack (fun x => [TimeDistributed (Conv2D x);
                                       TimeDistributed MaxPooling2D]) fs
                ++ [TimeDistributed (Conv2D f); TimeDistributed GlobalMaxPooling2D])
               ++ lstm_stack us ds ++ [LSTM u false (Some d)])
              [Dense (PInt 64) true; Dense (PInt 1) false]))
  /\ build (__init__ MultiInputCnnLstmModel cfg)
           (PList (input_lstm :: input_cnn :: rest)) output_size
     <> Raise ConfigError.
Proof.
  intros Hsc Hh Hf Hsl Hh' Hu Hd Hlen. unfold build. cbn [class_of __init__ _config].
  unfold MultiInputCnnLstmModel._get_and_validate_params.
  rewrite (cnn_and_lstm_accepted (params cfg) sc sl (fs ++ [f]) (us ++ [u]) (ds ++ [d])
             Hsc Hh Hf Hsl Hh' Hu Hd (length_snoc_eq us ds u d Hlen)).
  cbn [bind]. rewrite (multi_build_stack _ _ _ _ fs us ds f u d Hlen). cbn [bind].
  split; [|discriminate]. intros m H. injection H as <-. reflexivity.
Qed.

Lemma multi_input_build_architecture_witness :
  (forall m,
     build (__init__ MultiInputCnnLstmModel
              (config_of "multi-cnn-lstm" cnn_lstm_two_layers))
           (PList [PList [PInt 30; PInt 5]; PList [PInt 10; PInt 4; PInt 4; PInt 3]])
           (Some (PInt 3)) = Ok m ->
     m = set_model
           (__init__ MultiInputCnnLstmModel
              (config_of "multi-cnn-lstm" cnn_lstm_two_layers))
           (Functional (PList [PInt 30; PInt 5])
              [LSTM (PInt 32) true (Some (PFloat (1 # 10)));
               LSTM (PInt 32) false (Some (PInt 0))]
              (PList [PInt 10; PInt 4; PInt 4; PInt 3])
              [TimeDistributed (Conv2D (PInt 8)); TimeDistributed MaxPooling2D;
               TimeDistributed (Conv2D (PInt 16)); TimeDistributed GlobalMaxPooling2D;
               LSTM (PInt 32) true (Some (PFloat (1 # 10)));
               LSTM (PInt 32) false (Some (PInt 0))]
              [Dense (PInt 64) true; Dense (PInt 1) false]))
  /\ build (__init__ MultiInputCnnLstmModel
              (config_of "multi-cnn-lstm" cnn_lstm_two_layers))
           (PList [PList [PInt 30; PInt 5]; PList [PInt 10; PInt 4; PInt 4; PInt 3]])
           (Some (PInt 3))
     <> Raise ConfigError.
Proof.
  apply (multi_input_build_architecture
           (config_of "multi-cnn-lstm" cnn_lstm_two_layers)
           (PList [PInt 30; PInt 5]) (PList [PInt 10; PInt 4; PInt 4; PInt 3]) []
           (Some (PInt 3))
           (cnn_section (PInt 2) (PList [PInt 8; PInt 16]))
           (lstm_section (PInt 2) (PList [PInt 32; PInt 32])
              (PList [PFloat (1 # 10); PInt 0]))
           [PInt 8] [PInt 32] [PFloat (1 # 10)] (PInt 16) (PInt 32) (PInt 0));
    reflexivity.
Defined.

(** ** Configurations that validation accepts and [build] cannot build *)

Lemma no_filters_out_of_range (fs : pyval) (i : Z) :
  fs = PList [] -> fs.[PInt i] = Raise IndexError.
Proof. intros ->. cbn [py_getitem py_index]. apply seq_getitem_empty. Qed.

Lemma lstm_stack_or_out_of_range (us ds : list pyval) :
  length ds = length us ->
  (us = [] /\ ds = [])
  \/ exists us' u ds' d, us = us' ++ [u] /\ ds = ds' ++ [d] /\ length ds' = length us'.
Proof.
  intros Hlen.
  destruct us as [|u0 us] using rev_ind; [left|right].
  - destruct ds; [split; reflexivity|discriminate].
  - destruct ds as [|d0 ds] using rev_ind.
    + rewrite length_app in Hlen. simpl in Hlen. lia.
    + exists us, u0, ds, d0. split; [reflexivity|]. split; [reflexivity|].
      rewrite !length_app in Hlen. simpl in Hlen. lia.
Qed.

(** X5.  The four CNN based classes accept a configuration whose "cnn"
    section has [hiddenLayers = 0] and no filters, and cannot build it.
    [ConvLstmModel], [Conv3DModel] and [CnnLstmModel] raise an IndexError
    at the access to the last filter, [filters[-1]].  The multi-input
    model, which builds its LSTM branch first, never returns a model
    either, and what it raises is no ConfigError. *)
Theorem cnn_zero_layers_out_of_range (cfg : ModelConfig) (input_shape : pyval)
    (output_size : option pyval) (sc : pyval) :
  entry (params cfg) "cnn" = Some sc ->
  entry sc "hiddenLayers" = Some (PInt 0) ->
  entry sc "filters" = Some (PList []) ->
  build (__init__ ConvLstmModel cfg) input_shape output_size = Raise IndexError
  /\ build (__init__ Conv3DModel cfg) input_shape output_size = Raise IndexError
  /\ (forall sl t,
        entry (params cfg) "lstm" = Some sl ->
        CnnParams.__get_and_validate_lstm_params sl = Ok t ->
        build (__init__ CnnLstmModel cfg) input_shape output_size = Raise IndexError)
  /\ (forall sl us ds input_lstm input_cnn rest,
        entry (params cfg) "lstm" = Some sl ->
        entry sl "hiddenLayers" = Some (PInt (Z.of_nat (length us))) ->
        entry sl "units" = Some (PList us) ->
        entry sl "dropout" = Some (PList ds) ->
        length ds = length us ->
        (forall m, build (__init__ MultiInputCnnLstmModel cfg)
                         (PList (input_lstm :: input_cnn :: rest)) output_size
                   <> Ok m)
        /\ build (__init__ MultiInputCnnLstmModel cfg)
                 (PList (input_lstm :: input_cnn :: rest)) output_size
           <> Raise ConfigError).
Proof.
  intros Hsc Hh Hf.
  pose proof (cnn_section_accepted sc [] Hh Hf) as Hcnn. cbn [length Z.of_nat] in Hcnn.
  pose proof (cnn_only_accepted (params cfg) sc [] Hsc Hh Hf) as Honly.
  cbn [length Z.of_nat] in Honly.
  unfold build. cbn [class_of __init__ _config].
  unfold ConvLstmModel._get_and_validate_params, Conv3DModel._get_and_validate_params,
    CnnLstmModel._get_and_validate_params, MultiInputCnnLstmModel._get_and_validate_params.
  rewrite Honly. cbn [bind].
  split; [reflexivity|]. split; [reflexivity|]. split.
  - intros sl [[hl us] ds] Hsl Hl. unfold CnnParams.cnn_and_lstm.
    rewrite (entry_getitem _ _ _ Hsc). cbn [bind]. rewrite Hcnn. cbn [bind].
    rewrite (entry_getitem _ _ _ Hsl). cbn [bind]. rewrite Hl. reflexivity.
  - intros sl us ds input_lstm input_cnn rest Hsl Hh' Hu Hd Hlen.
    pose proof (cnn_and_lstm_accepted (params cfg) sc sl [] us ds Hsc Hh Hf Hsl Hh' Hu
                  Hd Hlen) as Hboth.
    cbn [length Z.of_nat] in Hboth. rewrite Hboth. cbn [bind].
    destruct (lstm_stack_or_out_of_range us ds Hlen)
      as [[-> ->]|(us' & u & ds' & d & -> & -> & Hlen')].
    + split; [intros m|]; discriminate.
    + unfold MultiInputCnnLstmModel._build_model.
      change ((PList (input_lstm :: input_cnn :: rest)).[PInt 0]) with (Ok input_lstm).
      change ((PList (input_lstm :: input_cnn :: rest)).[PInt 1])
        with (seq_getitem (input_lstm :: input_cnn :: rest) 1).
      pose proof (seq_getitem_nat (input_lstm :: input_cnn :: rest) 1 input_cnn eq_refl)
        as H1.
      change (Z.of_nat 1) with 1 in H1. rewrite H1. clear H1.
      cbn [bind]. rewrite pred_of_length. cbn [bind]. rewrite range_of_nat. cbn [bind].
      rewrite (lstm_loop us' ds' u d Hlen'). cbn [bind].
      rewrite getitem_last. cbn [bind].
      pose proof (getitem_last ds' d) as Hd'. rewrite Hlen' in Hd'. rewrite Hd'.
      split; [intros m|]; discriminate.
Qed.

Lemma cnn_zero_layers_out_of_range_witness :
  build (__init__ CnnLstmModel (config_of "cnn-lstm" cnn_no_layers))
        (PList [PInt 10; PInt 4; PInt 4; PInt 3]) None
  = Raise IndexError.
Proof.
  destruct (cnn_zero_layers_out_of_range (config_of "cnn-lstm" cnn_no_layers)
              (PList [PInt 10; PInt 4; PInt 4; PInt 3]) None
              (cnn_section (PInt 0) (PList [])) eq_refl eq_refl eq_refl)
    as (_ & _ & H & _).
  apply (H (lstm_section (PInt 2) (PList [PInt 32; PInt 32])
              (PList [PFloat (1 # 10); PInt 0]))
           (PInt 2, PList [PInt 32; PInt 32], PList [PFloat (1 # 10); PInt 0]));
    reflexivity.
Defined.

(** X6.  [LstmModel] validation compares the lengths of the per-layer lists
    with [hiddenLayers] and does not look at its type.  With a float
    [hiddenLayers] the build never returns a model: it raises a ConfigError
    when a list length differs from the float, and otherwise, validation
    having accepted the configuration, a TypeError at [range(0,
    hiddenLayers - 1)]. *)
Theorem lstm_float_hidden_layers (cfg : ModelConfig) (input_shape : pyval)
    (output_size : option pyval) (s : pyval) (q : Q) (us ds : list pyval) :
  entry (params cfg) "lstm" = Some s ->
  entry s "hiddenLayers" = Some (PFloat q) ->
  entry s "units" = Some (PList us) ->
  entry s "dropout" = Some (PList ds) ->
  let same_length (l : list pyval) := Qeq_bool (inject_Z (Z.of_nat (length l))) q in
  (same_length us && same_length ds = true ->
   LstmModel._get_and_validate_params (params cfg)
   = Ok (PFloat q, PList us, PList ds))
  /\ build (__init__ LstmModel cfg) input_shape output_size
     = Raise (if same_length us && same_length ds then TypeError else ConfigError).
Proof.
  intros Hs Hh Hu Hd same_length. subst same_length. cbv beta.
  unfold build. cbn [class_of __init__ _config].
  unfold LstmModel._get_and_validate_params.
  rewrite (entry_getitem _ _ _ Hs). cbn [bind].
  rewrite (entry_getitem _ _ _ Hh), (entry_getitem _ _ _ Hu), (entry_getitem _ _ _ Hd).
  cbn [bind py_len]. unfold py_ne_int, py_eq_int.
  destruct (Qeq_bool (inject_Z (Z.of_nat (length us))) q); cbn [negb andb];
    [|split; [discriminate|reflexivity]].
  destruct (Qeq_bool (inject_Z (Z.of_nat (length ds))) q); cbn [negb];
    [|split; [discriminate|reflexivity]].
  split; [reflexivity|]. reflexivity.
Qed.

Lemma lstm_float_hidden_layers_witness :
  build (__init__ LstmModel (config_of "lstm" lstm_float_layers))
        (PList [PInt 10; PInt 5]) None
  = Raise TypeError.
Proof.
  apply (proj2 (lstm_float_hidden_layers (config_of "lstm" lstm_float_layers)
                  (PList [PInt 10; PInt 5]) None
                  (lstm_section (PFloat 2) (PList [PInt 32; PInt 32])
                     (PList [PFloat (1 # 10); PInt 0]))
                  2 [PInt 32; PInt 32] [PFloat (1 # 10); PInt 0]
                  eq_refl eq_refl eq_refl eq_refl)).
Defined.

(** ** Saving a model *)

Lemma build_sets_model (self m' : Model) (input_shape : pyval)
    (output_size : option pyval) :
  build self input_shape output_size = Ok m' ->
  exists k, m' = set_model self k.
Proof.
  unfold build.
  destruct (class_of self); try discriminate;
    (destruct (_ (params (_config self))) as [t|e]; cbn [bind]; [|discriminate]);
    match goal with
    | |- context [bind ?b _] => destruct b as [k|e]; cbn [bind]; [|discriminate]
    end;
    intros H; injection H as <-; exists k; reflexivity.
Qed.

Lemma path_join_file (a b : string) :
  String.prefix "/" b = false ->
  path_join a b = a +:+ b \/ path_join a b = a +:+ "/" +:+ b.
Proof.
  intros Hb. unfold path_join. rewrite Hb.
  destruct (_ || _); [left|right]; reflexivity.
Qed.

(** X7.  A model can be saved only after it was built.  On a model as the
    factory creates it, [save_model] raises an AttributeError and nothing is
    saved.  On a model that [build] returned, [save_model] saves the built
    framework model once, at the path it returns: the storage directory
    joined with "model.h5" when HDF5 is asked for and with "model"
    otherwise. *)
Theorem save_model_requires_build (cfg : ModelConfig) (storage_path : string)
    (as_hdf5 : bool) :
  let file := if as_hdf5 then "model.h5" else "model" in
  (forall m, factory cfg = Ok m ->
             save_model m storage_path as_hdf5 = (Raise AttributeError, []))
  /\ (forall m input_shape output_size m',
        factory cfg = Ok m ->
        build m input_shape output_size = Ok m' ->
        exists k path,
          model m' = Some k
          /\ save_model m' storage_path as_hdf5 = (Ok path, [(path, k)])
          /\ (path = storage_path +:+ file \/ path = storage_path +:+ "/" +:+ file)).
Proof.
  intros file. split.
  - intros m Hm.
    destruct (factory_cases cfg) as [(c & _ & Hc)|[_ Hc]]; rewrite Hc in Hm;
      [|discriminate].
    injection Hm as <-. unfold save_model. cbn [model __init__]. reflexivity.
  - intros m input_shape output_size m' _ Hb.
    destruct (build_sets_model m m' input_shape output_size Hb) as [k ->].
    exists k, (path_join storage_path file). split; [reflexivity|].
    split.
    + unfold save_model. cbn [model set_model]. subst file.
      destruct as_hdf5; reflexivity.
    + apply path_join_file. subst file. destruct as_hdf5; reflexivity.
Qed.

Lemma save_model_requires_build_witness :
  save_model (__init__ LstmModel (config_of "lstm" lstm_two_layers)) "out/run" true
  = (Raise AttributeError, []).
Proof.
  apply (proj1 (save_model_requires_build (config_of "lstm" lstm_two_layers)
                  "out/run" true)).
  reflexivity.
Defined.

(** ** File discovery by product *)

(** X8.  [discover_files_for_basins] answers one path for each basin, in the
    order of the basins: the first path the file system has for the pattern
    of that basin.  It returns exactly when every basin has a file, and
    otherwise raises the FileNotFoundError of a basin without one. *)
Theorem discover_files_one_per_basin (glob : string -> bool -> list string)
    (data_dir : string) (basins : list string) :
  let found b := glob (data_dir +:+ "/**/*" +:+ b +:+ "*") true in
  let out := fst (discover_files_for_basins glob data_dir basins) in
  (forall files, out = Ok files ->
     Forall2 (fun b f => exists rest, found b = f :: rest) basins files)
  /\ ((exists files, out = Ok files) <-> (forall b, In b basins -> found b <> []))
  /\ (forall e, out = Raise e ->
        e = FileNotFoundError /\ exists b, In b basins /\ found b = []).
Proof.
  intros found out. subst out.
  induction basins as [|b basins (IH1 & IH2 & IH3)].
  - cbn. split; [|split].
    + intros files H. injection H as <-. constructor.
    + split; [intros _ b []|eauto].
    + discriminate.
  - cbn [discover_files_for_basins]. unfold discover_single_file_for_basin.
    fold (found b). destruct (found b) as [|f rest] eqn:Ef.
    + cbn [fst]. split; [discriminate|]. split.
      * split; [intros [files H]; discriminate|].
        intros H. exfalso. apply (H b); [left; reflexivity|exact Ef].
      * intros e H. injection H as <-. split; [reflexivity|].
        exists b. split; [left; reflexivity|exact Ef].
    + destruct (discover_files_for_basins glob data_dir basins) as [[fs|e] log'];
        cbn [fst] in *.
      * split; [|split].
        -- intros files H. injection H as <-.
           constructor; [exists rest; exact Ef|apply IH1; reflexivity].
        -- split; [|eauto].
           intros _ b' [<-|Hb']; [rewrite Ef; discriminate|].
           apply (proj1 IH2); [eauto|exact Hb'].
        -- discriminate.
      * split; [discriminate|]. split.
        -- split; [intros [files H]; discriminate|].
           intros H. destruct (proj2 IH2) as [files Hfiles]; [|discriminate].
           intros b' Hb'. apply H. right. exact Hb'.
        -- intros e' H. injection H as <-.
           destruct (IH3 e eq_refl) as (-> & b' & Hb' & Hnone).
           split; [reflexivity|]. exists b'. split; [right; exact Hb'|exact Hnone].
Qed.

Lemma discover_files_one_per_basin_witness :
  (exists files, fst (discover_files_for_basins glob_example "data" ["123"; "123"])
                 = Ok files)
  /\ fst (discover_files_for_basins glob_example "data" ["123"; "999"])
     = Raise FileNotFoundError.
Proof.
  split.
  - apply (proj1 (proj2 (discover_files_one_per_basin glob_example "data"
                           ["123"; "123"]))).
    intros b [<-|[<-|[]]]; discriminate.
  - destruct (fst (discover_files_for_basins glob_example "data" ["123"; "999"]))
      as [files|e] eqn:E.
    + discriminate E.
    + destruct (proj2 (proj2 (discover_files_one_per_basin glob_example "data"
                                ["123"; "999"])) e E) as [-> _].
      reflexivity.
Defined.

Lemma names_a_basin_spec (basins : list string) (f : string) :
  names_a_basin basins f = true
  <-> In (String.substring 0 8 (basename f)) basins.
Proof.
  unfold names_a_basin. rewrite existsb_exists. split.
  - intros (b & Hb & E). apply String.eqb_eq in E. subst b. exact Hb.
  - intros H. eexists. split; [exact H|]. apply String.eqb_refl.
Qed.

Lemma length_substring_0 (n : nat) (s : string) :
  (n <= String.length s)%nat -> String.length (String.substring 0 n s) = n.
Proof.
  revert s. induction n as [|n IH]; intros s H.
  - destruct s; reflexivity.
  - destruct s as [|c s]; [simpl in H; lia|].
    simpl. rewrite IH; [reflexivity|]. simpl in H. lia.
Qed.

Lemma prefix_substring_0 (n : nat) (s : string) :
  String.prefix (String.substring 0 n s) s = true.
Proof.
  revert s. induction n as [|n IH]; intros s.
  - destruct s; reflexivity.
  - destruct s as [|c s]; [reflexivity|].
    simpl. destruct (Ascii.ascii_dec c c) as [_|N]; [apply IH|destruct N; reflexivity].
Qed.

Lemma filter_sublist {A : Type} (P : A -> bool) (l : list A) :
  sublist (List.filter P l) l.
Proof.
  induction l as [|a l IH]; simpl; [constructor|].
  destruct (P a); [apply sublist_skip|apply sublist_cons]; exact IH.
Qed.

Lemma type_dict_products (forcings_type : string) :
  (type_dict !! forcings_type = None
   <-> forcings_type <> "daymet" /\ forcings_type <> "maurer"
       /\ forcings_type <> "nldas")
  /\ (forall product, type_dict !! forcings_type = Some product ->
        (forcings_type = "daymet" /\ product = "cida")
        \/ (forcings_type = "maurer" /\ product = "maurer")
        \/ (forcings_type = "nldas" /\ product = "nldas")).
Proof.
  destruct (String.eqb_spec forcings_type "daymet") as [->|N1];
    [split; [split; [discriminate|intros (N & _); destruct N; reflexivity]|];
     intros product H; injection H as <-; auto|].
  destruct (String.eqb_spec forcings_type "maurer") as [->|N2];
    [split; [split; [discriminate|intros (_ & N & _); destruct N; reflexivity]|];
     intros product H; injection H as <-; auto|].
  destruct (String.eqb_spec forcings_type "nldas") as [->|N3];
    [split; [split; [discriminate|intros (_ & _ & N); destruct N; reflexivity]|];
     intros product H; injection H as <-; auto|].
  assert (type_dict !! forcings_type = None) as ->.
  { unfold type_dict. rewrite !lookup_insert_ne by congruence. apply lookup_empty. }
  split; [split; auto|discriminate].
Qed.

(** X9.  From the CAMELS-US files the file system has, the two discoverers
    of multiple files keep, in their order, exactly those whose file name
    begins (in its first eight characters) with one of the given basin
    ids; without a list of basins they keep all.  So a basin id that is not
    eight characters long selects no file with a name of eight or more
    characters: every such file selected has an id of length eight for the
    beginning of its name.  The forcings discoverer raises a ValueError for
    a forcings type other than daymet, maurer and nldas; the streamflow
    discoverer asks the file system without recursion. *)
Theorem camels_files_selected_by_basin_id (glob : string -> bool -> list string)
    (data_dir forcings_type : string) (basins : list string) :
  let selected found files :=
    sublist files found
    /\ (forall f, In f files
                  <-> In f found /\ In (String.substring 0 8 (basename f)) basins)
    /\ (forall f, In f files -> (8 <= String.length (basename f))%nat ->
          exists b, In b basins /\ String.length b = 8%nat
                    /\ String.prefix b (basename f) = true) in
  (type_dict !! forcings_type = None ->
   forall bs, discover_multiple_camels_us_forcings_files glob data_dir forcings_type bs
              = Raise ValueError)
  /\ (forall product, type_dict !! forcings_type = Some product ->
        let found := glob (data_dir +:+ "/**/*_lump_" +:+ product
                             +:+ "_forcing_leap.txt") true in
        discover_multiple_camels_us_forcings_files glob data_dir forcings_type None
        = Ok found
        /\ exists files,
             discover_multiple_camels_us_forcings_files glob data_dir forcings_type
               (Some basins) = Ok files
             /\ selected found files)
  /\ (let found := glob (data_dir +:+ "/**/*_streamflow_qc.txt") false in
      discover_multiple_camels_us_streamflow_files glob data_dir None = found
      /\ selected found
           (discover_multiple_camels_us_streamflow_files glob data_dir (Some basins))).
Proof.
  intros selected.
  assert (forall found, selected found (List.filter (names_a_basin basins) found))
    as Hsel.
  { intros found. split; [apply filter_sublist|]. split.
    - intros f. rewrite filter_In, names_a_basin_spec. reflexivity.
    - intros f Hf Hlen. apply filter_In in Hf as [_ Hf].
      apply names_a_basin_spec in Hf.
      exists (String.substring 0 8 (basename f)). split; [exact Hf|].
      split; [apply length_substring_0, Hlen|apply prefix_substring_0]. }
  unfold discover_multiple_camels_us_forcings_files,
    discover_multiple_camels_us_streamflow_files.
  split; [intros -> bs; reflexivity|]. split.
  - intros product ->. cbv zeta. split; [reflexivity|].
    eexists. split; [reflexivity|apply Hsel].
  - cbv zeta. split; [reflexivity|apply Hsel].
Qed.

Lemma camels_files_selected_by_basin_id_witness :
  discover_multiple_camels_us_forcings_files glob_camels "camels" "daymet" None
  = Ok ["camels/01/01013500_lump_cida_forcing_leap.txt";
        "camels/01/01022500_lump_cida_forcing_leap.txt";
        "camels/02/02053200_lump_cida_forcing_leap.txt"]
  /\ discover_multiple_camels_us_forcings_files glob_camels "camels" "era5" None
     = Raise ValueError.
Proof.
  destruct (camels_files_selected_by_basin_id glob_camels "camels" "daymet" [])
    as (_ & H & _).
  destruct (camels_files_selected_by_basin_id glob_camels "camels" "era5" [])
    as (H' & _).
  split; [apply (H "cida"); reflexivity|apply H'; reflexivity].
Defined.

Lemma daymet_loop (glob : string -> bool -> list string) (root_data_dir : string)
    (variables : list string) (file_list log : list string) :
  let data_dir v := path_join root_data_dir v in
  let found v := glob (data_dir v +:+ "/*_daymet_v4_daily_na_" +:+ v +:+ "_*.nc")
                      false in
  fold_left
    (fun (acc : list string * list string) (variable : string) =>
       let '(file_list, log) := acc in
       match found variable with
       | [] => (file_list,
                log ++ ["No files found in path " +:+ data_dir variable
                          +:+ " for variable " +:+ variable +:+ "."])
       | _ => (file_list ++ found variable, log)
       end)
    variables (file_list, log)
  = (file_list ++ concat (map found variables),
     log ++ map (fun v => "No files found in path " +:+ data_dir v
                            +:+ " for variable " +:+ v +:+ ".")
                (List.filter (fun v => bool_decide (found v = [])) variables)).
Proof.
  intros data_dir found. revert file_list log.
  induction variables as [|v vs IH]; intros file_list log.
  - cbn. rewrite !app_nil_r. reflexivity.
  - cbn [fold_left map concat List.filter].
    destruct (found v) as [|f fs] eqn:Ef.
    + rewrite IH. rewrite bool_decide_eq_true_2 by reflexivity.
      cbn [app map]. rewrite <- app_assoc. reflexivity.
    + rewrite IH. rewrite bool_decide_eq_false_2 by discriminate.
      rewrite <- app_assoc. reflexivity.
Qed.

(** X10.  [discover_daymet_files] never raises.  It answers the files the
    file system has for the pattern of each variable, variable after
    variable in the order given, and logs one warning for each variable
    without files, in that order.  So it answers no file exactly when no
    variable has one, and every file answered is a file of a variable
    asked for. *)
Theorem discover_daymet_files_by_variable (glob : string -> bool -> list string)
    (root_data_dir : string) (variables : list string) :
  let data_dir v := path_join root_data_dir v in
  let found v := glob (data_dir v +:+ "/*_daymet_v4_daily_na_" +:+ v +:+ "_*.nc")
                      false in
  let out := discover_daymet_files glob root_data_dir variables in
  fst out = concat (map found variables)
  /\ snd out = map (fun v => "No files found in path " +:+ data_dir v
                               +:+ " for variable " +:+ v +:+ ".")
                   (List.filter (fun v => bool_decide (found v = [])) variables)
  /\ (fst out = [] <-> forall v, In v variables -> found v = [])
  /\ (forall f, In f (fst out) <-> exists v, In v variables /\ In f (found v)).
Proof.
  intros data_dir found out. subst out.
  pose proof (daymet_loop glob root_data_dir variables [] []) as H.
  cbv zeta in H. fold data_dir in H. fold found in H. cbn [app] in H.
  match type of H with
  | _ = ?r => assert (discover_daymet_files glob root_data_dir variables = r) as ->
                by exact H
  end.
  clear H. cbn [fst snd].
  split; [reflexivity|]. split; [reflexivity|]. split.
  - induction variables as [|v vs IH]; cbn [map concat].
    + split; [intros _ v []|reflexivity].
    + split.
      * intros E. apply app_eq_nil in E as [Ev Evs].
        intros v' [<-|Hv']; [exact Ev|apply (proj1 IH Evs), Hv'].
      * intros Hall. rewrite (Hall v) by (left; reflexivity). cbn [app].
        apply IH. intros v' Hv'. apply Hall. right. exact Hv'.
  - intros f. rewrite in_concat. split.
    + intros (l & Hl & Hf). apply in_map_iff in Hl as (v & <- & Hv). eauto.
    + intros (v & Hv & Hf). exists (found v). split; [apply in_map, Hv|exact Hf].
Qed.

Lemma discover_daymet_files_by_variable_witness :
  fst (discover_daymet_files glob_camels "daymet" ["tmax"; "prcp"])
  = ["daymet/prcp/1_daymet_v4_daily_na_prcp_2000.nc";
     "daymet/prcp/1_daymet_v4_daily_na_prcp_2001.nc"]
  /\ snd (discover_daymet_files glob_camels "daymet" ["tmax"; "prcp"])
     = ["No files found in path daymet/tmax for variable tmax."].
Proof.
  destruct (discover_daymet_files_by_variable glob_camels "daymet" ["tmax"; "prcp"])
    as (H1 & H2 & _).
  split; [rewrite H1|rewrite H2]; reflexivity.
Defined.

Lemma first_of_found (files : list string) (msg : string) :
  let out := match files with
             | [] => (Raise FileNotFoundError, [])
             | first :: rest =>
                 (Ok first, if (1 <? Z.of_nat (length files)) then [msg] else [])
             end in
  (files = [] <-> fst out = Raise FileNotFoundError)
  /\ (forall first rest, files = first :: rest ->
        fst out = Ok first /\ (rest = [] <-> snd out = [])).
Proof.
  destruct files as [|f rest]; cbn [fst snd].
  - split; [split; reflexivity|]. discriminate.
  - split; [split; discriminate|].
    intros first rest' H. injection H as <- <-. split; [reflexivity|].
    destruct rest as [|g rest].
    + split; reflexivity.
    + split; [discriminate|].
      match goal with
      | |- context [?a <? ?b] => destruct (Z.ltb_spec a b) as [_|Hle]
      end; [discriminate|]. simpl length in Hle. lia.
Qed.

(** X11.  The discoverers of a single Daymet file, a single CAMELS-US
    streamflow file and a single CAMELS-US forcings file each ask the file
    system for their own pattern, raise a FileNotFoundError exactly when it
    has no file for it, and otherwise return the first file, logging one
    warning exactly when there are several.  The forcings discoverer looks
    at the forcings type before it looks for files: for a type other than
    daymet, maurer and nldas it raises a ValueError, whatever files there
    are; the file it asks for is named by the basin and the product of the
    type, which is cida for daymet. *)
Theorem single_file_by_product (glob : string -> bool -> list string)
    (data_dir basin : string) :
  let first_of (found : list string) (out : result string * list string) :=
    (found = [] <-> fst out = Raise FileNotFoundError)
    /\ (forall first rest, found = first :: rest ->
          fst out = Ok first /\ (rest = [] <-> snd out = [])) in
  first_of (glob (data_dir +:+ "/**/*" +:+ basin +:+ "*.nc") true)
           (discover_single_daymet_file_for_basin glob data_dir basin)
  /\ first_of (glob (data_dir +:+ "/**/" +:+ basin +:+ "_streamflow_qc.txt") true)
              (discover_single_camels_us_streamflow_file glob data_dir basin)
  /\ forall forcings_type,
       let out := discover_single_camels_us_forcings_file glob data_dir forcings_type
                    basin in
       (forcings_type <> "daymet" /\ forcings_type <> "maurer"
        /\ forcings_type <> "nldas" <-> out = (Raise ValueError, []))
       /\ (forall product,
             (forcings_type = "daymet" /\ product = "cida")
             \/ (forcings_type = "maurer" /\ product = "maurer")
             \/ (forcings_type = "nldas" /\ product = "nldas") ->
             first_of (glob (data_dir +:+ "/**/" +:+ basin +:+ "_lump_" +:+ product
                               +:+ "_forcing_leap.txt") true) out).
Proof.
  intros first_of. subst first_of. cbv beta.
  split; [apply first_of_found|]. split; [apply first_of_found|].
  intros forcings_type out. subst out.
  unfold discover_single_camels_us_forcings_file.
  destruct (type_dict_products forcings_type) as [Hnone Hsome].
  split.
  - destruct (type_dict !! forcings_type) as [product|] eqn:E.
    + split.
      * intros H. apply Hnone in H. discriminate.
      * cbv zeta. destruct (glob _ true); [discriminate|]. discriminate.
    + split; [reflexivity|]. intros _. apply Hnone. reflexivity.
  - intros product Hp.
    assert (type_dict !! forcings_type = Some product) as ->
      by (destruct Hp as [[-> ->]|[[-> ->]|[-> ->]]]; reflexivity).
    apply first_of_found.
Qed.

Lemma single_file_by_product_witness :
  fst (discover_single_camels_us_forcings_file glob_camels "camels" "daymet" "01013500")
  = Ok "camels/01/01013500_lump_cida_forcing_leap.txt"
  /\ discover_single_camels_us_forcings_file glob_camels "camels" "Daymet" "01013500"
     = (Raise ValueError, []).
Proof.
  destruct (single_file_by_product glob_camels "camels" "01013500") as (_ & _ & H).
  destruct (H "daymet") as (_ & Hd). destruct (H "Daymet") as (H' & _).
  split.
  - destruct (Hd "cida") as [_ Hfirst]; [left; split; reflexivity|].
    apply (Hfirst _ []). reflexivity.
  - apply H'. repeat split; discriminate.
Defined.

(** ** Filling and blanking values in place *)

Lemma assoc_In_NoDup {A : Type} (l : list (string * A)) (kx : string * A) :
  NoDup (Xr.names l) -> In kx l -> Xr.assoc (fst kx) l = Some (snd kx).
Proof.
  intros Hnd Hin.
  pose proof (assoc_map_NoDup (fun a => a) l kx Hnd Hin) as H.
  rewrite (map_ext _ (fun kx => kx)) in H by (intros []; reflexivity).
  rewrite map_id in H. exact H.
Qed.

Lemma assoc_map_snd {A B : Type} (g : A -> B) (k : string) (l : list (string * A)) :
  Xr.assoc k (map (fun kx : string * A => (fst kx, g (snd kx))) l)
  = option_map g (Xr.assoc k l).
Proof.
  induction l as [|[k' a] l IH]; [reflexivity|].
  cbn [map Xr.assoc fst snd]. destruct (String.eqb k k'); [reflexivity|exact IH].
Qed.

Lemma assoc_selected {A : Type} (k : string) (vars : list string)
    (l : list (string * A)) :
  Xr.assoc k (flat_map (fun k' => match Xr.assoc k' l with
                                  | Some a => [(k', a)]
                                  | None => []
                                  end) vars)
  = if Xr.mem k vars then Xr.assoc k l else None.
Proof.
  unfold Xr.mem. induction vars as [|k' vars IH]; [reflexivity|].
  cbn [flat_map existsb].
  destruct (String.eqb_spec k k') as [->|Hne]; cbn [orb].
  - destruct (Xr.assoc k' l) as [a|] eqn:E.
    + cbn [app Xr.assoc]. rewrite String.eqb_refl. reflexivity.
    + cbn [app]. rewrite IH. destruct (existsb _ vars); reflexivity.
  - destruct (Xr.assoc k' l) as [a|] eqn:E; [|exact IH].
    cbn [app Xr.assoc]. apply String.eqb_neq in Hne. rewrite Hne. exact IH.
Qed.

Lemma names_ds_remap h x : Xr.names (Xr.data_vars (ds_remap h x)) = Xr.names (Xr.data_vars x).
Proof.
  unfold ds_remap, Xr.names. cbn [Xr.data_vars]. rewrite map_map. reflexivity.
Qed.

Lemma assoc_on_variables (vars : list string) (h : Xr.value -> Xr.value)
    (x : Xr.Dataset) (k : string) :
  Xr.assoc k (Xr.data_vars (on_variables vars h x))
  = option_map (fun a => if Xr.mem k vars then remap (fun _ v => h v) a else a)
               (Xr.assoc k (Xr.data_vars x)).
Proof.
  unfold on_variables, ds_remap. cbn [Xr.data_vars].
  induction (Xr.data_vars x) as [|[k' a] l IH]; [reflexivity|].
  cbn [map Xr.assoc fst snd]. destruct (String.eqb_spec k k') as [->|Hne]; [|exact IH].
  cbn [option_map]. destruct (Xr.mem k' vars); [reflexivity|].
  rewrite remap_id; reflexivity.
Qed.

(** Updating a dataset with its own selected and filled variables. *)
Lemma update_filled (x sel : Xr.Dataset) (vars : list string) (value : Xr.value) :
  NoDup (Xr.names (Xr.data_vars x)) ->
  Xr.getitem x vars = Ok sel ->
  Xr.update x (Xr.fillna value sel) = on_variables vars (fill_with value) x.
Proof.
  intros Hnd Hsel. unfold Xr.getitem in Hsel.
  destruct (forallb _ vars) eqn:Hall; [|discriminate]. injection Hsel as <-.
  unfold Xr.update, Xr.fillna, on_variables, ds_remap. cbn [Xr.coords Xr.data_vars].
  f_equal. rewrite filter_none.
  - rewrite app_nil_r. apply map_ext_in. intros kx Hkx. f_equal.
    rewrite assoc_map_snd, assoc_selected, (assoc_In_NoDup _ kx Hnd Hkx).
    destruct (Xr.mem (fst kx) vars); cbn [option_map].
    + unfold Xr.arr_fillna, remap. f_equal. apply map_ext.
      intros [p []]; reflexivity.
    + symmetry. apply remap_id. reflexivity.
  - apply forallb_forall. intros kx Hkx.
    apply in_map_iff in Hkx as (kx0 & <- & Hkx0). cbn [fst].
    apply in_flat_map in Hkx0 as (k & Hk & Hkx0).
    destruct (Xr.assoc k (Xr.data_vars x)) as [a|] eqn:Ea; [|destruct Hkx0].
    destruct Hkx0 as [<-|[]]. cbn [fst].
    rewrite forallb_forall in Hall. apply Hall, Hk.
Qed.

Lemma zip_fst_snd {A B : Type} (l : list (A * B)) : zip (map fst l) (map snd l) = l.
Proof. induction l as [|[a b] l IH]; [reflexivity|]. cbn. rewrite IH. reflexivity. Qed.

Lemma length_remove_dups_le {A : Type} `{EqDecision A} (l : list A) :
  (length (remove_dups l) <= length l)%nat.
Proof.
  induction l as [|a l IH]; [reflexivity|]. cbn [remove_dups].
  destruct (decide_rel elem_of a l); cbn [length]; lia.
Qed.

Lemma length_remove_dups_NoDup {A : Type} `{EqDecision A} (l : list A) :
  length (remove_dups l) = length l <-> NoDup l.
Proof.
  induction l as [|a l IH]; [split; [constructor|reflexivity]|].
  cbn [remove_dups]. pose proof (length_remove_dups_le l) as Hle.
  destruct (decide_rel elem_of a l) as [Hin|Hin]; cbn [length].
  - split; [lia|]. intros H. apply NoDup_cons in H as [H _]. contradiction.
  - split.
    + intros H. apply NoDup_cons. split; [exact Hin|]. apply IH. lia.
    + intros H. apply NoDup_cons in H as [_ H]. f_equal. apply IH, H.
Qed.

(** What [ds[vars] = ds[vars].fillna(value)] assigns, and when it is
    refused. *)
Lemma setitem_filled (x sel : Xr.Dataset) (vars : list string) (value : Xr.value) :
  NoDup (Xr.names (Xr.data_vars x)) ->
  Xr.getitem x vars = Ok sel ->
  Xr.setitem x vars (Xr.fillna value sel)
  = match vars with
    | [] => Raise ValueError
    | [_] => Raise TypeError
    | _ => if bool_decide (NoDup vars)
           then Ok (on_variables vars (fill_with value) x)
           else Raise ValueError
    end.
Proof.
  intros Hnd Hsel. destruct (getitem_Ok _ _ _ Hsel) as [Hnames _].
  assert (Xr.names (Xr.data_vars (Xr.fillna value sel)) = vars) as Hfilled.
  { rewrite <- Hnames. unfold Xr.fillna, Xr.names. cbn [Xr.data_vars].
    rewrite map_map. reflexivity. }
  unfold Xr.setitem. destruct vars as [|a [|b rest]]; [reflexivity|reflexivity|].
  set (vars := a :: b :: rest) in *. unfold Xr.len. rewrite Hfilled.
  destruct (decide (NoDup vars)) as [Hvars|Hvars].
  - rewrite bool_decide_eq_true_2
      by (symmetry; apply length_remove_dups_NoDup, Hvars).
    rewrite (bool_decide_eq_true_2 _ Hvars). f_equal.
    rewrite <- (update_filled x sel vars value Hnd Hsel).
    assert (zip vars (map snd (Xr.data_vars (Xr.fillna value sel)))
            = Xr.data_vars (Xr.fillna value sel)) as Hzip
      by (rewrite <- Hfilled at 1; apply zip_fst_snd).
    unfold Xr.update. cbn [Xr.coords Xr.data_vars]. rewrite Hzip. reflexivity.
  - rewrite (bool_decide_eq_false_2 _ Hvars).
    rewrite bool_decide_eq_false_2; [reflexivity|].
    intros E. apply Hvars. apply length_remove_dups_NoDup. symmetry. exact E.
Qed.

(** What [ds[f] = ds[f].where(ds[f] != value)] assigns. *)
Lemma setitem_blanked (x : Xr.Dataset) (f : string) (a : Xr.DataArray)
    (value : Xr.value) :
  NoDup (Xr.names (Xr.data_vars x)) ->
  Xr.assoc f (Xr.data_vars x) = Some a ->
  setitem_var x f (arr_where_ne value a) = on_variables [f] (blank value) x.
Proof.
  intros Hnd Ha. unfold setitem_var, Xr.update, on_variables, ds_remap.
  cbn [Xr.coords Xr.data_vars]. f_equal.
  cbn [List.filter fst]. 
  assert (Xr.mem f (Xr.names (Xr.data_vars x)) = true) as ->.
  { apply mem_In. destruct (in_dec string_dec f (Xr.names (Xr.data_vars x))) as [H|H];
      [exact H|]. rewrite (assoc_None_of_not_In f _ H) in Ha. discriminate. }
  cbn [negb]. rewrite app_nil_r. apply map_ext_in. intros kx Hkx. f_equal.
  cbn [Xr.assoc Xr.mem existsb]. rewrite orb_false_r.
  destruct (String.eqb_spec (fst kx) f) as [E|_].
  - pose proof (assoc_In_NoDup _ kx Hnd Hkx) as Hk. rewrite E, Ha in Hk.
    injection Hk as ->. reflexivity.
  - symmetry. apply remap_id. reflexivity.
Qed.

Lemma state_eta (s : State) :
  {| self := self s;
     store := {| objects := objects (store s); arrays := arrays (store s);
                 warnings := warnings (store s) |} |} = s.
Proof. destruct s as [p [o a w]]. reflexivity. Qed.

Lemma getitem_raises (x : Xr.Dataset) (vars : list string) :
  (exists k, In k vars /\ ~ In k (Xr.names (Xr.data_vars x))) ->
  Xr.getitem x vars = Raise KeyError.
Proof.
  intros (k & Hk & Hn). unfold Xr.getitem.
  destruct (forallb _ vars) eqn:E; [|reflexivity].
  exfalso. apply Hn. apply (proj1 (forallb_mem_In _ _) E), Hk.
Qed.

Lemma on_variables_on_variables (vars vars' : list string)
    (h g : Xr.value -> Xr.value) (x : Xr.Dataset) :
  on_variables vars' g (on_variables vars h x)
  = ds_remap (fun kx _ v =>
                let w := if Xr.mem (fst kx) vars then h v else v in
                if Xr.mem (fst kx) vars' then g w else w) x.
Proof.
  unfold on_variables, ds_remap. cbn [Xr.coords Xr.data_vars]. f_equal.
  rewrite map_map. apply map_ext. intros kx. cbn [fst snd].
  rewrite remap_remap. reflexivity.
Qed.

Lemma blank_blank (value v : Xr.value) : blank value (blank value v) = blank value v.
Proof.
  unfold blank. destruct (value_ne v value) eqn:E; [rewrite E; reflexivity|].
  reflexivity.
Qed.

Lemma blank_fill (value v : Xr.value) :
  value_ne v value = true -> blank value (fill_with value v) = v.
Proof.
  unfold blank, fill_with. intros H. destruct v; try (rewrite H; reflexivity).
  destruct value; try reflexivity;
    unfold value_ne; rewrite bool_decide_eq_true_2 by reflexivity; reflexivity.
Qed.

(** The loop of [setna], from an array [y] at [ds]. *)
Lemma setna_loop (ds : loc) (value : Xr.value) (vars : list string) :
  forall (s : State) (y : Xr.Dataset),
    arrays (store s) !! ds = Some y ->
    NoDup (Xr.names (Xr.data_vars y)) ->
    (forall k, In k vars -> In k (Xr.names (Xr.data_vars y))) ->
    for_each vars (fun f =>
                     x <~ read_array ds ;;
                     a <~ lift (getitem_var x f) ;;
                     write_array ds (setitem_var x f (arr_where_ne value a))) s
    = (Ok tt,
       {| self := self s;
          store := {| objects := objects (store s);
                      arrays := <[ds := on_variables vars (blank value) y]>
                                  (arrays (store s));
                      warnings := warnings (store s) |} |}).
Proof.
  induction vars as [|f vars IH]; intros s y Hy Hnd Hin.
  - cbn [for_each]. unfold ret. f_equal.
    replace (on_variables [] (blank value) y) with y
      by (symmetry; apply ds_remap_id; reflexivity).
    rewrite insert_id by exact Hy. symmetry. apply state_eta.
  - cbn [for_each]. unfold and_then at 1. unfold and_then at 1.
    unfold read_array at 1. rewrite Hy. unfold and_then at 1. unfold lift at 1.
    destruct (assoc_Some_of_mem f (Xr.data_vars y)) as [a Ha];
      [apply mem_In, Hin; left; reflexivity|].
    unfold getitem_var. rewrite Ha. unfold write_array at 1.
    rewrite (setitem_blanked y f a value Hnd Ha).
    rewrite (IH _ (on_variables [f] (blank value) y)).
    + cbn [self store objects arrays warnings]. rewrite insert_insert_eq.
      do 4 f_equal. rewrite on_variables_on_variables. unfold on_variables.
      apply ds_remap_ext. intros kx c _ _. cbv zeta.
      change (Xr.mem (fst kx) [f]) with (String.eqb (fst kx) f || false).
      change (Xr.mem (fst kx) (f :: vars))
        with (String.eqb (fst kx) f || Xr.mem (fst kx) vars).
      rewrite orb_false_r.
      destruct (String.eqb (fst kx) f); cbn [orb].
      * destruct (Xr.mem (fst kx) vars); [apply blank_blank|reflexivity].
      * reflexivity.
    + cbn [store arrays]. apply lookup_insert_eq.
    + unfold on_variables. rewrite names_ds_remap. exact Hnd.
    + intros k Hk. unfold on_variables. rewrite names_ds_remap. apply Hin. right.
      exact Hk.
Qed.

(** What [fillna] does, case by case of the listed variables. *)
Lemma fillna_outcome (ds : loc) (value : Xr.value) (s : State) (vars : list string)
    (x : Xr.Dataset) :
  variables (self s) = Some vars ->
  arrays (store s) !! ds = Some x ->
  NoDup (Xr.names (Xr.data_vars x)) ->
  (forall k, In k vars -> In k (Xr.names (Xr.data_vars x))) ->
  AbstractProcessor.fillna ds value s
  = match vars with
    | [] => (Raise ValueError, s)
    | [_] => (Raise TypeError, s)
    | _ =>
        if bool_decide (NoDup vars)
        then (Ok ds,
              {| self := self s;
                 store := {| objects := objects (store s);
                             arrays := <[ds := on_variables vars (fill_with value) x]>
                                         (arrays (store s));
                             warnings := warnings (store s) |} |})
        else (Raise ValueError, s)
    end.
Proof.
  intros Hv Hx Hnd Hin. unfold AbstractProcessor.fillna. unfold_methods.
  rewrite Hx, Hv. destruct (getitem_returns x vars Hin) as [sel Hsel].
  rewrite Hsel. rewrite (setitem_filled x sel vars value Hnd Hsel).
  destruct vars as [|a [|b rest]]; [reflexivity|reflexivity|].
  destruct (bool_decide (NoDup (a :: b :: rest))); reflexivity.
Qed.

Lemma fillna_returns (ds : loc) (value : Xr.value) (s : State) (vars : list string)
    (x : Xr.Dataset) :
  variables (self s) = Some vars ->
  arrays (store s) !! ds = Some x ->
  NoDup (Xr.names (Xr.data_vars x)) ->
  (forall k, In k vars -> In k (Xr.names (Xr.data_vars x))) ->
  (2 <= length vars)%nat ->
  NoDup vars ->
  AbstractProcessor.fillna ds value s
  = (Ok ds,
     {| self := self s;
        store := {| objects := objects (store s);
                    arrays := <[ds := on_variables vars (fill_with value) x]>
                                (arrays (store s));
                    warnings := warnings (store s) |} |}).
Proof.
  intros Hv Hx Hnd Hin Hlen Hvars.
  rewrite (fillna_outcome ds value s vars x Hv Hx Hnd Hin).
  destruct vars as [|a [|b rest]]; [simpl in Hlen; lia|simpl in Hlen; lia|].
  rewrite (bool_decide_eq_true_2 _ Hvars). reflexivity.
Qed.

(** X12.  [fillna] works in place, on two or more distinct variables.  With
    at least two listed variables, all distinct and all among the data
    variables of the array, it returns the array object it was given, now
    holding the data with each NaN of the listed variables replaced by the
    value: no NaN is left in them (for a value other than NaN), and the
    other variables, the coordinates, the processor and every other object
    are untouched.  It raises and changes nothing in these cases: a
    KeyError for a listed name that the array has not (neither as a
    variable nor as a coordinate, and with no dot in it); and, the listed
    names being data variables, a ValueError for an empty list, a
    TypeError for a single variable and a ValueError for a list that names
    a variable twice, all three from the assignment
    [ds[variables] = ...]. *)
Theorem fillna_in_place (ds : loc) (value : Xr.value) (s : State)
    (vars : list string) (x : Xr.Dataset) :
  variables (self s) = Some vars ->
  arrays (store s) !! ds = Some x ->
  NoDup (Xr.names (Xr.data_vars x)) ->
  let filled := on_variables vars (fill_with value) x in
  ((exists k, In k vars /\ ~ In k (Xr.names (Xr.data_vars x))
              /\ ~ In k (Xr.names (Xr.coords x)) /\ dotted k = false) ->
   AbstractProcessor.fillna ds value s = (Raise KeyError, s))
  /\ ((forall k, In k vars -> In k (Xr.names (Xr.data_vars x))) ->
      (vars = [] -> AbstractProcessor.fillna ds value s = (Raise ValueError, s))
      /\ (length vars = 1%nat ->
          AbstractProcessor.fillna ds value s = (Raise TypeError, s))
      /\ ((2 <= length vars)%nat -> ~ NoDup vars ->
          AbstractProcessor.fillna ds value s = (Raise ValueError, s))
      /\ ((2 <= length vars)%nat -> NoDup vars ->
          AbstractProcessor.fillna ds value s
          = (Ok ds,
             {| self := self s;
                store := {| objects := objects (store s);
                            arrays := <[ds := filled]> (arrays (store s));
                            warnings := warnings (store s) |} |})))
  /\ (value <> Xr.NaN ->
      forall k a c, In k vars -> Xr.assoc k (Xr.data_vars filled) = Some a ->
                    In c (Xr.cells a) -> snd c <> Xr.NaN)
  /\ (forall k, ~ In k vars ->
        Xr.assoc k (Xr.data_vars filled) = Xr.assoc k (Xr.data_vars x))
  /\ Xr.coords filled = Xr.coords x
  /\ Xr.names (Xr.data_vars filled) = Xr.names (Xr.data_vars x).
Proof.
  intros Hv Hx Hnd filled. split; [|split; [|split; [|split; [|split]]]].
  - intros (k & Hk & Hmissing & _). unfold AbstractProcessor.fillna. unfold_methods.
    rewrite Hx, Hv, (getitem_raises x vars) by eauto. reflexivity.
  - intros Hin. rewrite (fillna_outcome ds value s vars x Hv Hx Hnd Hin).
    destruct vars as [|a [|b rest]]; cbn [length].
    + repeat split; try reflexivity; intros; try discriminate; lia.
    + repeat split; try reflexivity; intros; try discriminate; lia.
    + split; [discriminate|]. split; [intros; lia|]. split.
      * intros _ Hdup. rewrite (bool_decide_eq_false_2 _ Hdup). reflexivity.
      * intros _ Hvars. rewrite (bool_decide_eq_true_2 _ Hvars). reflexivity.
  - intros Hvalue k a c Hk Ha Hc. subst filled. rewrite assoc_on_variables in Ha.
    destruct (Xr.assoc k (Xr.data_vars x)) as [a0|]; [|discriminate].
    cbn [option_map] in Ha. rewrite (proj2 (mem_In k vars) Hk) in Ha.
    injection Ha as <-. unfold remap in Hc. cbn [Xr.cells] in Hc.
    apply in_map_iff in Hc as ([p v] & <- & _). cbn [fst snd].
    destruct v; cbn [fill_with]; congruence.
  - intros k Hk. subst filled. rewrite assoc_on_variables.
    destruct (Xr.mem k vars) eqn:E; [apply mem_In in E; contradiction|].
    destruct (Xr.assoc k (Xr.data_vars x)); reflexivity.
  - reflexivity.
  - apply names_ds_remap.
Qed.

Lemma fillna_in_place_witness :
  AbstractProcessor.fillna 1%nat (Xr.Fin (-1)%Qc) state_fitted
  = (Ok 1%nat,
     {| self := self state_fitted;
        store := {| objects := objects (store state_fitted);
                    arrays := <[1%nat := on_variables ["prcp"; "streamflow"]
                                           (fill_with (Xr.Fin (-1)%Qc)) ds_test]>
                                (arrays (store state_fitted));
                    warnings := warnings (store state_fitted) |} |}).
Proof.
  destruct (fillna_in_place 1%nat (Xr.Fin (-1)%Qc) state_fitted ["prcp"; "streamflow"]
              ds_test eq_refl eq_refl) as (_ & H & _).
  - apply (bool_decide_eq_true_1 _). vm_compute. reflexivity.
  - destruct H as (_ & _ & _ & H).
    + intros k [<-|[<-|[]]]; cbn; auto.
    + apply H; [cbn; lia|].
      apply (bool_decide_eq_true_1 _). vm_compute. reflexivity.
Defined.

(** A processor with the one variable "prcp": [fillna] raises the
    TypeError of the assignment. *)
Example fillna_one_variable :
  AbstractProcessor.fillna 1%nat (Xr.Fin (-1)%Qc)
    {| self := {| variables := Some ["prcp"]; scaling_params := None |};
       store := store_example |}
  = (Raise TypeError,
     {| self := {| variables := Some ["prcp"]; scaling_params := None |};
        store := store_example |}).
Proof. reflexivity. Qed.

(** X13.  [setna] undoes [fillna].  When the listed variables are two or
    more distinct data variables of the array and none of their values
    equals the fill value, filling the NaN with the value and then setting
    the value to NaN gives the array back: both calls return the array
    object they were given, and afterwards the store and the processor are
    what they were before the two calls. *)
Theorem setna_undoes_fillna (ds : loc) (value : Xr.value) (s : State)
    (vars : list string) (x : Xr.Dataset) :
  variables (self s) = Some vars ->
  arrays (store s) !! ds = Some x ->
  NoDup (Xr.names (Xr.data_vars x)) ->
  (2 <= length vars)%nat ->
  NoDup vars ->
  (forall k, In k vars -> In k (Xr.names (Xr.data_vars x))) ->
  (forall k a c, In k vars -> Xr.assoc k (Xr.data_vars x) = Some a ->
                 In c (Xr.cells a) -> value_ne (snd c) value = true) ->
  let filled := AbstractProcessor.fillna ds value s in
  fst filled = Ok ds
  /\ arrays (store (snd filled)) !! ds = Some (on_variables vars (fill_with value) x)
  /\ setna ds value (snd filled) = (Ok ds, s).
Proof.
  intros Hv Hx Hnd Hlen Hvars Hin Hne filled. subst filled.
  rewrite (fillna_returns ds value s vars x Hv Hx Hnd Hin Hlen Hvars). cbn [fst snd].
  split; [reflexivity|]. cbn [store arrays]. rewrite lookup_insert_eq.
  split; [reflexivity|].
  unfold setna. unfold and_then at 1. unfold get_self at 1. cbn [self]. rewrite Hv.
  unfold and_then at 1.
  rewrite (setna_loop ds value vars _ (on_variables vars (fill_with value) x)).
  - unfold ret. cbn [self store objects arrays warnings]. f_equal.
    rewrite insert_insert_eq, on_variables_on_variables.
    rewrite ds_remap_id.
    + rewrite insert_id by exact Hx. apply state_eta.
    + intros kx c Hkx Hc. cbv zeta.
      destruct (Xr.mem (fst kx) vars) eqn:E; [|reflexivity].
      apply blank_fill. apply (Hne (fst kx) (snd kx) c); [apply mem_In, E| |exact Hc].
      apply assoc_In_NoDup; assumption.
  - cbn [store arrays]. apply lookup_insert_eq.
  - unfold on_variables. rewrite names_ds_remap. exact Hnd.
  - intros k Hk. unfold on_variables. rewrite names_ds_remap. apply Hin, Hk.
Qed.

Lemma setna_undoes_fillna_witness :
  setna 1%nat (Xr.Fin (-1)%Qc)
        (snd (AbstractProcessor.fillna 1%nat (Xr.Fin (-1)%Qc) state_fitted))
  = (Ok 1%nat, state_fitted).
Proof.
  apply (setna_undoes_fillna 1%nat (Xr.Fin (-1)%Qc) state_fitted
           ["prcp"; "streamflow"] ds_test eq_refl eq_refl).
  - apply (bool_decide_eq_true_1 _). vm_compute. reflexivity.
  - cbn. lia.
  - apply (bool_decide_eq_true_1 _). vm_compute. reflexivity.
  - intros k [<-|[<-|[]]]; cbn; auto.
  - intros k a c [<-|[<-|[]]] Ha Hc; injection Ha as <-;
      cbn in Hc; destruct Hc as [<-|[<-|[]]]; reflexivity.
Defined.

(** ** What [process] returns *)

Lemma names_ds_binop (f : Xr.value -> Xr.value -> Xr.value) (a b : Xr.Dataset)
    (k : string) :
  In k (Xr.names (Xr.data_vars (Xr.ds_binop f a b)))
  <-> In k (Xr.names (Xr.data_vars a)) /\ In k (Xr.names (Xr.data_vars b)).
Proof.
  pose proof (assoc_ds_binop f a b k) as H. split.
  - intros Hk. apply mem_In in Hk.
    destruct (assoc_Some_of_mem k _ Hk) as [y Hy]. rewrite Hy in H.
    destruct (in_dec string_dec k (Xr.names (Xr.data_vars a))) as [Ha|Ha];
      [|rewrite (assoc_None_of_not_In k _ Ha) in H; discriminate].
    split; [exact Ha|].
    destruct (in_dec string_dec k (Xr.names (Xr.data_vars b))) as [Hb|Hb];
      [exact Hb|].
    rewrite (assoc_None_of_not_In k _ Hb) in H.
    destruct (Xr.assoc k (Xr.data_vars a)); discriminate.
  - intros [Ha Hb].
    destruct (assoc_Some_of_mem k (Xr.data_vars a)) as [u Hu]; [apply mem_In, Ha|].
    destruct (assoc_Some_of_mem k (Xr.data_vars b)) as [v Hv]; [apply mem_In, Hb|].
    rewrite Hu, Hv in H.
    destruct (in_dec string_dec k (Xr.names (Xr.data_vars (Xr.ds_binop f a b))))
      as [Hk|Hk]; [exact Hk|].
    rewrite (assoc_None_of_not_In k _ Hk) in H. discriminate.
Qed.


Lemma nan_filled_cases (vars : list string) (z : Xr.Dataset) :
  (forall k, In k vars -> In k (Xr.names (Xr.data_vars z))) ->
  match vars with
  | [] => nan_filled vars z = Raise ValueError
  | [_] => nan_filled vars z = Raise TypeError
  | _ => if bool_decide (NoDup vars)
         then exists y, nan_filled vars z = Ok y
         else nan_filled vars z = Raise ValueError
  end.
Proof.
  intros Hin. unfold nan_filled.
  destruct (getitem_returns z vars Hin) as [sel Hsel]. rewrite Hsel. cbn [bind].
  destruct (getitem_Ok _ _ _ Hsel) as [Hnames _].
  assert (Xr.names (Xr.data_vars (Xr.fillna (Xr.Fin (-1)%Qc) sel)) = vars) as Hfilled.
  { rewrite <- Hnames. unfold Xr.fillna, Xr.names. cbn [Xr.data_vars].
    rewrite map_map. reflexivity. }
  unfold Xr.setitem.
  destruct vars as [|a [|b rest]]; [reflexivity|reflexivity|].
  set (vars := a :: b :: rest) in *. unfold Xr.len. rewrite Hfilled.
  destruct (decide (NoDup vars)) as [Hvars|Hvars].
  - rewrite (bool_decide_eq_true_2 _ Hvars).
    rewrite bool_decide_eq_true_2
      by (symmetry; apply length_remove_dups_NoDup, Hvars).
    eauto.
  - rewrite (bool_decide_eq_false_2 _ Hvars).
    rewrite bool_decide_eq_false_2; [reflexivity|].
    intros E. apply Hvars. apply length_remove_dups_NoDup. symmetry. exact E.
Qed.

Lemma nan_filled_returns (vars : list string) (z : Xr.Dataset) :
  (2 <= length vars)%nat ->
  NoDup vars ->
  (forall k, In k vars -> In k (Xr.names (Xr.data_vars z))) ->
  exists y, nan_filled vars z = Ok y.
Proof.
  intros Hlen Hvars Hin. pose proof (nan_filled_cases vars z Hin) as H.
  destruct vars as [|a [|b rest]]; [simpl in Hlen; lia|simpl in Hlen; lia|].
  rewrite (bool_decide_eq_true_2 _ Hvars) in H. exact H.
Qed.

Lemma nan_filled_Ok (vars : list string) (z y : Xr.Dataset) :
  nan_filled vars z = Ok y ->
  (2 <= length vars)%nat /\ NoDup vars
  /\ forall k, In k vars -> In k (Xr.names (Xr.data_vars z)).
Proof.
  intros H.
  assert (forall k, In k vars -> In k (Xr.names (Xr.data_vars z))) as Hin.
  { unfold nan_filled, Xr.getitem in H.
    destruct (forallb _ vars) eqn:E; [|discriminate].
    apply forallb_mem_In, E. }
  pose proof (nan_filled_cases vars z Hin) as Hc.
  destruct vars as [|a [|b rest]]; [congruence|congruence|].
  destruct (decide (NoDup (a :: b :: rest))) as [Hvars|Hvars].
  - split; [cbn [length]; lia|]. split; assumption.
  - rewrite (bool_decide_eq_false_2 _ Hvars) in Hc. congruence.
Qed.



(** ** The range of scaled values *)

Lemma least_of (l : list Xr.value) :
  forallb number_or_nan l = true ->
  match foldr Xr.nanmin Xr.NaN l with
  | Xr.Fin m => In (Xr.Fin m) l /\ forall q, In (Xr.Fin q) l -> (m <= q)%Qc
  | Xr.NaN => forall q, ~ In (Xr.Fin q) l
  | _ => False
  end.
Proof.
  induction l as [|a l IH]; cbn [forallb foldr]; intros H.
  - intros q [].
  - apply andb_prop in H as [Ha Hl]. specialize (IH Hl).
    destruct a as [x| | |]; try discriminate.
    + destruct (foldr Xr.nanmin Xr.NaN l) as [m| | |]; try contradiction.
      * destruct IH as [Hm Hleast]. cbn [Xr.nanmin Xr.leb].
        destruct (x ?= m)%Qc eqn:E.
        -- split; [left; reflexivity|]. apply Qceq_alt in E. subst m.
           intros q [Hq|Hq]; [injection Hq as <-; apply Qcle_refl|apply Hleast, Hq].
        -- split; [left; reflexivity|]. apply Qclt_alt in E.
           intros q [Hq|Hq]; [injection Hq as <-; apply Qcle_refl|].
           apply Qcle_trans with m; [apply Qclt_le_weak, E|apply Hleast, Hq].
        -- split; [right; exact Hm|]. apply Qcgt_alt in E.
           intros q [Hq|Hq]; [injection Hq as <-; apply Qclt_le_weak, E|
                              apply Hleast, Hq].
      * cbn [Xr.nanmin]. split; [left; reflexivity|].
        intros q [Hq|Hq]; [injection Hq as <-; apply Qcle_refl|destruct (IH q Hq)].
    + cbn [Xr.nanmin].
      destruct (foldr Xr.nanmin Xr.NaN l) as [m| | |]; try contradiction.
      * destruct IH as [Hm Hleast]. split; [right; exact Hm|].
        intros q [Hq|Hq]; [discriminate|apply Hleast, Hq].
      * intros q [Hq|Hq]; [discriminate|apply (IH q), Hq].
Qed.

Lemma greatest_of (l : list Xr.value) :
  forallb number_or_nan l = true ->
  match foldr Xr.nanmax Xr.NaN l with
  | Xr.Fin m => In (Xr.Fin m) l /\ forall q, In (Xr.Fin q) l -> (q <= m)%Qc
  | Xr.NaN => forall q, ~ In (Xr.Fin q) l
  | _ => False
  end.
Proof.
  induction l as [|a l IH]; cbn [forallb foldr]; intros H.
  - intros q [].
  - apply andb_prop in H as [Ha Hl]. specialize (IH Hl).
    destruct a as [x| | |]; try discriminate.
    + destruct (foldr Xr.nanmax Xr.NaN l) as [m| | |]; try contradiction.
      * destruct IH as [Hm Hmost]. cbn [Xr.nanmax Xr.leb].
        destruct (x ?= m)%Qc eqn:E.
        -- split; [right; exact Hm|]. apply Qceq_alt in E. subst m.
           intros q [Hq|Hq]; [injection Hq as <-; apply Qcle_refl|apply Hmost, Hq].
        -- split; [right; exact Hm|]. apply Qclt_alt in E.
           intros q [Hq|Hq]; [injection Hq as <-; apply Qclt_le_weak, E|
                              apply Hmost, Hq].
        -- split; [left; reflexivity|]. apply Qcgt_alt in E.
           intros q [Hq|Hq]; [injection Hq as <-; apply Qcle_refl|].
           apply Qcle_trans with m; [apply Hmost, Hq|apply Qclt_le_weak, E].
      * cbn [Xr.nanmax]. split; [left; reflexivity|].
        intros q [Hq|Hq]; [injection Hq as <-; apply Qcle_refl|destruct (IH q Hq)].
    + cbn [Xr.nanmax].
      destruct (foldr Xr.nanmax Xr.NaN l) as [m| | |]; try contradiction.
      * destruct IH as [Hm Hmost]. split; [right; exact Hm|].
        intros q [Hq|Hq]; [discriminate|apply Hmost, Hq].
      * intros q [Hq|Hq]; [discriminate|apply (IH q), Hq].
Qed.

Lemma quotient_in_unit_interval (q m M : Qc) :
  (m <= q)%Qc -> (q <= M)%Qc -> (m < M)%Qc ->
  (0 <= (q + - m) / (M + - m))%Qc /\ ((q + - m) / (M + - m) <= 1)%Qc.
Proof.
  intros Hlo Hhi Hlt.
  assert (0 < M + - m)%Qc as Hd by (apply (proj1 (Qclt_minus_iff m M)), Hlt).
  assert (M + - m <> 0)%Qc as Hd0
    by (intros E; rewrite E in Hd; apply (Qclt_not_eq _ _ Hd); reflexivity).
  assert ((q + - m) / (M + - m) * (M + - m) = q + - m)%Qc as Hr
    by (rewrite Qcmult_comm; apply Qcmult_div_r, Hd0).
  split; apply (Qcmult_lt_0_le_reg_r _ _ (M + - m)%Qc Hd); rewrite Hr.
  - rewrite Qcmult_0_l. apply (proj1 (Qcle_minus_iff m q)), Hlo.
  - rewrite Qcmult_1_l. apply Qcplus_le_compat; [exact Hhi|apply Qcle_refl].
Qed.

Lemma scaled_value (l : list Xr.value) (v : Xr.value) :
  forallb number_or_nan l = true -> In v l ->
  let lo := foldr Xr.nanmin Xr.NaN l in
  let hi := foldr Xr.nanmax Xr.NaN l in
  scaled_into_unit_interval lo hi v (Xr.div (Xr.sub v lo) (Xr.sub hi lo)).
Proof.
  intros Hl Hv lo hi. subst lo hi.
  pose proof (least_of l Hl) as Hlo. pose proof (greatest_of l Hl) as Hhi.
  assert (number_or_nan v = true) as Hnum
    by (rewrite forallb_forall in Hl; apply Hl, Hv).
  destruct (foldr Xr.nanmin Xr.NaN l) as [m| | |]; try contradiction;
    destruct (foldr Xr.nanmax Xr.NaN l) as [M| | |]; try contradiction.
  - destruct Hlo as [Hm Hleast]. destruct Hhi as [HM Hmost].
    split; [intros ->; reflexivity|]. split.
    + intros E. injection E as <-. destruct v as [q| | |]; try discriminate;
        [|reflexivity].
      assert (q = m) as -> by (apply Qcle_antisym; [apply Hmost|apply Hleast]; exact Hv).
      unfold Xr.sub. cbn [Xr.neg Xr.add Xr.div]. rewrite Qcplus_opp_r.
      reflexivity.
    + intros Hne q ->.
      assert (m <= q)%Qc as H1 by (apply Hleast, Hv).
      assert (q <= M)%Qc as H2 by (apply Hmost, Hv).
      assert (m < M)%Qc as H3.
      { destruct (Qc_eq_dec m M) as [E|N]; [congruence|].
        apply Qcle_lt_or_eq in H1 as [H1|<-]; [|apply Qcle_lt_or_eq in H2 as [H2|E]];
          [apply Qclt_le_trans with q; assumption|exact H2|congruence]. }
      destruct (quotient_in_unit_interval q m M H1 H2 H3) as [Hr0 Hr1].
      assert (0 < M + - m)%Qc as Hd by (apply (proj1 (Qclt_minus_iff m M)), H3).
      exists ((q + - m) / (M + - m))%Qc. split.
      * unfold Xr.sub. cbn [Xr.neg Xr.add Xr.div]. unfold Xr.sgn.
        destruct (M + - m ?= 0)%Qc eqn:E; [|reflexivity|reflexivity].
        apply Qceq_alt in E. rewrite E in Hd. destruct (Qclt_not_eq _ _ Hd).
        reflexivity.
      * split; [exact Hr0|]. split; [exact Hr1|]. split.
        -- intros E. injection E as ->. rewrite Qcplus_opp_r.
           unfold Qcdiv. apply Qcmult_0_l.
        -- intros E. injection E as ->. unfold Qcdiv. apply Qcmult_inv_r.
           intros E. rewrite E in Hd. apply (Qclt_not_eq _ _ Hd). reflexivity.
  - destruct Hlo as [Hm _]. destruct (Hhi m Hm).
  - destruct Hhi as [HM _]. destruct (Hlo M HM).
  - split; [intros ->; reflexivity|]. split.
    + intros _. destruct v; reflexivity.
    + intros N. destruct N. reflexivity.
Qed.

Lemma assoc_ds_remap (h : string * Xr.DataArray -> Xr.point -> Xr.value -> Xr.value)
    (x : Xr.Dataset) (k : string) (a : Xr.DataArray) :
  Xr.assoc k (Xr.data_vars x) = Some a ->
  Xr.assoc k (Xr.data_vars (ds_remap h x)) = Some (remap (h (k, a)) a).
Proof.
  unfold ds_remap. cbn [Xr.data_vars].
  induction (Xr.data_vars x) as [|[k' a'] l IH]; [discriminate|].
  cbn [map Xr.assoc fst snd]. destruct (String.eqb_spec k k') as [->|_]; [|exact IH].
  intros H. injection H as ->. reflexivity.
Qed.

(** X14.  In exact arithmetic (the numbers taken as rationals, so without
    the rounding and the overflow of float64 and the wrap-around of int64):
    on a processor without scaling parameters, [scale] brings every
    variable of numbers into the unit interval: with [lo] and [hi] the
    least and the greatest number of the variable, every number becomes a
    number between 0 and 1, [lo] becomes 0 and [hi] becomes 1, and NaN
    stays NaN.  A variable whose numbers are all the same (or that has
    none) becomes NaN everywhere. *)
Theorem scale_into_unit_interval (ds : loc) (s : State) (x : Xr.Dataset) :
  arrays (store s) !! ds = Some x ->
  scaling_params (self s) = None ->
  well_formed x ->
  exists l y,
    fst (AbstractProcessor.scale ds s) = Ok l
    /\ arrays (store (snd (AbstractProcessor.scale ds s))) !! l = Some y
    /\ forall k a,
         Xr.assoc k (Xr.data_vars x) = Some a ->
         (forall c, In c (Xr.cells a) -> number_or_nan (snd c) = true) ->
         exists g,
           Xr.assoc k (Xr.data_vars y) = Some (remap (fun _ v => g v) a)
           /\ forall c, In c (Xr.cells a) ->
                scaled_into_unit_interval (extreme Xr.nanmin a) (extreme Xr.nanmax a)
                  (snd c) (g (snd c)).
Proof.
  intros Hx Hp Hwf. rewrite (scale_returns ds s x Hx), Hp. cbn [fst snd store arrays].
  eexists _, _. split; [reflexivity|]. split; [apply lookup_insert_eq|].
  intros k a Ha Hnum. rewrite (scaled_with_own_extremes x Hwf).
  eexists. split; [rewrite (assoc_ds_remap _ x k a Ha); cbn [snd]; reflexivity|].
  intros c Hc. cbv beta. unfold extreme. apply scaled_value.
  - apply forallb_forall. intros v Hv. apply in_map_iff in Hv as (c' & <- & Hc').
    apply Hnum, Hc'.
  - apply in_map, Hc.
Qed.

Lemma scale_into_unit_interval_witness :
  exists l y,
    fst (AbstractProcessor.scale 0%nat state_new) = Ok l
    /\ arrays (store (snd (AbstractProcessor.scale 0%nat state_new))) !! l = Some y
    /\ forall k a,
         Xr.assoc k (Xr.data_vars ds_train) = Some a ->
         (forall c, In c (Xr.cells a) -> number_or_nan (snd c) = true) ->
         exists g,
           Xr.assoc k (Xr.data_vars y) = Some (remap (fun _ v => g v) a)
           /\ forall c, In c (Xr.cells a) ->
                scaled_into_unit_interval (extreme Xr.nanmin a) (extreme Xr.nanmax a)
                  (snd c) (g (snd c)).
Proof.
  apply (scale_into_unit_interval 0%nat state_new ds_train eq_refl eq_refl). split.
  - apply (bool_decide_eq_true_1 (NoDup (Xr.names (Xr.data_vars ds_train)))).
    vm_compute. reflexivity.
  - intros kx [<-|[<-|[]]]; vm_compute; reflexivity.
Defined.

(** ** Processors that cannot process *)

Lemma fitted_params_of_coords (x : Xr.Dataset) :
  In "basin" (Xr.names (Xr.coords x)) -> In "time" (Xr.names (Xr.coords x)) ->
  exists p, fitted_params x = Ok p.
Proof.
  intros Hb Ht. unfold fitted_params.
  destruct (forallb _ ["basin"; "time"; "y"; "x"]); [eauto|].
  rewrite (proj2 (forallb_mem_In ["basin"; "time"] _)); [eauto|].
  intros i [<-|[<-|[]]]; assumption.
Qed.

Lemma process_without_variables (ds : loc) (s : State) (p : Xr.Dataset * Xr.Dataset)
    (o : HydroDataset) (x : Xr.Dataset) :
  variables (self s) = None ->
  scaling_params (self s) = Some p ->
  objects (store s) !! ds = Some o ->
  arrays (store s) !! timeseries o = Some x ->
  fst (DefaultDatasetProcessor.process ds s) = Raise KeyError
  /\ self (snd (DefaultDatasetProcessor.process ds s)) = self s
  /\ objects (store (snd (DefaultDatasetProcessor.process ds s))) !! ds = Some o
  /\ arrays (store (snd (DefaultDatasetProcessor.process ds s))) !! timeseries o
     = Some x.
Proof.
  intros Hv Hp Ho Hx. rewrite (process_with_params ds s p o x Hp Ho Hx), Hv.
  cbn [fst snd self store objects arrays].
  split; [reflexivity|]. split; [reflexivity|].
  split; apply insert_fresh_keeps; assumption.
Qed.

(** X15.  A processor constructed without variables cannot process.  When
    it has no scaling parameters either and the timeseries has a basin and
    a time coordinate, [process] fits the parameters and stores them, but
    not the variables (only [fit] sets them), and then raises a KeyError
    where the NaN are filled; every later call of [process] on the dataset
    raises the KeyError again.  Whatever the parameters, [process] never
    returns while the variables are missing. *)
Theorem process_without_variables_raises (ds : loc) (s : State) (o : HydroDataset)
    (x : Xr.Dataset) :
  variables (self s) = None ->
  objects (store s) !! ds = Some o ->
  arrays (store s) !! timeseries o = Some x ->
  let r := fst (DefaultDatasetProcessor.process ds s) in
  let s' := snd (DefaultDatasetProcessor.process ds s) in
  (forall l, r <> Ok l)
  /\ (forall p, scaling_params (self s) = Some p -> r = Raise KeyError /\ self s' = self s)
  /\ (scaling_params (self s) = None ->
      In "basin" (Xr.names (Xr.coords x)) -> In "time" (Xr.names (Xr.coords x)) ->
      r = Raise KeyError
      /\ variables (self s') = None
      /\ (exists p, fitted_params x = Ok p /\ scaling_params (self s') = Some p)
      /\ fst (DefaultDatasetProcessor.process ds s') = Raise KeyError).
Proof.
  intros Hv Ho Hx r s'. subst r s'.
  destruct (scaling_params (self s)) as [p|] eqn:Hp.
  - destruct (process_without_variables ds s p o x Hv Hp Ho Hx) as (Hr & Hs & _).
    split; [intros l; rewrite Hr; discriminate|].
    split; [intros p' _; auto|discriminate].
  - rewrite (process_without_params ds s o x Hp Ho Hx).
    destruct (fitted_params x) as [p|e] eqn:Hfit.
    + match goal with
      | |- context [DefaultDatasetProcessor.process ds ?st] => set (s1 := st)
      end.
      destruct (process_without_variables ds s1 p o x Hv eq_refl Ho Hx)
        as (Hr & Hs & Ho' & Hx').
      split; [intros l; rewrite Hr; discriminate|].
      split; [discriminate|]. intros _ _ _.
      split; [exact Hr|]. rewrite Hs. cbn [self variables scaling_params].
      split; [exact Hv|]. split; [eauto|].
      apply (process_without_variables ds _ p o x); [rewrite Hs; exact Hv|
        rewrite Hs; reflexivity|exact Ho'|exact Hx'].
    + cbn [fst snd]. split; [discriminate|]. split; [discriminate|].
      intros _ Hb Ht. destruct (fitted_params_of_coords x Hb Ht) as [p Hp'].
      congruence.
Qed.

Lemma process_without_variables_raises_witness :
  fst (DefaultDatasetProcessor.process 0%nat state_new) = Raise KeyError
  /\ fst (DefaultDatasetProcessor.process 0%nat
            (snd (DefaultDatasetProcessor.process 0%nat state_new)))
     = Raise KeyError.
Proof.
  destruct (process_without_variables_raises 0%nat state_new (hydro 0%nat) ds_train
              eq_refl eq_refl eq_refl) as (_ & _ & H).
  destruct H as (H1 & _ & _ & H2); [reflexivity|left; reflexivity|
                                    right; left; reflexivity|].
  split; [exact H1|exact H2].
Defined.

(** ** Fitting on one dataset, processing another *)

Lemma names_ds_reduce pick dim (x : Xr.Dataset) :
  Xr.names (Xr.data_vars (Xr.ds_reduce pick dim x)) = Xr.names (Xr.data_vars x).
Proof.
  unfold Xr.ds_reduce, Xr.names. cbn [Xr.data_vars]. rewrite map_map. reflexivity.
Qed.

Lemma names_scaled_with_fitted (x1 x2 : Xr.Dataset) (p : Xr.Dataset * Xr.Dataset)
    (k : string) :
  fitted_params x1 = Ok p ->
  In k (Xr.names (Xr.data_vars (scaled_with p x2)))
  <-> In k (Xr.names (Xr.data_vars x2)) /\ In k (Xr.names (Xr.data_vars x1)).
Proof.
  intros Hp. unfold scaled_with, Xr.ds_div, Xr.ds_sub. rewrite !names_ds_binop.
  assert (Xr.names (Xr.data_vars (fst p)) = Xr.names (Xr.data_vars x1)
          /\ Xr.names (Xr.data_vars (snd p)) = Xr.names (Xr.data_vars x1)) as [-> ->].
  { unfold fitted_params in Hp.
    destruct (forallb _ ["basin"; "time"; "y"; "x"]);
      [|destruct (forallb _ ["basin"; "time"]); [|discriminate]];
      injection Hp as <-; cbn [fst snd]; unfold Xr.min, Xr.max;
      rewrite !names_ds_reduce; split; reflexivity. }
  tauto.
Qed.

(** X16.  After [fit] returned on a training dataset, [process] on any
    dataset fills the NaN of the feature columns of the training dataset
    (not of the dataset processed).  It returns exactly when the training
    dataset has two or more feature columns, all distinct, each a data
    variable both of the training timeseries and of the timeseries
    processed.  With every feature column such a data variable, it raises
    a ValueError for no feature column, a TypeError for a single one and a
    ValueError for a column named twice; it raises a KeyError for a
    feature column that is not such a data variable (nor a coordinate of
    either timeseries, nor a name with a dot). *)
Theorem process_after_fit (train other : loc) (s s1 : State) (o1 o2 : HydroDataset)
    (x1 x2 : Xr.Dataset) :
  objects (store s) !! train = Some o1 ->
  arrays (store s) !! timeseries o1 = Some x1 ->
  objects (store s) !! other = Some o2 ->
  arrays (store s) !! timeseries o2 = Some x2 ->
  DefaultDatasetProcessor.fit train s = (Ok tt, s1) ->
  let r := fst (DefaultDatasetProcessor.process other s1) in
  let present k :=
    In k (Xr.names (Xr.data_vars x1)) /\ In k (Xr.names (Xr.data_vars x2)) in
  variables (self s1) = Some (feature_cols o1)
  /\ (((2 <= length (feature_cols o1))%nat
       /\ NoDup (feature_cols o1)
       /\ forall k, In k (feature_cols o1) -> present k)
      <-> exists l, r = Ok l)
  /\ ((forall k, In k (feature_cols o1) -> present k) ->
      (feature_cols o1 = [] -> r = Raise ValueError)
      /\ (length (feature_cols o1) = 1%nat -> r = Raise TypeError)
      /\ ((2 <= length (feature_cols o1))%nat -> ~ NoDup (feature_cols o1) ->
          r = Raise ValueError))
  /\ ((exists k, In k (feature_cols o1)
                 /\ ~ present k
                 /\ ~ In k (Xr.names (Xr.coords x1))
                 /\ ~ In k (Xr.names (Xr.coords x2))
                 /\ dotted k = false)
      -> r = Raise KeyError).
Proof.
  intros Ho1 Hx1 Ho2 Hx2 Hfit r present. subst r.
  unfold DefaultDatasetProcessor.fit in Hfit. unfold and_then at 1 in Hfit.
  rewrite (fit_scaling_params_fitted train s o1 x1 Ho1 Hx1) in Hfit.
  destruct (fitted_params x1) as [p|e] eqn:Hp; [|discriminate].
  unfold and_then, read_object, set_variables in Hfit.
  cbn [store self objects variables scaling_params] in Hfit. rewrite Ho1 in Hfit.
  injection Hfit as <-. cbn [self variables].
  split; [reflexivity|].
  match goal with
  | |- context [DefaultDatasetProcessor.process other ?st] => set (s1 := st)
  end.
  rewrite (process_with_params other s1 p o2 x2 eq_refl Ho2 Hx2).
  cbn [s1 self variables].
  set (z := scaled_with p x2). set (fc := feature_cols o1).
  assert (forall k, In k (Xr.names (Xr.data_vars z)) <-> present k) as Hz.
  { intros k. unfold z, present.
    rewrite (names_scaled_with_fitted x1 x2 p k Hp). tauto. }
  split; [split|split].
  - intros (Hlen & Hnd & Hin).
    destruct (nan_filled_returns fc z Hlen Hnd) as [y Hy].
    + intros k Hk. apply Hz, Hin, Hk.
    + rewrite Hy. cbn [fst]. eauto.
  - destruct (nan_filled fc z) as [y|e] eqn:E; [|intros [l Hl]; discriminate].
    intros _. apply nan_filled_Ok in E as (Hlen & Hnd & Hin).
    split; [exact Hlen|]. split; [exact Hnd|]. intros k Hk. apply Hz, Hin, Hk.
  - intros Hin.
    assert (forall k, In k fc -> In k (Xr.names (Xr.data_vars z))) as Hin'
      by (intros k Hk; apply Hz, Hin, Hk).
    pose proof (nan_filled_cases fc z Hin') as Hc.
    destruct fc as [|a [|b rest]]; cbn [length].
    + rewrite Hc. repeat split; try reflexivity; intros; try discriminate; lia.
    + rewrite Hc. repeat split; try reflexivity; intros; try discriminate; lia.
    + split; [discriminate|]. split; [intros; lia|].
      intros _ Hdup. rewrite (bool_decide_eq_false_2 _ Hdup) in Hc.
      rewrite Hc. reflexivity.
  - intros (k & Hk & Hn & _).
    assert (nan_filled fc z = Raise KeyError) as ->; [|reflexivity].
    unfold nan_filled. rewrite (getitem_raises z fc); [reflexivity|].
    exists k. split; [exact Hk|]. intros Hin. apply Hn, Hz, Hin.
Qed.

Lemma process_after_fit_witness :
  exists l,
    fst (DefaultDatasetProcessor.process 1%nat
           (snd (DefaultDatasetProcessor.fit 0%nat state_new))) = Ok l.
Proof.
  destruct (process_after_fit 0%nat 1%nat state_new
              (snd (DefaultDatasetProcessor.fit 0%nat state_new))
              (hydro 0%nat) (hydro 1%nat) ds_train ds_test
              eq_refl eq_refl eq_refl eq_refl eq_refl) as (_ & H & _).
  apply H. split; [cbn; lia|]. split.
  - apply (bool_decide_eq_true_1 _). vm_compute. reflexivity.
  - intros k [<-|[<-|[]]]; split; vm_compute; auto.
Defined.

(** X17.  [rescale] needs stored parameters, [scale] does not.  On a
    processor without scaling parameters [rescale] raises a TypeError and
    changes nothing, while [scale] returns a new array, which this processor
    then cannot rescale: the round trip exists only for a processor that has
    parameters. *)
Theorem rescale_requires_fit (ds : loc) (s : State) (x : Xr.Dataset) :
  arrays (store s) !! ds = Some x ->
  scaling_params (self s) = None ->
  AbstractProcessor.rescale ds s = (Raise TypeError, s)
  /\ exists l s1,
       AbstractProcessor.scale ds s = (Ok l, s1)
       /\ self s1 = self s
       /\ AbstractProcessor.rescale l s1 = (Raise TypeError, s1).
Proof.
  intros Hx Hp. split.
  - unfold AbstractProcessor.rescale. unfold_methods. rewrite Hx, Hp. reflexivity.
  - rewrite (scale_returns ds s x Hx). eexists _, _. split; [reflexivity|].
    split; [reflexivity|].
    unfold AbstractProcessor.rescale. unfold_methods. run_method. rewrite Hp.
    reflexivity.
Qed.

Lemma rescale_requires_fit_witness :
  AbstractProcessor.rescale 0%nat state_new = (Raise TypeError, state_new).
Proof.
  apply (rescale_requires_fit 0%nat state_new ds_train eq_refl eq_refl).
Defined.

(** ** Preparing the coordinates of loaded forcings *)

Lemma names_filter_fst {A : Type} (P : string -> bool) (l : list (string * A)) :
  Xr.names (List.filter (fun c : string * A => P (fst c)) l)
  = List.filter P (Xr.names l).
Proof.
  unfold Xr.names. induction l as [|[k a] l IH]; [reflexivity|].
  cbn [List.filter map fst]. destruct (P k); cbn [map fst]; rewrite IH; reflexivity.
Qed.

Lemma assoc_filter_fst {A : Type} (P : string -> bool) (l : list (string * A))
    (k : string) :
  Xr.assoc k (List.filter (fun c : string * A => P (fst c)) l)
  = if P k then Xr.assoc k l else None.
Proof.
  induction l as [|[k' a] l IH]; [destruct (P k); reflexivity|].
  cbn [List.filter fst]. destruct (P k') eqn:E'; cbn [Xr.assoc].
  - destruct (String.eqb_spec k k') as [->|_]; [rewrite E'; reflexivity|exact IH].
  - destruct (String.eqb_spec k k') as [->|_]; [rewrite IH, E'; reflexivity|exact IH].
Qed.

(** Dropping coordinates other than [keep]. *)
Lemma drop_other_coords (keep : list string) (xds : Xr.Dataset) :
  (forall k, In k (Xr.names (Xr.data_vars xds)) -> ~ In k (Xr.names (Xr.coords xds))) ->
  let diffs := List.filter (fun c => negb (Xr.mem c keep))
                           (remove_dups (Xr.names (Xr.coords xds))) in
  exists r,
    drop_vars diffs xds = Ok r
    /\ Xr.names (Xr.coords r)
       = List.filter (fun d => Xr.mem d keep) (Xr.names (Xr.coords xds))
    /\ (forall d, Xr.assoc d (Xr.coords r)
                  = if Xr.mem d keep then Xr.assoc d (Xr.coords xds) else None)
    /\ Forall2 (fun a b : string * Xr.DataArray =>
                  fst b = fst a /\ Xr.dims (snd b) = Xr.dims (snd a)
                  /\ map snd (Xr.cells (snd b)) = map snd (Xr.cells (snd a)))
               (Xr.data_vars xds) (Xr.data_vars r).
Proof.
  intros Hdisjoint diffs.
  assert (forall k, Xr.mem k diffs = true
                    <-> In k (Xr.names (Xr.coords xds)) /\ Xr.mem k keep = false)
    as Hdiffs.
  { intros k. unfold diffs. rewrite mem_In, filter_In, negb_true_iff.
    rewrite <- list_elem_of_In, elem_of_remove_dups, list_elem_of_In. reflexivity. }
  unfold drop_vars.
  rewrite (proj2 (forallb_forall _ diffs)).
  - eexists. split; [reflexivity|]. cbn [Xr.coords Xr.data_vars].
    assert (forall k, In k (Xr.names (Xr.coords xds)) ->
                      negb (Xr.mem k diffs) = Xr.mem k keep) as Hkeep.
    { intros k Hk. destruct (Xr.mem k diffs) eqn:E.
      - apply Hdiffs in E as [_ ->]. reflexivity.
      - destruct (Xr.mem k keep) eqn:E'; [reflexivity|].
        rewrite (proj2 (Hdiffs k)) in E by auto. discriminate. }
    split; [|split].
    + rewrite (names_filter_fst (fun k => negb (Xr.mem k diffs))).
      apply filter_ext_in_iff. intros k Hk. apply Hkeep, Hk.
    + intros d.
      rewrite (assoc_filter_fst (fun k => negb (Xr.mem k diffs))).
      destruct (in_dec string_dec d (Xr.names (Xr.coords xds))) as [Hd|Hd].
      * rewrite (Hkeep d Hd). reflexivity.
      * rewrite (assoc_None_of_not_In d _ Hd).
        destruct (negb _), (Xr.mem d keep); reflexivity.
    + rewrite filter_all.
      * apply Forall2_fmap_r, Forall_Forall2_diag, Forall_forall.
        intros kx _. cbn [fst snd Xr.dims Xr.cells].
        split; [reflexivity|]. split; [reflexivity|].
        cbn [snd Xr.cells]. rewrite map_map. reflexivity.
      * apply forallb_forall. intros kx Hkx.
        destruct (Xr.mem (fst kx) diffs) eqn:E; [|reflexivity].
        apply Hdiffs in E as [E _]. exfalso.
        apply (Hdisjoint (fst kx)); [apply in_map, Hkx|exact E].
  - intros k Hk. apply orb_true_iff. left. apply mem_In.
    apply (proj1 (Hdiffs k)). apply mem_In, Hk.
Qed.

(** X18.  [check_and_prepare_coordinates] raises a ValueError exactly when
    the dataset has no time coordinate.  Otherwise it returns the dataset
    with the coordinates time, y and x when it has all three, and with the
    time coordinate alone when y or x is missing (a lone y or x is then
    dropped, as is every other coordinate, basin included).  The
    coordinates kept keep their labels; the data variables keep their
    names, dimensions and values. *)
Theorem check_and_prepare_coordinates_keeps (xds : Xr.Dataset) :
  (forall k, In k (Xr.names (Xr.data_vars xds)) -> ~ In k (Xr.names (Xr.coords xds))) ->
  let names := Xr.names (Xr.coords xds) in
  let out := check_and_prepare_coordinates xds in
  (out = Raise ValueError <-> ~ In "time" names)
  /\ (In "time" names ->
      exists r,
        out = Ok r
        /\ (In "y" names /\ In "x" names ->
            forall d, In d (Xr.names (Xr.coords r))
                      <-> In d names /\ (d = "time" \/ d = "y" \/ d = "x"))
        /\ (~ (In "y" names /\ In "x" names) ->
            forall d, In d (Xr.names (Xr.coords r)) <-> d = "time")
        /\ (forall d, In d (Xr.names (Xr.coords r)) ->
                      Xr.assoc d (Xr.coords r) = Xr.assoc d (Xr.coords xds))
        /\ Forall2 (fun a b : string * Xr.DataArray =>
                      fst b = fst a /\ Xr.dims (snd b) = Xr.dims (snd a)
                      /\ map snd (Xr.cells (snd b)) = map snd (Xr.cells (snd a)))
                   (Xr.data_vars xds) (Xr.data_vars r)).
Proof.
  intros Hdisjoint names out. subst out. unfold check_and_prepare_coordinates.
  cbv zeta. fold names.
  assert (forall keep r,
             Xr.names (Xr.coords r) = List.filter (fun d => Xr.mem d keep) names ->
             (forall d, Xr.assoc d (Xr.coords r)
                        = if Xr.mem d keep then Xr.assoc d (Xr.coords xds) else None) ->
             (forall d, In d (Xr.names (Xr.coords r)) <-> In d names /\ In d keep)
             /\ (forall d, In d (Xr.names (Xr.coords r)) ->
                           Xr.assoc d (Xr.coords r) = Xr.assoc d (Xr.coords xds)))
    as Hkept.
  { intros keep r Hn Ha. split.
    - intros d. rewrite Hn, filter_In, mem_In. reflexivity.
    - intros d Hd. rewrite Hn in Hd. apply filter_In in Hd as [_ Hd].
      rewrite Ha, Hd. reflexivity. }
  destruct (forallb _ ["time"; "y"; "x"]) eqn:E3.
  - pose proof (proj1 (forallb_mem_In _ _) E3) as H3.
    destruct (drop_other_coords ["time"; "y"; "x"] xds Hdisjoint)
      as (r & Hr & Hn & Ha & Hv).
    cbv zeta in Hr. fold names in Hr. rewrite Hr.
    destruct (Hkept _ r Hn Ha) as [Hin Hsame].
    split; [split; [discriminate|]|].
    + intros N. exfalso. apply N, H3. left. reflexivity.
    + intros _. exists r. split; [reflexivity|]. split; [|split; [|split]].
      * intros _ d. rewrite Hin. cbn [In]. intuition congruence.
      * intros N. exfalso. apply N. split; apply H3; cbn; auto.
      * exact Hsame.
      * exact Hv.
  - destruct (forallb _ ["time"]) eqn:E1.
    + pose proof (proj1 (forallb_mem_In _ _) E1) as H1.
      destruct (drop_other_coords ["time"] xds Hdisjoint) as (r & Hr & Hn & Ha & Hv).
      cbv zeta in Hr. fold names in Hr. rewrite Hr.
      destruct (Hkept _ r Hn Ha) as [Hin Hsame].
      assert (In "time" names) as Ht by (apply H1; left; reflexivity).
      split; [split; [discriminate|contradiction]|].
      intros _. exists r. split; [reflexivity|]. split; [|split; [|split]].
      * intros [Hy Hx]. exfalso.
        assert (forallb (fun i => Xr.mem i names) ["time"; "y"; "x"] = true) as E;
          [|fold names in E3; congruence].
        apply forallb_mem_In. intros i [<-|[<-|[<-|[]]]]; assumption.
      * intros _ d. rewrite Hin. cbn [In]. split.
        -- intros [_ [<-|[]]]. reflexivity.
        -- intros ->. auto.
      * exact Hsame.
      * exact Hv.
    + split; [split; [|reflexivity]|].
      * intros _ Ht.
        assert (forallb (fun i => Xr.mem i names) ["time"] = true) as E;
          [|fold names in E1; congruence].
        apply forallb_mem_In. intros i [<-|[]]. exact Ht.
      * intros Ht. exfalso.
        assert (forallb (fun i => Xr.mem i names) ["time"] = true) as E;
          [|fold names in E1; congruence].
        apply forallb_mem_In. intros i [<-|[]]. exact Ht.
Qed.

Lemma check_and_prepare_coordinates_keeps_witness :
  (exists r, check_and_prepare_coordinates ds_grid = Ok r
             /\ forall d, In d (Xr.names (Xr.coords r))
                          <-> In d (Xr.names (Xr.coords ds_grid))
                              /\ (d = "time" \/ d = "y" \/ d = "x"))
  /\ check_and_prepare_coordinates ds_no_time = Raise ValueError.
Proof.
  split.
  - destruct (check_and_prepare_coordinates_keeps ds_grid) as [_ H].
    + intros k [<-|[]]. cbn. intuition discriminate.
    + destruct H as (r & Hr & H3 & _); [cbn; auto|].
      exists r. split; [exact Hr|]. apply H3. cbn. auto.
  - apply (proj1 (check_and_prepare_coordinates_keeps ds_no_time
                    ltac:(intros k [<-|[]]; cbn; intuition discriminate))).
    cbn. intuition discriminate.
Defined.

(** ** How merging fails *)

Lemma rename_suffix_Ok_free (suffix : string) (vars : list string) (ds r : Xr.Dataset) :
  Xr.rename_suffix suffix vars ds = Ok r ->
  forall k, In k vars -> ~ In (k +:+ suffix) (Xr.names (Xr.coords ds)).
Proof.
  unfold Xr.rename_suffix. destruct (existsb _ vars) eqn:E; [discriminate|].
  intros _ k Hk Hin.
  assert (existsb (fun k => Xr.mem (k +:+ suffix) (Xr.names (Xr.coords ds))) vars = true)
    as E'; [|congruence].
  apply existsb_exists. exists k. split; [exact Hk|apply mem_In, Hin].
Qed.

(** X19.  What [merge_observations_and_predictions] raises, in the order in
    which it meets the defects.  With [timeframe] the dataset whose time
    range is used (the prediction, or the observation when
    [use_pred_timeframe] is false): an AttributeError when [timeframe] has
    no time coordinate; an IndexError when its time index is empty;
    otherwise a KeyError when the observation lacks a variable of the
    prediction, or has all of them but no time coordinate.  Whenever the
    merge returns, none of these defects is there and no new name is the
    name of a coordinate. *)
Theorem merge_failures (ds_observation ds_prediction : Xr.Dataset)
    (use_pred_timeframe : bool) :
  let variables := Xr.names (Xr.data_vars ds_prediction) in
  let timeframe := if use_pred_timeframe then ds_prediction else ds_observation in
  let merged := merge_observations_and_predictions ds_observation ds_prediction
                  use_pred_timeframe in
  (Xr.assoc "time" (Xr.coords timeframe) = None -> merged = Raise AttributeError)
  /\ (Xr.assoc "time" (Xr.coords timeframe) = Some [] -> merged = Raise IndexError)
  /\ (forall ts, Xr.assoc "time" (Xr.coords timeframe) = Some ts -> ts <> [] ->
        ((exists k, In k variables /\ ~ In k (Xr.names (Xr.data_vars ds_observation)))
         -> merged = Raise KeyError)
        /\ ((forall k, In k variables -> In k (Xr.names (Xr.data_vars ds_observation)))
            -> Xr.assoc "time" (Xr.coords ds_observation) = None
            -> merged = Raise KeyError))
  /\ (forall r, merged = Ok r ->
        (exists ts, Xr.assoc "time" (Xr.coords timeframe) = Some ts /\ ts <> [])
        /\ (exists ts, Xr.assoc "time" (Xr.coords ds_observation) = Some ts)
        /\ (forall k, In k variables ->
              In k (Xr.names (Xr.data_vars ds_observation))
              /\ ~ In (k +:+ "_obs") (Xr.names (Xr.coords ds_observation))
              /\ ~ In (k +:+ "_pred") (Xr.names (Xr.coords ds_prediction)))).
Proof.
  intros variables timeframe merged. subst merged.
  unfold merge_observations_and_predictions. fold variables.
  replace (if use_pred_timeframe then first_and_last ds_prediction
           else first_and_last ds_observation)
    with (first_and_last timeframe) by (destruct use_pred_timeframe; reflexivity).
  split; [|split; [|split]].
  - intros E. unfold first_and_last. rewrite E. reflexivity.
  - intros E. unfold first_and_last. rewrite E. reflexivity.
  - intros ts E Hne.
    destruct (first_and_last_returns timeframe ts E Hne) as [[s e] ->]. cbn [bind].
    split.
    + intros Hmissing. rewrite (getitem_raises _ _ Hmissing). reflexivity.
    + intros Hall Hnone. destruct (getitem_returns _ _ Hall) as [o1 Ho1].
      rewrite Ho1. cbn [bind]. destruct (getitem_Ok _ _ _ Ho1) as [_ Hc].
      unfold Xr.sel_slice. rewrite Hc, Hnone. reflexivity.
  - intros r.
    destruct (first_and_last timeframe) as [[s e]|err] eqn:Hdates; [|discriminate].
    cbn [bind].
    destruct (Xr.getitem ds_observation variables) as [o1|err] eqn:H1; [|discriminate].
    destruct (getitem_Ok _ _ _ H1) as [Hn1 Hc1]. cbn [bind].
    destruct (Xr.sel_slice "time" s e o1) as [o2|err] eqn:H2; [|discriminate].
    destruct (sel_slice_Ok _ _ _ _ _ H2) as (Hn2 & Hcn2 & Ht2). cbn [bind].
    destruct (Xr.rename_suffix "_obs" variables o2) as [o3|err] eqn:H3; [|discriminate].
    cbn [bind].
    destruct (Xr.rename_suffix "_pred" variables ds_prediction) as [p1|err] eqn:H4;
      [|discriminate].
    intros _. split; [exact (first_and_last_Ok _ _ Hdates)|]. split.
    + unfold Xr.sel_slice in H2. rewrite Hc1 in H2.
      destruct (Xr.assoc "time" (Xr.coords ds_observation)) as [ts|]; [eauto|discriminate].
    + intros k Hk. split; [|split].
      * unfold Xr.getitem in H1.
        destruct (forallb _ variables) eqn:Hall; [|discriminate].
        apply (proj1 (forallb_mem_In _ _) Hall), Hk.
      * pose proof (rename_suffix_Ok_free _ _ _ _ H3 k Hk) as Hfree.
        unfold Xr.sel_slice in H2.
        destruct (Xr.assoc "time" (Xr.coords o1)); [|discriminate].
        injection H2 as <-. cbn [Xr.coords] in Hfree. rewrite <- Hc1.
        intros Hin. apply Hfree. unfold Xr.names in *. rewrite map_map. exact Hin.
      * exact (rename_suffix_Ok_free _ _ _ _ H4 k Hk).
Qed.

Lemma merge_failures_witness :
  merge_observations_and_predictions ds_no_time ds_prediction false
  = Raise AttributeError
  /\ merge_observations_and_predictions ds_no_time ds_prediction true
     = Raise KeyError.
Proof.
  split.
  - apply (proj1 (merge_failures ds_no_time ds_prediction false)). reflexivity.
  - destruct (proj1 (proj2 (proj2 (merge_failures ds_no_time ds_prediction true)))
                [Xr.LInt 3; Xr.LInt 4] eq_refl ltac:(discriminate)) as [H _].
    apply H. exists "streamflow". split; [left; reflexivity|].
    cbn. intuition discriminate.
Defined.

(** ** The dates of predictions *)

Lemma find_filter {A : Type} (P Q : A -> bool) (l : list A) :
  (forall a, In a l -> P a = true -> Q a = true) ->
  List.find P (List.filter Q l) = List.find P l.
Proof.
  induction l as [|a l IH]; intros H; [reflexivity|]. cbn [List.filter List.find].
  destruct (Q a) eqn:Eq.
  - cbn [List.find]. destruct (P a); [reflexivity|].
    apply IH. intros a' Ha'. apply H. right. exact Ha'.
  - destruct (P a) eqn:Ep.
    + rewrite (H a) in Eq by (auto; left; reflexivity). discriminate.
    + apply IH. intros a' Ha'. apply H. right. exact Ha'.
Qed.

Lemma sel_slice_var (d : string) (start stop : Xr.label) (ds r : Xr.Dataset)
    (k : string) :
  Xr.sel_slice d start stop ds = Ok r ->
  Xr.assoc k (Xr.data_vars r)
  = option_map
      (fun a => {| Xr.dims := Xr.dims a;
                   Xr.cells :=
                     List.filter
                       (fun c : Xr.point * Xr.value =>
                          match Xr.assoc d (fst c) with
                          | Some l => Xr.label_leb start l && Xr.label_leb l stop
                          | None => true
                          end) (Xr.cells a) |})
      (Xr.assoc k (Xr.data_vars ds)).
Proof.
  unfold Xr.sel_slice. destruct (Xr.assoc d (Xr.coords ds)); [|discriminate].
  intros H. injection H as <-. cbn [Xr.data_vars].
  induction (Xr.data_vars ds) as [|[k' a] vs IH]; [reflexivity|].
  cbn [map Xr.assoc fst snd]. destruct (String.eqb k k'); [reflexivity|exact IH].
Qed.

Lemma sel_slice_returns (d : string) (start stop : Xr.label) (ds : Xr.Dataset)
    (ls : list Xr.label) :
  Xr.assoc d (Xr.coords ds) = Some ls ->
  exists r, Xr.sel_slice d start stop ds = Ok r.
Proof. intros H. unfold Xr.sel_slice. rewrite H. eauto. Qed.

Lemma timesteps_days (self : Model) (n : Z) :
  timesteps (_config self) = PInt n
  \/ (exists rest, timesteps (_config self) = PList (PInt n :: rest)) ->
  bind (if isinstance_int (timesteps (_config self))
        then Ok (timesteps (_config self))
        else (timesteps (_config self)).[PInt 0]) timedelta64
  = Ok n.
Proof. intros [->|[rest ->]]; reflexivity. Qed.

(** X20.  [prediction_to_dataset] dates the predictions with the time
    labels of the input timeseries from the first target date,
    [start_date + timesteps + offset - 1], to [end_date]: the k-th
    prediction gets the k-th of these labels, under the name of the target
    column and the one basin label.  It returns exactly when the
    predictions have a first column and as many rows as there are such
    labels (the labels where the target is a number for the basin, when NaN
    are removed); a different number of rows is a ValueError.  Without
    [remove_nan] the data of the timeseries play no part. *)
Theorem prediction_dates (self : Model) (st : Store) (ds : loc) (o : HydroDataset)
    (ts : Xr.Dataset) (predictions : ndarray) (basin : string) (n : Z)
    (time : list Xr.label) (remove_nan : bool) :
  objects st !! ds = Some o ->
  arrays st !! timeseries o = Some ts ->
  timesteps (_config self) = PInt n
  \/ (exists rest, timesteps (_config self) = PList (PInt n :: rest)) ->
  Xr.assoc "time" (Xr.coords ts) = Some time ->
  let first := start_date o + n + offset (_config self) - 1 in
  let window :=
    List.filter (fun l => Xr.label_leb (Xr.LInt first) l
                          && Xr.label_leb l (Xr.LInt (end_date o))) time in
  let dates := if remove_nan
               then List.filter (is_number_at ts basin (target_col o)) window
               else window in
  let data := map (fun row => nth 0 row Xr.NaN) (rows predictions) in
  let out := prediction_to_dataset self st ds predictions basin remove_nan in
  (forall r, out = Ok r ->
     Xr.coords r = [("time", dates); ("basin", [Xr.LStr basin])]
     /\ Xr.data_vars r
        = [(target_col o,
            {| Xr.dims := ["basin"; "time"];
               Xr.cells := map (fun tv : Xr.label * Xr.value =>
                                  ([("basin", Xr.LStr basin); ("time", fst tv)], snd tv))
                               (zip dates data) |})]
     /\ (0 < ncols predictions)%nat
     /\ length (rows predictions) = length dates)
  /\ (remove_nan = false ->
      ((0 < ncols predictions)%nat -> length (rows predictions) = length window ->
       exists r, out = Ok r)
      /\ (ncols predictions = 0%nat -> out = Raise IndexError)
      /\ ((0 < ncols predictions)%nat -> length (rows predictions) <> length window ->
          out = Raise ValueError)).
Proof.
  intros Ho Hts Hn Htime first window dates data out. subst out.
  unfold prediction_to_dataset. rewrite Ho.
  pose proof (timesteps_days self n Hn) as Hdays.
  destruct (if isinstance_int (timesteps (_config self))
            then Ok (timesteps (_config self))
            else (timesteps (_config self)).[PInt 0]) as [v|e]; [|discriminate].
  cbn [bind] in Hdays |- *. rewrite Hdays. cbn [bind]. rewrite Hts.
  fold first.
  destruct (sel_slice_returns "time" (Xr.LInt first) (Xr.LInt (end_date o)) ts time
              Htime) as [res_ds Hsel].
  rewrite Hsel. cbn [bind].
  assert (time_of res_ds = Ok window) as Hwindow.
  { unfold time_of. destruct (sel_slice_Ok _ _ _ _ _ Hsel) as (_ & _ & ->).
    rewrite Htime. reflexivity. }
  assert (remove_nan = true ->
          forall times, non_nan_times res_ds basin (target_col o) = Ok times ->
                        times = dates) as Hnan.
  { intros -> times. unfold non_nan_times.
    destruct (Xr.assoc "basin" (Xr.coords res_ds)) as [basins|]; [|discriminate].
    destruct (bool_decide _); [|discriminate].
    unfold getitem_var. rewrite (sel_slice_var _ _ _ _ _ (target_col o) Hsel).
    unfold dates, is_number_at.
    destruct (Xr.assoc (target_col o) (Xr.data_vars ts)) as [a|]; [|discriminate].
    cbn [option_map bind]. rewrite Hwindow. cbn [bind Xr.dims Xr.cells].
    destruct (bool_decide _); [|discriminate].
    intros H. injection H as <-.
    apply filter_ext_in_iff. intros t Ht. unfold window in Ht.
    apply filter_In in Ht as [_ Ht].
    rewrite find_filter; [reflexivity|].
    intros c _ Hc. unfold Xr.agree in Hc. cbn [forallb fst snd] in Hc.
    destruct (Xr.assoc "time" (fst c)) as [l|]; [|reflexivity].
    apply andb_prop in Hc as [_ Hc]. apply andb_prop in Hc as [Hc _].
    apply bool_decide_eq_true_1 in Hc. subst l. exact Ht. }
  assert (forall times, (if remove_nan then non_nan_times res_ds basin (target_col o)
                         else time_of res_ds) = Ok times -> times = dates) as Htimes.
  { intros times. destruct remove_nan; [apply Hnan; reflexivity|].
    rewrite Hwindow. intros H. injection H as <-. reflexivity. }
  split.
  - intros r.
    destruct (if remove_nan then non_nan_times res_ds basin (target_col o)
              else time_of res_ds) as [times|e] eqn:Et; [|discriminate].
    rewrite (Htimes times eq_refl). cbn [bind]. unfold column.
    destruct (Nat.ltb_spec 0 (ncols predictions)) as [Hc|Hc]; [|discriminate].
    cbn [bind]. fold data. unfold data_array.
    destruct (bool_decide (length data = length dates)) eqn:El; [|discriminate].
    apply bool_decide_eq_true_1 in El. cbn [bind].
    intros H. injection H as <-. unfold dataset_of_basin. cbn [Xr.coords Xr.data_vars].
    split; [reflexivity|]. split.
    + cbn [Xr.dims Xr.cells]. rewrite map_map. reflexivity.
    + split; [exact Hc|]. rewrite <- El. unfold data. rewrite length_map. reflexivity.
  - intros ->. cbv iota in dates. subst dates. rewrite Hwindow. cbn [bind].
    unfold column, data_array. fold data.
    assert (length data = length (rows predictions)) as Hlen
      by (unfold data; apply length_map).
    split; [|split].
    + intros Hc Hr. destruct (Nat.ltb_spec 0 (ncols predictions)) as [_|?]; [|lia].
      cbn [bind]. rewrite bool_decide_eq_true_2 by congruence. cbn [bind]. eauto.
    + intros Hc. destruct (Nat.ltb_spec 0 (ncols predictions)) as [?|_]; [lia|].
      reflexivity.
    + intros Hc Hr. destruct (Nat.ltb_spec 0 (ncols predictions)) as [_|?]; [|lia].
      cbn [bind]. rewrite bool_decide_eq_false_2 by congruence. reflexivity.
Qed.

Lemma prediction_dates_witness :
  exists r,
    prediction_to_dataset model_built store_observed 0%nat predictions_example
      "01013500" false = Ok r.
Proof.
  destruct (prediction_dates model_built store_observed 0%nat
              {| timeseries := 0%nat; feature_cols := ["prcp"; "streamflow"];
                 target_col := "streamflow"; start_date := 1; end_date := 4 |}
              ds_observation predictions_example "01013500" 2
              [Xr.LInt 1; Xr.LInt 2; Xr.LInt 3; Xr.LInt 4] false
              eq_refl eq_refl (or_introl eq_refl) eq_refl) as [_ H].
  destruct (H eq_refl) as (Hreturns & _). apply Hreturns; [cbn; lia|reflexivity].
Defined.

(** The two predictions of the example are dated with the days 3 and 4. *)
Example prediction_dates_example :
  option_map Xr.coords
    (match prediction_to_dataset model_built store_observed 0%nat predictions_example
             "01013500" true with
     | Ok r => Some r
     | Raise _ => None
     end)
  = Some [("time", [Xr.LInt 3; Xr.LInt 4]); ("basin", [Xr.LStr "01013500"])].
Proof. vm_compute. reflexivity. Qed.

(** ** What the merged dataset holds *)











(** On the time frame of the observations the predictions are NaN where
    there is none. *)
Example merge_on_observation_timeframe :
  option_map Xr.cells
    (match merge_observations_and_predictions ds_observation ds_prediction false with
     | Ok r => Xr.assoc "streamflow_pred" (Xr.data_vars r)
     | Raise _ => None
     end)
  = Some [(at_day "01013500" 1, Xr.NaN); (at_day "01013500" 2, Xr.NaN);
          (at_day "01013500" 3, num 7 2); (at_day "01013500" 4, num 9 2)].
Proof. vm_compute. reflexivity. Qed.

(** ** Fitting again *)

Lemma fit_outcome (ds : loc) (s : State) (o : HydroDataset) (ts : Xr.Dataset) :
  objects (store s) !! ds = Some o ->
  arrays (store s) !! timeseries o = Some ts ->
  DefaultDatasetProcessor.fit ds s =
  match fitted_params ts with
  | Ok p => (Ok tt, {| self := {| variables := Some (feature_cols o);
                                 scaling_params := Some p |};
                       store := store s |})
  | Raise e => (Raise e, s)
  end.
Proof.
  intros Ho Hts. unfold DefaultDatasetProcessor.fit. unfold and_then at 1.
  rewrite (fit_scaling_params_fitted ds s o ts Ho Hts).
  destruct (fitted_params ts) as [p|e]; [|reflexivity].
  unfold and_then, read_object, set_variables. cbn [store self objects]. rewrite Ho.
  reflexivity.
Qed.

(** X21.  [fit] replaces what an earlier fit stored and touches nothing
    else.  After a fit that returned, the store is as before (no object or
    array is changed and nothing is logged); a second fit that returns
    leaves the processor exactly as that fit alone would, with the
    parameters and the feature columns of its own dataset; and a second
    fit that raises leaves the parameters and variables of the first fit
    in place. *)
Theorem fit_replaces_earlier_fit (first second : loc) (s s1 : State)
    (o : HydroDataset) (ts : Xr.Dataset) :
  DefaultDatasetProcessor.fit first s = (Ok tt, s1) ->
  objects (store s) !! second = Some o ->
  arrays (store s) !! timeseries o = Some ts ->
  store s1 = store s
  /\ (forall s2, DefaultDatasetProcessor.fit second s = (Ok tt, s2) ->
                 DefaultDatasetProcessor.fit second s1 = (Ok tt, s2)
                 /\ variables (self s2) = Some (feature_cols o)
                 /\ exists p, fitted_params ts = Ok p
                              /\ scaling_params (self s2) = Some p)
  /\ (forall e, fst (DefaultDatasetProcessor.fit second s) = Raise e ->
                DefaultDatasetProcessor.fit second s1 = (Raise e, s1)).
Proof.
  intros Hfit Ho Hts.
  assert (store s1 = store s) as Hstore.
  { unfold DefaultDatasetProcessor.fit, DefaultDatasetProcessor.__fit_scaling_params
      in Hfit.
    revert Hfit. unfold_methods.
    destruct (objects (store s) !! first) as [o1|]; [|discriminate].
    destruct (arrays (store s) !! timeseries o1) as [x1|]; [|discriminate].
    destruct (forallb _ ["basin"; "time"; "y"; "x"]);
      [|destruct (forallb _ ["basin"; "time"]); [|discriminate]];
      run_method; destruct (objects (store s) !! first); try discriminate;
      intros H; injection H as <-; reflexivity. }
  split; [exact Hstore|].
  rewrite (fit_outcome second s o ts Ho Hts).
  rewrite (fit_outcome second s1 o ts) by (rewrite Hstore; assumption).
  rewrite Hstore.
  destruct (fitted_params ts) as [p|e]; cbn [fst].
  - split; [|discriminate].
    intros s2 H. injection H as <-. cbn [self variables scaling_params]. eauto.
  - split; [discriminate|]. intros e' H. injection H as <-. reflexivity.
Qed.

Lemma fit_replaces_earlier_fit_witness :
  DefaultDatasetProcessor.fit 1%nat (snd (DefaultDatasetProcessor.fit 0%nat state_new))
  = DefaultDatasetProcessor.fit 1%nat state_new
  /\ DefaultDatasetProcessor.fit 3%nat
       (snd (DefaultDatasetProcessor.fit 0%nat state_new))
     = (Raise ValueError, snd (DefaultDatasetProcessor.fit 0%nat state_new)).
Proof.
  destruct (fit_replaces_earlier_fit 0%nat 1%nat state_new
              (snd (DefaultDatasetProcessor.fit 0%nat state_new))
              (hydro 1%nat) ds_test eq_refl eq_refl eq_refl) as (_ & H & _).
  destruct (fit_replaces_earlier_fit 0%nat 3%nat state_new
              (snd (DefaultDatasetProcessor.fit 0%nat state_new))
              (hydro 3%nat) ds_no_time eq_refl eq_refl eq_refl) as (_ & _ & H').
  split.
  - destruct (H (snd (DefaultDatasetProcessor.fit 1%nat state_new)) eq_refl) as [-> _].
    reflexivity.
  - apply H'. reflexivity.
Defined.
